(** * Voicebot-STS: the speech-to-speech bridge of [sts_agent.py]

    A shallow embedding of the class [STSVoiceAgent] (src/sts_agent.py) and of
    the constants of src/config.py, followed by the properties of the bridge.

    Conventions of the embedding.
    - A coroutine of the class is a computation in the monad [M]: it reads and
      writes the attributes of [self] (the record [agent]), may raise a Python
      exception, and leaves a trace of the effects it performed, in program
      order.  [await] is sequencing: one coroutine body is run from one
      suspension to the next without another task in between.
    - What the outside world answers (the clock, whether a send, a close or a
      connection attempt raises, what the base64 decoder returns) is read from
      the record [env].
    - A WebSocket object is known by its identity, a number.
    - A message is the Python value [json.loads] returns (type [json]); a
      message on the way out is the value handed to [json.dumps].
    - Only subclasses of [Exception] are modelled. *)

From Stdlib Require Import ZArith String Ascii List Bool Lia.
From Stdlib Require Import PrimFloat SpecFloat FloatOps FloatAxioms.
From stdpp Require Import gmap strings.

#[local] Set Warnings "-inexact-float,-register-all".
#[local] Open Scope string_scope.
#[local] Open Scope list_scope.

(** ** Fragments of the Python runtime *)

Module Py.

(** Exception classes that the bridge tells apart, and the text [str(e)]. *)
Inductive exn_class : Type :=
| TimeoutError
| TypeError
| ValueError
| AttributeError
| JSONDecodeError
| UnicodeDecodeError
| BinasciiError
| ConnectionClosed
| OSError
| RuntimeError.

Record exn : Type := mk_exn { exn_kind : exn_class; exn_text : string }.

Inductive res (A : Type) : Type :=
| Ret (a : A)
| Raise (e : exn).
Arguments Ret {A} a.
Arguments Raise {A} e.

(** Values produced by [json.loads]: [JNull] is [None]. *)
Inductive json : Type :=
| JNull
| JBool (b : bool)
| JInt (n : Z)
| JFloat (x : float)
| JStr (s : string)
| JArr (xs : list json)
| JObj (kv : list (string * json)).

(** Items of a dict, first binding of a key. *)
Fixpoint assoc (k : string) (kv : list (string * json)) : option json :=
  match kv with
  | [] => None
  | (k', v) :: rest => if String.eqb k k' then Some v else assoc k rest
  end.

(** [d.get(k, default)]: an [AttributeError] when [d] is not a dict. *)
Definition get (d : json) (k : string) (default : json) : res json :=
  match d with
  | JObj kv => Ret (match assoc k kv with Some v => v | None => default end)
  | _ => Raise (mk_exn AttributeError "object has no attribute 'get'")
  end.

(** [v == s] for a string literal [s]. *)
Definition eq_str (v : json) (s : string) : bool :=
  match v with
  | JStr s' => String.eqb s' s
  | _ => false
  end.

(** Truth value of an object, as [if v:] tests it. *)
Definition truthy (v : json) : bool :=
  match v with
  | JNull => false
  | JBool b => b
  | JInt n => negb (n =? 0)%Z
  | JFloat x => negb (PrimFloat.eqb x 0%float)
  | JStr s => negb (String.eqb s "")
  | JArr xs => match xs with [] => false | _ :: _ => true end
  | JObj kv => match kv with [] => false | _ :: _ => true end
  end.

(** [str.lower], on the ASCII letters. *)
Definition ascii_lower (c : ascii) : ascii :=
  let n := nat_of_ascii c in
  if (65 <=? n)%nat && (n <=? 90)%nat then ascii_of_nat (n + 32) else c.

Fixpoint lower (s : string) : string :=
  match s with
  | EmptyString => EmptyString
  | String c rest => String (ascii_lower c) (lower rest)
  end.

(** [needle in hay] for strings. *)
Fixpoint contains (needle hay : string) : bool :=
  String.prefix needle hay ||
  match hay with
  | EmptyString => false
  | String _ rest => contains needle rest
  end.

(** [str.strip()].  A [str] is held as the bytes of its UTF-8 encoding.
    White space is what [str.isspace] accepts: the characters 9 to 13 and 28
    to 32, one byte each ([is_space]); U+0085 and U+00A0, two bytes each
    ([is_space2]); U+1680, U+2000 to U+200A, U+2028, U+2029, U+202F, U+205F
    and U+3000, three bytes each ([is_space3]). *)
Definition is_space (c : ascii) : bool :=
  let n := nat_of_ascii c in
  ((9 <=? n)%nat && (n <=? 13)%nat) || ((28 <=? n)%nat && (n <=? 32)%nat).

Definition is_space2 (c1 c2 : ascii) : bool :=
  let a := nat_of_ascii c1 in
  let b := nat_of_ascii c2 in
  (a =? 194)%nat && ((b =? 133)%nat || (b =? 160)%nat).

Definition is_space3 (c1 c2 c3 : ascii) : bool :=
  let a := nat_of_ascii c1 in
  let b := nat_of_ascii c2 in
  let c := nat_of_ascii c3 in
  ((a =? 225)%nat && (b =? 154)%nat && (c =? 128)%nat)
  || ((a =? 226)%nat && (b =? 128)%nat
      && (((128 <=? c)%nat && (c <=? 138)%nat)
          || (c =? 168)%nat || (c =? 169)%nat || (c =? 175)%nat))
  || ((a =? 226)%nat && (b =? 129)%nat && (c =? 159)%nat)
  || ((a =? 227)%nat && (b =? 128)%nat && (c =? 128)%nat).

Fixpoint lstrip (s : string) : string :=
  match s with
  | EmptyString => EmptyString
  | String c1 r1 =>
      if is_space c1 then lstrip r1
      else
        match r1 with
        | String c2 r2 =>
            if is_space2 c1 c2 then lstrip r2
            else
              match r2 with
              | String c3 r3 => if is_space3 c1 c2 c3 then lstrip r3 else s
              | EmptyString => s
              end
        | EmptyString => s
        end
  end.

(** What is left of [s] is white space exactly when [lstrip] leaves
    nothing of it (no white-space character starts with a continuation
    byte). *)
Fixpoint rstrip (s : string) : string :=
  match s with
  | EmptyString => EmptyString
  | String c rest =>
      if String.eqb (lstrip s) EmptyString then EmptyString else String c (rstrip rest)
  end.

Definition strip (s : string) : string := rstrip (lstrip s).

(** [s.rstrip('/')]. *)
Fixpoint rstrip_slash (s : string) : string :=
  match s with
  | EmptyString => EmptyString
  | String c rest =>
      match rstrip_slash rest with
      | EmptyString => if Ascii.eqb c "/" then EmptyString else String c EmptyString
      | r => String c r
      end
  end.

Fixpoint drop_chars (n : nat) (s : string) : string :=
  match n, s with
  | S n', String _ rest => drop_chars n' rest
  | _, _ => s
  end.

(** [s.replace(old, new)] for a non-empty [old]; [fuel] bounds the scan. *)
Fixpoint replace_from (fuel : nat) (old new s : string) : string :=
  match fuel with
  | O => s
  | S fuel' =>
      if String.prefix old s
      then new +:+ replace_from fuel' old new (drop_chars (String.length old) s)
      else match s with
           | EmptyString => EmptyString
           | String c rest => String c (replace_from fuel' old new rest)
           end
  end.

Definition replace (old new s : string) : string :=
  replace_from (S (String.length s)) old new s.

(** Numbers: [bool] is a subclass of [int]. *)
Inductive num : Type :=
| NInt (n : Z)
| NFloat (x : float).

Definition as_num (v : json) : option num :=
  match v with
  | JBool b => Some (NInt (if b then 1 else 0))
  | JInt n => Some (NInt n)
  | JFloat x => Some (NFloat x)
  | _ => None
  end.

(** An [int] and a [float] are compared by their exact values. *)
Definition Z_ltb_float (n : Z) (x : float) : bool :=
  match Prim2SF x with
  | S754_zero _ => (n <? 0)%Z
  | S754_infinity neg => negb neg
  | S754_nan => false
  | S754_finite neg m e =>
      let v := if neg then Z.neg m else Z.pos m in
      if (0 <=? e)%Z then (n <? v * 2 ^ e)%Z else (n * 2 ^ (- e) <? v)%Z
  end.

Definition float_ltb_Z (x : float) (n : Z) : bool :=
  match Prim2SF x with
  | S754_zero _ => (0 <? n)%Z
  | S754_infinity neg => neg
  | S754_nan => false
  | S754_finite neg m e =>
      let v := if neg then Z.neg m else Z.pos m in
      if (0 <=? e)%Z then (v * 2 ^ e <? n)%Z else (v <? n * 2 ^ (- e))%Z
  end.

Definition num_ltb (a b : num) : bool :=
  match a, b with
  | NInt m, NInt n => (m <? n)%Z
  | NFloat x, NFloat y => PrimFloat.ltb x y
  | NInt m, NFloat y => Z_ltb_float m y
  | NFloat x, NInt n => float_ltb_Z x n
  end.

(** [a < b]: a [TypeError] unless both are numbers (the bridge compares a
    message field with a float literal only). *)
Definition lt (a b : json) : res bool :=
  match as_num a, as_num b with
  | Some x, Some y => Ret (num_ltb x y)
  | _, _ => Raise (mk_exn TypeError "'<' not supported between instances")
  end.

(** [min(a, b)] keeps [a] unless [b < a]; [max(a, b)] keeps [a] unless
    [b > a]. *)
Definition min (a b : json) : res json :=
  match lt b a with
  | Ret c => Ret (if c then b else a)
  | Raise e => Raise e
  end.

Definition max (a b : json) : res json :=
  match lt a b with
  | Ret c => Ret (if c then b else a)
  | Raise e => Raise e
  end.

(** [str(x)] inside an f-string for a value that may be [None]. *)
Definition str_of (o : option string) : string :=
  match o with
  | Some s => s
  | None => "None"
  end.

(** Truth value of an environment string ([None] and [''] are false). *)
Definition truthy_opt (o : option string) : bool :=
  match o with
  | Some s => negb (String.eqb s "")
  | None => false
  end.

(** [s.strip(chars)]: the characters of the set [p] are removed from both
    ends. *)
Fixpoint lstrip_chars (p : ascii -> bool) (s : string) : string :=
  match s with
  | EmptyString => EmptyString
  | String c rest => if p c then lstrip_chars p rest else s
  end.

Fixpoint rstrip_chars (p : ascii -> bool) (s : string) : string :=
  match s with
  | EmptyString => EmptyString
  | String c rest =>
      match rstrip_chars p rest with
      | EmptyString => if p c then EmptyString else String c EmptyString
      | r => String c r
      end
  end.

Definition strip_chars (p : ascii -> bool) (s : string) : string :=
  rstrip_chars p (lstrip_chars p s).

End Py.

(** ** The constants of [config.py] *)

Module config.

(** What [config.py] reads from the process environment. *)
Record settings : Type := {
  USE_AZURE : bool;
  OPENAI_API_KEY : option string;
  AZURE_OPENAI_ENDPOINT : option string;
  AZURE_OPENAI_API_KEY : option string;
  AZURE_OPENAI_DEPLOYMENT : option string;
  AZURE_API_VERSION : string;
  ENABLE_RECORDINGS : bool
}.

Definition REALTIME_MODEL : string := "gpt-4o-realtime-preview-2024-12-17".
Definition REALTIME_WS_URL : string := "wss://api.openai.com/v1/realtime".

Definition SAMPLE_RATE : Z := 24000.
Definition AUDIO_FORMAT : string := "pcm16".

Definition VOICE : string := "alloy".

Definition SYSTEM_PROMPT : string :=
"You are a helpful voice assistant. Keep your responses concise and natural 
for voice conversation, ideally 1-3 sentences unless more detail is specifically requested. 
Speak in a friendly, conversational tone.".

Definition TURN_DETECTION_TYPE : string := "server_vad".
Definition TURN_DETECTION_THRESHOLD : float := 0.7%float.
Definition TURN_DETECTION_PREFIX_PADDING_MS : Z := 200.
Definition TURN_DETECTION_SILENCE_DURATION_MS : Z := 700.

Definition DEBUG : bool := true.
Definition VERBOSE : bool := false.

(** [validate_config]: the values the selected provider needs are set. *)
Definition missing (name : string) (value : option string) : list string :=
  if Py.truthy_opt value then [] else [name +:+ " not set"].

Definition validate_config (cfg : settings) : Py.res unit :=
  let errors :=
    if USE_AZURE cfg then
      missing "AZURE_OPENAI_ENDPOINT" (AZURE_OPENAI_ENDPOINT cfg)
      ++ missing "AZURE_OPENAI_API_KEY" (AZURE_OPENAI_API_KEY cfg)
      ++ missing "AZURE_OPENAI_DEPLOYMENT" (AZURE_OPENAI_DEPLOYMENT cfg)
    else
      missing "OPENAI_API_KEY" (OPENAI_API_KEY cfg) in
  match errors with
  | [] => Py.Ret tt
  | _ :: _ =>
      Py.Raise (Py.mk_exn Py.ValueError
                  ("Configuration errors: " +:+ String.concat ", " errors))
  end.

(** The double and the single quote, the two characters that
    [_strip_quotes] strips. *)
Definition is_quote (c : ascii) : bool :=
  Ascii.eqb c (ascii_of_nat 34) || Ascii.eqb c (ascii_of_nat 39).

(** [_strip_quotes]: [None] and [''] are returned as they are. *)
Definition _strip_quotes (value : option string) : option string :=
  match value with
  | Some s => if Py.truthy_opt value then Some (Py.strip_chars is_quote s) else value
  | None => None
  end.

(** [os.getenv(name, default)]. *)
Definition getenv_or (getenv : string -> option string) (name default : string) : string :=
  match getenv name with
  | Some v => v
  | None => default
  end.

(** The module-level assignments of [config.py] that read the environment. *)
Definition from_environ (getenv : string -> option string) : settings :=
  {| USE_AZURE := String.eqb (Py.lower (getenv_or getenv "USE_AZURE" "false")) "true";
     OPENAI_API_KEY := getenv "OPENAI_API_KEY";
     AZURE_OPENAI_ENDPOINT := _strip_quotes (getenv "AZURE_OPENAI_ENDPOINT");
     AZURE_OPENAI_API_KEY := _strip_quotes (getenv "AZURE_OPENAI_API_KEY");
     AZURE_OPENAI_DEPLOYMENT := _strip_quotes (getenv "AZURE_OPENAI_DEPLOYMENT");
     AZURE_API_VERSION :=
       Py.str_of (_strip_quotes
                    (Some (getenv_or getenv "AZURE_API_VERSION" "2024-10-01-preview")));
     ENABLE_RECORDINGS :=
       String.eqb (Py.lower (getenv_or getenv "ENABLE_RECORDINGS" "false")) "true" |}.

End config.

(** ** State, effects and the outside world *)

Import Py.

(** Identity of a WebSocket object (browser side or provider side). *)
Definition ws_handle : Type := nat.

(** The attributes of an [STSVoiceAgent]. *)
Record agent : Type := mk_agent {
  active_connections : gset ws_handle;
  openai_ws : option ws_handle;
  session_configured : bool;
  audio_recordings : gmap ws_handle (list (list Byte.byte));
  current_response_id : json;
  is_responding : bool;
  last_error_time : float;
  error_count : Z
}.

(** [STSVoiceAgent.__init__]. *)
Definition init : agent :=
  {| active_connections := ∅;
     openai_ws := None;
     session_configured := false;
     audio_recordings := ∅;
     current_response_id := JNull;
     is_responding := false;
     last_error_time := 0%float;
     error_count := 0 |}.

Definition set_active_connections (v : gset ws_handle) (s : agent) : agent :=
  mk_agent v (openai_ws s) (session_configured s) (audio_recordings s)
           (current_response_id s) (is_responding s) (last_error_time s) (error_count s).

Definition set_openai_ws (v : option ws_handle) (s : agent) : agent :=
  mk_agent (active_connections s) v (session_configured s) (audio_recordings s)
           (current_response_id s) (is_responding s) (last_error_time s) (error_count s).

Definition set_session_configured (v : bool) (s : agent) : agent :=
  mk_agent (active_connections s) (openai_ws s) v (audio_recordings s)
           (current_response_id s) (is_responding s) (last_error_time s) (error_count s).

Definition set_audio_recordings (v : gmap ws_handle (list (list Byte.byte))) (s : agent) : agent :=
  mk_agent (active_connections s) (openai_ws s) (session_configured s) v
           (current_response_id s) (is_responding s) (last_error_time s) (error_count s).

Definition set_current_response_id (v : json) (s : agent) : agent :=
  mk_agent (active_connections s) (openai_ws s) (session_configured s) (audio_recordings s)
           v (is_responding s) (last_error_time s) (error_count s).

Definition set_is_responding (v : bool) (s : agent) : agent :=
  mk_agent (active_connections s) (openai_ws s) (session_configured s) (audio_recordings s)
           (current_response_id s) v (last_error_time s) (error_count s).

Definition set_last_error_time (v : float) (s : agent) : agent :=
  mk_agent (active_connections s) (openai_ws s) (session_configured s) (audio_recordings s)
           (current_response_id s) (is_responding s) v (error_count s).

Definition set_error_count (v : Z) (s : agent) : agent :=
  mk_agent (active_connections s) (openai_ws s) (session_configured s) (audio_recordings s)
           (current_response_id s) (is_responding s) (last_error_time s) v.

(** The keyword under which [websockets.connect] is given the headers. *)
Inductive header_kw : Type :=
| additional_headers
| extra_headers.

(** Console output. *)
Inductive diag : Type :=
| DSkipClosed
| DCouldNotSend (e : exn)
| DConnecting
| DAttempt (kw : header_kw)
| DConnected
| DConnectTimeout
| DConnectFailed (e : exn)
| DSessionConfigured
| DVadUpdated (threshold : json)
| DBrowserConnected
| DClosingOld (n : nat)
| DSessionStarted
| DForwardingAudio (n : nat)
| DErrSendingAudio (k : exn_class)
| DCannotSendAudio
| DResponseCancelled
| DInvalidJsonBrowser
| DErrProcessingBrowser (e : exn)
| DBrowserDisconnected (k : exn_class)
| DBrowserError (e : exn)
| DCannotReceive
| DOpenAIEvent (event_type : json)
| DSessionCreated
| DSessionUpdated
| DSpeechDetected
| DSpeechEnded
| DBufferCommitted
| DUserSaid (transcript : json)
| DAISaid (transcript : json)
| DResponseComplete
| DBenignError (error_msg : string)
| DOpenAIError (error : json)
| DInvalidJsonOpenAI
| DErrProcessingOpenAI (e : exn)
| DRecordingSaved (file : string)
| DErrSavingRecording (e : exn).

(** What a coroutine does to the outside, in program order. *)
Inductive effect : Type :=
| Print (d : diag)
| UpstreamConnect (url : string) (kw : header_kw) (headers : list (string * string))
| UpstreamSend (u : ws_handle) (cmd : json)
| UpstreamClose (u : ws_handle)
| BrowserClose (w : ws_handle)
| ToBrowser (w : ws_handle) (msg : json)
| BrowserSendStr (w : ws_handle) (msg : json)
| WavWrite (file : string) (nchannels sampwidth framerate : Z) (frames : list Byte.byte)
| TaskCreate (w : ws_handle)
| TaskCancel (w : ws_handle).

Inductive connect_outcome : Type :=
| Connected (u : ws_handle)
| Refused (e : exn).

(** The answers of the outside world during one step. *)
Record env : Type := {
  time_time : float;
  ws_connect : string -> header_kw -> list (string * string) -> connect_outcome;
  ws_send : ws_handle -> json -> option exn;
  ws_close : ws_handle -> option exn;
  browser_closed : ws_handle -> bool;
  browser_send : ws_handle -> json -> option exn;
  browser_close : ws_handle -> option exn;
  b64decode : string -> option (list Byte.byte);
  quote_plus : string -> string;
  strftime_now : string;
  wave_write : string -> list Byte.byte -> option exn
}.

(** What the iteration over a socket yields: the payload as [json.loads]
    reads it. *)
Inductive frame : Type :=
| Undecodable
| NotJson (text : string)
| Json (data : json).

(** ** The monad of coroutine bodies *)

Definition M (A : Type) : Type := agent -> res A * agent * list effect.

Definition ret {A : Type} (a : A) : M A := fun s => (Ret a, s, []).

Definition bind {A B : Type} (m : M A) (f : A -> M B) : M B :=
  fun s =>
    match m s with
    | (Ret a, s1, t1) =>
        match f a s1 with
        | (r, s2, t2) => (r, s2, t1 ++ t2)
        end
    | (Raise e, s1, t1) => (Raise e, s1, t1)
    end.

Definition raise {A : Type} (e : exn) : M A := fun s => (Raise e, s, []).

(** [try: m except Exception as e: h e]. *)
Definition try_except {A : Type} (m : M A) (h : exn -> M A) : M A :=
  fun s =>
    match m s with
    | (Ret a, s1, t1) => (Ret a, s1, t1)
    | (Raise e, s1, t1) =>
        match h e s1 with
        | (r, s2, t2) => (r, s2, t1 ++ t2)
        end
    end.

Definition emit (x : effect) : M unit := fun s => (Ret tt, s, [x]).
Definition print (d : diag) : M unit := emit (Print d).
Definition self : M agent := fun s => (Ret s, s, []).
Definition modify (f : agent -> agent) : M unit := fun s => (Ret tt, f s, []).
Definition lift {A : Type} (r : res A) : M A := fun s => (r, s, []).
Definition when (b : bool) (m : M unit) : M unit := if b then m else ret tt.

(** An awaited call that may raise: the attempt is an effect. *)
Definition attempt (x : effect) (outcome : option exn) : M unit :=
  bind (emit x) (fun _ => match outcome with Some e => raise e | None => ret tt end).

Declare Scope py_scope.
Delimit Scope py_scope with py.
Notation "x <- m ;; k" := (bind m (fun x => k))
  (at level 100, m at next level, right associativity) : py_scope.
Notation "m ;; k" := (bind m (fun _ => k))
  (at level 100, right associativity) : py_scope.
#[local] Open Scope py_scope.

Fixpoint for_each {A : Type} (xs : list A) (body : A -> M unit) : M unit :=
  match xs with
  | [] => ret tt
  | x :: rest => body x ;; for_each rest body
  end.

Definition state_of {A : Type} (r : res A * agent * list effect) : agent := snd (fst r).
Definition trace_of {A : Type} (r : res A * agent * list effect) : list effect := snd r.
Definition result_of {A : Type} (r : res A * agent * list effect) : res A := fst (fst r).

(** Projections of a trace. *)
Definition upstream_commands (t : list effect) : list json :=
  flat_map (fun x => match x with UpstreamSend _ cmd => [cmd] | _ => [] end) t.

Definition client_messages (t : list effect) : list json :=
  flat_map (fun x => match x with ToBrowser _ msg => [msg] | _ => [] end) t.

Definition wire_messages (t : list effect) : list json :=
  flat_map (fun x => match x with BrowserSendStr _ msg => [msg] | _ => [] end) t.

Definition diagnostics (t : list effect) : list diag :=
  flat_map (fun x => match x with Print d => [d] | _ => [] end) t.

Definition files_written (t : list effect) : list string :=
  flat_map (fun x => match x with WavWrite file _ _ _ _ => [file] | _ => [] end) t.

(** ** The methods of [STSVoiceAgent] *)

Section STSVoiceAgent.

Variable cfg : config.settings.

(** [_send_ws_message]: the call is recorded as [ToBrowser]; the frame goes
    on the wire ([BrowserSendStr]) unless the socket is closed or closing, and
    whatever the send raises is swallowed. *)
Definition _send_ws_message (E : env) (websocket : ws_handle) (message : json) : M unit :=
  emit (ToBrowser websocket message) ;;
  try_except
    (if browser_closed E websocket
     then when config.DEBUG (print DSkipClosed)
     else attempt (BrowserSendStr websocket message) (browser_send E websocket message))
    (fun e => when config.DEBUG (print (DCouldNotSend e))).

(** [initialize]: the configuration is validated before the server starts. *)
Definition initialize : M unit := lift (config.validate_config cfg).

(** The URL and the headers of the provider chosen by [USE_AZURE]. *)
Definition provider_endpoint (E : env) : res (string * list (string * string)) :=
  if config.USE_AZURE cfg then
    if negb (truthy_opt (config.AZURE_OPENAI_ENDPOINT cfg)
             && truthy_opt (config.AZURE_OPENAI_API_KEY cfg)
             && truthy_opt (config.AZURE_OPENAI_DEPLOYMENT cfg))
    then Raise (mk_exn ValueError
           "Azure OpenAI requires AZURE_OPENAI_ENDPOINT, AZURE_OPENAI_API_KEY, and AZURE_OPENAI_DEPLOYMENT environment variables")
    else
      let clean_endpoint :=
        replace "http://" "ws://"
          (replace "https://" "wss://"
             (rstrip_slash (str_of (config.AZURE_OPENAI_ENDPOINT cfg)))) in
      let query_params :=
        "api-version=" +:+ quote_plus E (config.AZURE_API_VERSION cfg) +:+
        "&deployment=" +:+ quote_plus E (str_of (config.AZURE_OPENAI_DEPLOYMENT cfg)) in
      Ret (clean_endpoint +:+ "/openai/realtime?" +:+ query_params,
           [("api-key", str_of (config.AZURE_OPENAI_API_KEY cfg))])
  else
    Ret (config.REALTIME_WS_URL +:+ "?model=" +:+ config.REALTIME_MODEL,
         [("Authorization", "Bearer " +:+ str_of (config.OPENAI_API_KEY cfg));
          ("OpenAI-Beta", "realtime=v1")]).

(** [self.openai_ws = await asyncio.wait_for(websockets.connect(...), 30.0)]. *)
Definition open_upstream (E : env) (kw : header_kw) (url : string)
    (headers : list (string * string)) : M unit :=
  emit (UpstreamConnect url kw headers) ;;
  match ws_connect E url kw headers with
  | Connected u => modify (set_openai_ws (Some u))
  | Refused e => raise e
  end.

Definition connect_to_openai (E : env) : M bool :=
  target <- lift (provider_endpoint E) ;;
  let url := fst target in
  let headers := snd target in
  print DConnecting ;;
  try_except
    (print (DAttempt additional_headers) ;;
     open_upstream E additional_headers url headers ;;
     print DConnected ;;
     ret true)
    (fun e =>
       match exn_kind e with
       | TimeoutError => print DConnectTimeout ;; ret false
       | TypeError =>
           if contains "additional_headers" (exn_text e)
              || contains "extra_headers" (exn_text e)
           then
             try_except
               (print (DAttempt extra_headers) ;;
                open_upstream E extra_headers url headers ;;
                print DConnected ;;
                ret true)
               (fun e2 =>
                  match exn_kind e2 with
                  | TimeoutError => print DConnectTimeout ;; ret false
                  | _ => print (DConnectFailed e2) ;; ret false
                  end)
           else raise e
       | _ => print (DConnectFailed e) ;; ret false
       end).

Definition session_config : json :=
  JObj [("type", JStr "session.update");
        ("session", JObj [
           ("modalities", JArr [JStr "text"; JStr "audio"]);
           ("instructions", JStr config.SYSTEM_PROMPT);
           ("voice", JStr config.VOICE);
           ("input_audio_format", JStr config.AUDIO_FORMAT);
           ("output_audio_format", JStr config.AUDIO_FORMAT);
           ("input_audio_transcription",
              JObj [("model", JStr "whisper-1"); ("language", JStr "en")]);
           ("turn_detection", JObj [
              ("type", JStr config.TURN_DETECTION_TYPE);
              ("threshold", JFloat config.TURN_DETECTION_THRESHOLD);
              ("prefix_padding_ms", JInt config.TURN_DETECTION_PREFIX_PADDING_MS);
              ("silence_duration_ms", JInt config.TURN_DETECTION_SILENCE_DURATION_MS)])])].

Definition configure_session (E : env) : M bool :=
  s <- self ;;
  match openai_ws s with
  | None => ret false
  | Some u =>
      attempt (UpstreamSend u session_config) (ws_send E u session_config) ;;
      modify (set_session_configured true) ;;
      print DSessionConfigured ;;
      ret true
  end.

(** [max(0.0, min(1.0, threshold))]. *)
Definition clamp_threshold (threshold : json) : res json :=
  match Py.min (JFloat 1.0%float) threshold with
  | Ret m => Py.max (JFloat 0.0%float) m
  | Raise e => Raise e
  end.

Definition update_config (threshold : json) : json :=
  JObj [("type", JStr "session.update");
        ("session", JObj [
           ("turn_detection", JObj [
              ("type", JStr "server_vad");
              ("threshold", threshold);
              ("prefix_padding_ms", JInt config.TURN_DETECTION_PREFIX_PADDING_MS);
              ("silence_duration_ms", JInt config.TURN_DETECTION_SILENCE_DURATION_MS)])])].

Definition update_vad_threshold (E : env) (threshold : json) : M unit :=
  s <- self ;;
  match openai_ws s with
  | None => ret tt
  | Some u =>
      threshold' <- lift (clamp_threshold threshold) ;;
      attempt (UpstreamSend u (update_config threshold'))
              (ws_send E u (update_config threshold')) ;;
      print (DVadUpdated threshold')
  end.

Definition greeting : string :=
  "Hello! I'm your STS voice assistant. Just start speaking and I'll respond.".

Definition conversation_item (role text : string) : json :=
  JObj [("type", JStr "conversation.item.create");
        ("item", JObj [
           ("type", JStr "message");
           ("role", JStr role);
           ("content", JArr [JObj [("type", JStr "input_text"); ("text", JStr text)]])])].

Definition send_greeting (E : env) : M unit :=
  s <- self ;;
  match openai_ws s with
  | None => ret tt
  | Some u =>
      let item := conversation_item "assistant" greeting in
      let create :=
        JObj [("type", JStr "response.create");
              ("response", JObj [("modalities", JArr [JStr "text"; JStr "audio"])])] in
      attempt (UpstreamSend u item) (ws_send E u item) ;;
      attempt (UpstreamSend u create) (ws_send E u create)
  end.

Definition send_text_message (E : env) (text : string) : M unit :=
  s <- self ;;
  match openai_ws s with
  | None => ret tt
  | Some u =>
      let item := conversation_item "user" text in
      let create := JObj [("type", JStr "response.create")] in
      attempt (UpstreamSend u item) (ws_send E u item) ;;
      attempt (UpstreamSend u create) (ws_send E u create)
  end.

Definition del_recording (websocket : ws_handle) : M unit :=
  modify (fun s => set_audio_recordings (delete websocket (audio_recordings s)) s).

Definition save_recording (E : env) (websocket : ws_handle) : M unit :=
  s <- self ;;
  match audio_recordings s !! websocket with
  | None => ret tt
  | Some audio_chunks =>
      match audio_chunks with
      | [] => del_recording websocket
      | _ :: _ =>
          try_except
            (let audio_data := List.concat audio_chunks in
             if (List.length audio_data =? 0)%nat then del_recording websocket
             else
               let filename := "recording_" +:+ strftime_now E +:+ ".wav" in
               (if config.ENABLE_RECORDINGS cfg then ret tt
                else raise (mk_exn TypeError
                       "unsupported operand type(s) for /: 'NoneType' and 'str'")) ;;
               attempt (WavWrite filename 1 2 config.SAMPLE_RATE audio_data)
                       (wave_write E filename audio_data) ;;
               print (DRecordingSaved filename) ;;
               del_recording websocket)
            (fun e =>
               print (DErrSavingRecording e) ;;
               s' <- self ;;
               when (bool_decide (websocket ∈ dom (audio_recordings s')))
                    (del_recording websocket))
      end
  end.

Definition cleanup (E : env) : M unit :=
  s <- self ;;
  when (config.ENABLE_RECORDINGS cfg)
       (for_each (elements (dom (audio_recordings s))) (save_recording E)) ;;
  s' <- self ;;
  match openai_ws s' with
  | Some u => attempt (UpstreamClose u) (ws_close E u)
  | None => ret tt
  end.

(** The error throttle: a diagnostic is printed when more than a second has
    passed since the last printed one; every error is counted. *)
Definition throttled (E : env) (d : diag) : M unit :=
  s <- self ;;
  let current_time := time_time E in
  when (PrimFloat.ltb 1.0%float (PrimFloat.sub current_time (last_error_time s)))
       (print d ;;
        modify (set_last_error_time current_time) ;;
        modify (set_error_count 0)) ;;
  modify (fun s' => set_error_count (error_count s' + 1) s').

(** [json.loads] on the payload of a frame. *)
Definition loads (message : frame) : M json :=
  match message with
  | Undecodable => raise (mk_exn UnicodeDecodeError "invalid start byte")
  | NotJson _ => raise (mk_exn JSONDecodeError "Expecting value")
  | Json data => ret data
  end.

Definition base64_b64decode (E : env) (v : json) : res (list Byte.byte) :=
  match v with
  | JStr s =>
      match b64decode E s with
      | Some bytes => Ret bytes
      | None => Raise (mk_exn BinasciiError "Incorrect padding")
      end
  | _ => Raise (mk_exn TypeError "argument should be a bytes-like object or ASCII string")
  end.

(** [v.strip()] and [v.lower()]: an [AttributeError] when [v] is not a str. *)
Definition str_strip (v : json) : res string :=
  match v with
  | JStr s => Ret (strip s)
  | _ => Raise (mk_exn AttributeError "object has no attribute 'strip'")
  end.

Definition str_lower (v : json) : res string :=
  match v with
  | JStr s => Ret (lower s)
  | _ => Raise (mk_exn AttributeError "object has no attribute 'lower'")
  end.

(** Lines 267 to 285 of [handle_browser_websocket]: the session that is in
    place, if any, is closed, and the new socket becomes the only active one. *)
Definition supersede (E : env) (websocket : ws_handle) : M unit :=
  s <- self ;;
  when (negb (bool_decide (active_connections s = ∅)))
       (print (DClosingOld (size (active_connections s))) ;;
        match openai_ws s with
        | Some u =>
            try_except (attempt (UpstreamClose u) (ws_close E u)) (fun _ => ret tt) ;;
            modify (set_openai_ws None)
        | None => ret tt
        end ;;
        for_each (elements (active_connections s))
          (fun old_ws =>
             try_except (attempt (BrowserClose old_ws) (browser_close E old_ws))
                        (fun _ => ret tt)) ;;
        modify (set_active_connections ∅)) ;;
  modify (fun s' => set_active_connections ({[websocket]} ∪ active_connections s') s').

Definition connect_failed : json :=
  JObj [("type", JStr "error"); ("message", JStr "Failed to connect to OpenAI Realtime API")].

(** Lines 287 to 300 of [handle_browser_websocket]: the upstream connection
    of the new session; [false] when the handler returns without a session. *)
Definition open_session (E : env) (websocket : ws_handle) : M bool :=
  ok <- connect_to_openai E ;;
  if negb ok then
    _send_ws_message E websocket connect_failed ;;
    ret false
  else
    configure_session E ;;
    emit (TaskCreate websocket) ;;
    ret true.

(** [handle_browser_websocket] up to the message loop (lines 254 to 300). *)
Definition accept (E : env) (websocket : ws_handle) : M bool :=
  print DBrowserConnected ;;
  supersede E websocket ;;
  open_session E websocket.

Definition audio_append (audio_base64 : json) : json :=
  JObj [("type", JStr "input_audio_buffer.append"); ("audio", audio_base64)].

Definition response_cancel : json := JObj [("type", JStr "response.cancel")].

Definition record_chunk (websocket : ws_handle) (chunk : list Byte.byte) (s : agent) : agent :=
  match audio_recordings s !! websocket with
  | Some chunks => set_audio_recordings (<[websocket := chunks ++ [chunk]]> (audio_recordings s)) s
  | None => s
  end.

(** The body of the loop over the browser's frames (lines 304 to 397). *)
Definition on_browser_message (E : env) (websocket : ws_handle) (message : frame) : M unit :=
  try_except
    (data <- loads message ;;
     msg_type <- lift (get data "type" JNull) ;;
     if eq_str msg_type "session_start" then
       print DSessionStarted ;;
       send_greeting E
     else if eq_str msg_type "input_audio_buffer.append" then
       audio_base64 <- lift (get data "audio" (JStr "")) ;;
       when config.VERBOSE
            (audio_bytes <- lift (base64_b64decode E audio_base64) ;;
             print (DForwardingAudio (List.length audio_bytes))) ;;
       when (config.ENABLE_RECORDINGS cfg)
            (modify (fun s =>
               match audio_recordings s !! websocket with
               | None => set_audio_recordings (<[websocket := []]> (audio_recordings s)) s
               | Some _ => s
               end) ;;
             chunk <- lift (base64_b64decode E audio_base64) ;;
             modify (record_chunk websocket chunk)) ;;
       s <- self ;;
       match openai_ws s with
       | Some u =>
           try_except
             (attempt (UpstreamSend u (audio_append audio_base64))
                      (ws_send E u (audio_append audio_base64)))
             (fun e =>
                throttled E (DErrSendingAudio (exn_kind e)) ;;
                when (contains "closed" (lower (exn_text e))
                      || contains "connection" (lower (exn_text e)))
                     (modify (set_openai_ws None)))
       | None => throttled E DCannotSendAudio
       end
     else if eq_str msg_type "interrupt" then
       s <- self ;;
       match is_responding s && truthy (current_response_id s), openai_ws s with
       | true, Some u =>
           attempt (UpstreamSend u response_cancel) (ws_send E u response_cancel) ;;
           print DResponseCancelled
       | _, _ => ret tt
       end
     else if eq_str msg_type "text_message" then
       raw <- lift (get data "text" (JStr "")) ;;
       text <- lift (str_strip raw) ;;
       when (negb (String.eqb text "")) (send_text_message E text)
     else if eq_str msg_type "update_sensitivity" then
       threshold <- lift (get data "threshold" (JFloat 0.7%float)) ;;
       update_vad_threshold E threshold
     else ret tt)
    (fun e =>
       match exn_kind e with
       | JSONDecodeError => print DInvalidJsonBrowser
       | _ => throttled E (DErrProcessingBrowser e)
       end).

(** The [finally] clause of [handle_browser_websocket] (lines 403 to 416). *)
Definition teardown (E : env) (websocket : ws_handle) : M unit :=
  emit (TaskCancel websocket) ;;
  s <- self ;;
  when (config.ENABLE_RECORDINGS cfg && bool_decide (websocket ∈ dom (audio_recordings s)))
       (save_recording E websocket) ;;
  s' <- self ;;
  match openai_ws s' with
  | Some u =>
      attempt (UpstreamClose u) (ws_close E u) ;;
      modify (set_openai_ws None)
  | None => ret tt
  end ;;
  modify (fun s'' => set_active_connections (active_connections s'' ∖ {[websocket]}) s'') ;;
  modify (set_session_configured false).

(** The loop [async for message in websocket]: one body per frame, each with
    the answers of the world at that time. *)
Fixpoint browser_loop (websocket : ws_handle) (frames : list (env * frame)) : M unit :=
  match frames with
  | [] => ret tt
  | (E, message) :: rest =>
      on_browser_message E websocket message ;;
      browser_loop websocket rest
  end.

(** [handle_browser_websocket]: [ending] is what stops the iteration, the
    end of the stream ([None]) or an exception of the socket, which the
    [except] clauses print ([TimeoutError] is an [OSError]); the [finally]
    clause runs in both cases.  The task of [receive_from_openai] runs beside
    the loop and is not interleaved here, and no other client arrives between
    the start and the [finally] clause: for those runs see [session_steps]. *)
Definition handle_browser_websocket (E : env) (websocket : ws_handle)
    (frames : list (env * frame)) (ending : option exn) (E' : env) : M unit :=
  go <- accept E websocket ;;
  when go
    (try_except
       (browser_loop websocket frames ;;
        match ending with
        | None => ret tt
        | Some e => raise e
        end)
       (fun e =>
          match exn_kind e with
          | ConnectionClosed | OSError | TimeoutError =>
              print (DBrowserDisconnected (exn_kind e))
          | _ => print (DBrowserError e)
          end) ;;
     teardown E' websocket).

Definition simple (type : string) : json := JObj [("type", JStr type)].

(** The body of the loop of [receive_from_openai] (lines 426 to 555). *)
Definition on_openai_message (E : env) (browser_ws : ws_handle) (message : frame) : M unit :=
  try_except
    (event <- loads message ;;
     event_type <- lift (get event "type" (JStr "")) ;;
     when (config.DEBUG && negb (eq_str event_type "response.audio.delta"))
          (print (DOpenAIEvent event_type)) ;;
     if eq_str event_type "session.created" then print DSessionCreated
     else if eq_str event_type "session.updated" then print DSessionUpdated
     else if eq_str event_type "input_audio_buffer.speech_started" then
       _send_ws_message E browser_ws (simple "speech_started") ;;
       when config.DEBUG (print DSpeechDetected)
     else if eq_str event_type "input_audio_buffer.speech_stopped" then
       _send_ws_message E browser_ws (simple "speech_stopped") ;;
       when config.DEBUG (print DSpeechEnded)
     else if eq_str event_type "input_audio_buffer.committed" then
       when config.DEBUG (print DBufferCommitted)
     else if eq_str event_type "conversation.item.input_audio_transcription.completed" then
       transcript <- lift (get event "transcript" (JStr "")) ;;
       when (truthy transcript)
            (_send_ws_message E browser_ws
               (JObj [("type", JStr "transcript"); ("text", transcript)]) ;;
             when config.DEBUG (print (DUserSaid transcript)))
     else if eq_str event_type "response.created" then
       response <- lift (get event "response" (JObj [])) ;;
       id <- lift (get response "id" JNull) ;;
       modify (set_current_response_id id) ;;
       modify (set_is_responding true) ;;
       _send_ws_message E browser_ws
         (JObj [("type", JStr "thinking"); ("status", JStr "start")])
     else if eq_str event_type "response.output_item.added" then ret tt
     else if eq_str event_type "response.content_part.added" then ret tt
     else if eq_str event_type "response.audio_transcript.delta" then
       delta <- lift (get event "delta" (JStr "")) ;;
       when (truthy delta)
            (_send_ws_message E browser_ws
               (JObj [("type", JStr "response_transcript_delta"); ("delta", delta)]))
     else if eq_str event_type "response.audio_transcript.done" then
       transcript <- lift (get event "transcript" (JStr "")) ;;
       when (truthy transcript)
            (_send_ws_message E browser_ws
               (JObj [("type", JStr "response_text"); ("text", transcript)]) ;;
             when config.DEBUG (print (DAISaid transcript)))
     else if eq_str event_type "response.audio.delta" then
       audio_base64 <- lift (get event "delta" (JStr "")) ;;
       when (truthy audio_base64)
            (_send_ws_message E browser_ws
               (JObj [("type", JStr "audio_chunk"); ("audio", audio_base64)]))
     else if eq_str event_type "response.audio.done" then
       _send_ws_message E browser_ws (simple "audio_complete")
     else if eq_str event_type "response.done" then
       modify (set_is_responding false) ;;
       modify (set_current_response_id JNull) ;;
       _send_ws_message E browser_ws (simple "response_done") ;;
       when config.DEBUG (print DResponseComplete)
     else if eq_str event_type "error" then
       error <- lift (get event "error" (JObj [])) ;;
       error_msg <- lift (get error "message" (JStr "Unknown error")) ;;
       lowered <- lift (str_lower error_msg) ;;
       if contains "no active response" lowered then
         when config.DEBUG
              (print (DBenignError (match error_msg with JStr m => m | _ => "" end)))
       else
         print (DOpenAIError error) ;;
         _send_ws_message E browser_ws
           (JObj [("type", JStr "error"); ("message", error_msg)])
     else if eq_str event_type "rate_limits.updated" then ret tt
     else ret tt)
    (fun e =>
       match exn_kind e with
       | JSONDecodeError => print DInvalidJsonOpenAI
       | _ => print (DErrProcessingOpenAI e)
       end).

Fixpoint openai_loop (browser_ws : ws_handle) (frames : list (env * frame)) : M unit :=
  match frames with
  | [] => ret tt
  | (E, message) :: rest =>
      on_openai_message E browser_ws message ;;
      openai_loop browser_ws rest
  end.

(** [receive_from_openai]: whatever ends the iteration is caught and printed. *)
Definition receive_from_openai (browser_ws : ws_handle) (frames : list (env * frame)) : M unit :=
  s <- self ;;
  match openai_ws s with
  | None => print DCannotReceive
  | Some _ => openai_loop browser_ws frames
  end.

End STSVoiceAgent.

(** ** Sample worlds for the concrete checks *)

Definition sample_settings : config.settings :=
  {| config.USE_AZURE := false;
     config.OPENAI_API_KEY := Some "sk-test";
     config.AZURE_OPENAI_ENDPOINT := None;
     config.AZURE_OPENAI_API_KEY := None;
     config.AZURE_OPENAI_DEPLOYMENT := None;
     config.AZURE_API_VERSION := "2024-10-01-preview";
     config.ENABLE_RECORDINGS := true |}.

(** A world in which every call succeeds and the provider's socket is 100. *)
Definition calm (now : float) : env :=
  {| time_time := now;
     ws_connect := fun _ _ _ => Connected 100;
     ws_send := fun _ _ => None;
     ws_close := fun _ => None;
     browser_closed := fun _ => false;
     browser_send := fun _ _ => None;
     browser_close := fun _ => None;
     b64decode := fun _ => Some [];
     quote_plus := fun s => s;
     strftime_now := "20250101_120000";
     wave_write := fun _ _ => None |}.

(** A session in place: browser socket 1 bridged to provider socket 100. *)
Definition live : agent :=
  set_session_configured true (set_openai_ws (Some 100) (set_active_connections {[1]} init)).

(** A world whose connection attempts all fail with [e]. *)
Definition refusing (e : exn) : env :=
  {| time_time := 0%float;
     ws_connect := fun _ _ _ => Refused e;
     ws_send := fun _ _ => None;
     ws_close := fun _ => None;
     browser_closed := fun _ => false;
     browser_send := fun _ _ => None;
     browser_close := fun _ => None;
     b64decode := fun _ => Some [];
     quote_plus := fun s => s;
     strftime_now := "20250101_120000";
     wave_write := fun _ _ => None |}.

Definition azure_without_deployment : config.settings :=
  {| config.USE_AZURE := true;
     config.OPENAI_API_KEY := None;
     config.AZURE_OPENAI_ENDPOINT := Some "https://example.openai.azure.com/";
     config.AZURE_OPENAI_API_KEY := Some "key";
     config.AZURE_OPENAI_DEPLOYMENT := None;
     config.AZURE_API_VERSION := "2024-10-01-preview";
     config.ENABLE_RECORDINGS := false |}.

(** The session [live] in the middle of response ["resp_1"]. *)
Definition answering : agent :=
  set_is_responding true (set_current_response_id (JStr "resp_1") live).

(** The session [live] with two captured frames for socket 1. *)
Definition recording : agent :=
  set_audio_recordings {[ 1 := [[Byte.x01; Byte.x02]; [Byte.x03]] ]} live.

(** ** Vocabulary of the properties *)

(** Messages of the client protocol. *)
Definition error_message (m : json) : json :=
  JObj [("type", JStr "error"); ("message", m)].

Definition thinking_start : json :=
  JObj [("type", JStr "thinking"); ("status", JStr "start")].

(** The text read from an [error] event:
    [event.get('error', {}).get('message', 'Unknown error')]. *)
Definition error_text (event : json) : res json :=
  match get event "error" (JObj []) with
  | Ret error => get error "message" (JStr "Unknown error")
  | Raise e => Raise e
  end.

(** [v[k]] read leniently: [JNull] when [v] is no dict or has no such key. *)
Definition field (k : string) (v : json) : json :=
  match v with
  | JObj kv => match assoc k kv with Some x => x | None => JNull end
  | _ => JNull
  end.

(** The turn-detection object of a [session.update] command. *)
Definition turn_detection (cmd : json) : json :=
  field "turn_detection" (field "session" cmd).

(** The clamp of [update_vad_threshold] in closed form, by the kind of
    number it is given. *)
Definition clamped (n : num) : float :=
  match n with
  | NFloat x =>
      if PrimFloat.ltb x 1%float
      then (if PrimFloat.ltb 0%float x then x else 0%float)
      else 1%float
  | NInt z => if (z <? 1)%Z then 0%float else 1%float
  end.

(** The five message types the browser loop knows. *)
Definition known_types : list string :=
  ["session_start"; "input_audio_buffer.append"; "interrupt"; "text_message";
   "update_sensitivity"].

(** The value of [data.get('type')]. *)
Definition msg_type_of (kv : list (string * json)) : json :=
  match assoc "type" kv with
  | Some v => v
  | None => JNull
  end.

(** A frame that is not JSON, or a JSON object whose type is none of the
    five known ones. *)
Definition unhandled (message : frame) : bool :=
  match message with
  | NotJson _ => true
  | Json (JObj kv) => negb (existsb (eq_str (msg_type_of kv)) known_types)
  | _ => false
  end.

(** What the loop prints for an unhandled frame. *)
Definition invalid_json_notice (message : frame) : list effect :=
  match message with
  | NotJson _ => [Print DInvalidJsonBrowser]
  | _ => []
  end.

(** The audio captured for a socket, frames in arrival order. *)
Definition captured (s : agent) (w : ws_handle) : list Byte.byte :=
  match audio_recordings s !! w with
  | Some chunks => List.concat chunks
  | None => []
  end.

(** Either credential shape, complete: the three Azure values are set when
    Azure is selected (what [config.validate_config] checks at start-up). *)
Definition credentials_complete (cfg : config.settings) : bool :=
  if config.USE_AZURE cfg
  then truthy_opt (config.AZURE_OPENAI_ENDPOINT cfg)
       && truthy_opt (config.AZURE_OPENAI_API_KEY cfg)
       && truthy_opt (config.AZURE_OPENAI_DEPLOYMENT cfg)
  else true.

(** A connection attempt that fails with a [TypeError] naming neither
    header keyword. *)
Definition foreign_type_error (o : connect_outcome) : bool :=
  match o with
  | Refused e =>
      match exn_kind e with
      | TypeError =>
          negb (contains "additional_headers" (exn_text e)
                || contains "extra_headers" (exn_text e))
      | _ => false
      end
  | Connected _ => false
  end.

(** The answer to the first connection attempt, when there is one. *)
Definition first_attempt (cfg : config.settings) (E : env) : option connect_outcome :=
  match provider_endpoint cfg E with
  | Ret target => Some (ws_connect E (fst target) additional_headers (snd target))
  | Raise _ => None
  end.

(** A computation whose final set of active connections is related by [R]
    to the one it started from. *)
Definition respects (R : relation (gset ws_handle)) {A : Type} (m : M A) : Prop :=
  forall s, R (active_connections s) (active_connections (state_of (m s))).

(** The states the bridge goes through when the coroutine bodies run one
    after the other, each from one client's arrival, frame or departure. *)
Inductive reachable (cfg : config.settings) : agent -> Prop :=
| reach_init : reachable cfg init
| reach_accept s E w :
    reachable cfg s -> reachable cfg (state_of (accept cfg E w s))
| reach_browser_message s E w message :
    reachable cfg s -> reachable cfg (state_of (on_browser_message cfg E w message s))
| reach_openai_message s E w message :
    reachable cfg s -> reachable cfg (state_of (on_openai_message E w message s))
| reach_teardown s E w :
    reachable cfg s -> reachable cfg (state_of (teardown cfg E w s)).

Definition is_connect (x : effect) : bool :=
  match x with
  | UpstreamConnect _ _ _ => true
  | _ => false
  end.

(** The closes that supersession performs on the session in place. *)
Definition closes_of (s : agent) : list effect :=
  match openai_ws s with
  | Some u => [UpstreamClose u]
  | None => []
  end ++ map BrowserClose (elements (active_connections s)).

(** ** Vocabulary of the further properties *)

(** A computation that keeps the condition [Inv] on the agent and performs
    only effects that [P] allows, whenever it starts from an agent that
    satisfies [Inv]. *)
Definition holds (Inv : agent -> Prop) (P : effect -> bool) {A : Type} (m : M A) : Prop :=
  forall s, Inv s -> Inv (state_of (m s)) /\ forallb P (trace_of (m s)) = true.

(** Effects on the provider's side and on the client's side. *)
Definition is_upstream (x : effect) : bool :=
  match x with
  | UpstreamConnect _ _ _ | UpstreamSend _ _ | UpstreamClose _ => true
  | _ => false
  end.

Definition is_client (x : effect) : bool :=
  match x with
  | ToBrowser _ _ | BrowserSendStr _ _ | BrowserClose _ => true
  | _ => false
  end.

Definition is_upstream_send (x : effect) : bool :=
  match x with
  | UpstreamSend _ _ => true
  | _ => false
  end.

(** The connection attempts of a trace, with the keyword of each. *)
Definition connection_attempts (t : list effect)
    : list (string * header_kw * list (string * string)) :=
  flat_map (fun x => match x with
                     | UpstreamConnect url kw headers => [(url, kw, headers)]
                     | _ => []
                     end) t.

(** The first attempt failed on the name of the header keyword. *)
Definition falls_back (o : connect_outcome) : bool :=
  match o with
  | Refused e =>
      match exn_kind e with
      | TypeError =>
          contains "additional_headers" (exn_text e) || contains "extra_headers" (exn_text e)
      | _ => false
      end
  | Connected _ => false
  end.

(** The values [validate_config] asks for, by provider. *)
Definition required_values_set (cfg : config.settings) : bool :=
  if config.USE_AZURE cfg
  then truthy_opt (config.AZURE_OPENAI_ENDPOINT cfg)
       && truthy_opt (config.AZURE_OPENAI_API_KEY cfg)
       && truthy_opt (config.AZURE_OPENAI_DEPLOYMENT cfg)
  else truthy_opt (config.OPENAI_API_KEY cfg).

(** Every character of [s] is in the set [p]; no character of [s] is [c]. *)
Fixpoint all_chars (p : ascii -> bool) (s : string) : bool :=
  match s with
  | EmptyString => true
  | String c rest => p c && all_chars p rest
  end.

Definition free_of (c : ascii) (s : string) : bool :=
  all_chars (fun c' => negb (Ascii.eqb c' c)) s.

Definition first_char (s : string) : option ascii :=
  match s with
  | EmptyString => None
  | String c _ => Some c
  end.

Fixpoint last_char (s : string) : option ascii :=
  match s with
  | EmptyString => None
  | String c rest => match last_char rest with Some c' => Some c' | None => Some c end
  end.

(** A string that neither starts nor ends with a character of [p], and is
    not empty. *)
Definition bare (p : ascii -> bool) (s : string) : bool :=
  match first_char s, last_char s with
  | Some a, Some b => negb (p a) && negb (p b)
  | _, _ => false
  end.

Fixpoint slashes (n : nat) : string :=
  match n with
  | O => EmptyString
  | S n' => String "/" (slashes n')
  end.

(** [s] is made of white-space characters only, read character by
    character (one, two or three bytes each). *)
Fixpoint all_white (s : string) : bool :=
  match s with
  | EmptyString => true
  | String c1 r1 =>
      if is_space c1 then all_white r1
      else
        match r1 with
        | String c2 r2 =>
            if is_space2 c1 c2 then all_white r2
            else
              match r2 with
              | String c3 r3 => is_space3 c1 c2 c3 && all_white r3
              | EmptyString => false
              end
        | EmptyString => false
        end
  end.

(** A character of the ASCII range. *)
Definition is_ascii (c : ascii) : bool := (nat_of_ascii c <? 128)%nat.

(** The value of [data.get('text', '')] and of [data.get('audio', '')]. *)
Definition text_of (kv : list (string * json)) : json :=
  match assoc "text" kv with
  | Some v => v
  | None => JStr ""
  end.

Definition audio_of (kv : list (string * json)) : json :=
  match assoc "audio" kv with
  | Some v => v
  | None => JStr ""
  end.

(** The value of [event.get('type', '')]. *)
Definition event_type_of (kv : list (string * json)) : json :=
  match assoc "type" kv with
  | Some v => v
  | None => JStr ""
  end.

(** The events that carry a payload to the client: type of the event, field
    read, type of the client message, field written. *)
Definition payload_events : list (string * string * string * string) :=
  [("conversation.item.input_audio_transcription.completed", "transcript",
    "transcript", "text");
   ("response.audio_transcript.delta", "delta", "response_transcript_delta", "delta");
   ("response.audio_transcript.done", "transcript", "response_text", "text");
   ("response.audio.delta", "delta", "audio_chunk", "audio")].

(** The events passed on as a bare signal. *)
Definition signal_events : list (string * string) :=
  [("input_audio_buffer.speech_started", "speech_started");
   ("input_audio_buffer.speech_stopped", "speech_stopped");
   ("response.audio.done", "audio_complete")].

(** The event types on which the translator speaks to the client or changes
    the agent. *)
Definition translated_events : list string :=
  ["input_audio_buffer.speech_started"; "input_audio_buffer.speech_stopped";
   "conversation.item.input_audio_transcription.completed";
   "response.created";
   "response.audio_transcript.delta"; "response.audio_transcript.done";
   "response.audio.delta"; "response.audio.done"; "response.done"; "error"].

(** A frame of the provider that is no JSON object. *)
Definition malformed (message : frame) : bool :=
  match message with
  | Json (JObj _) => false
  | _ => true
  end.

(** Two agents that differ at most in the response being tracked. *)
Definition same_but_response (a b : agent) : Prop :=
  active_connections b = active_connections a /\
  openai_ws b = openai_ws a /\
  session_configured b = session_configured a /\
  audio_recordings b = audio_recordings a /\
  last_error_time b = last_error_time a /\
  error_count b = error_count a.

(** Two agents with the same connections, session flag and tracked response. *)
Definition same_session (a b : agent) : Prop :=
  active_connections b = active_connections a /\
  session_configured b = session_configured a /\
  current_response_id b = current_response_id a /\
  is_responding b = is_responding a.

(** The capture step of an audio frame does not raise: capture is off, or the
    payload is a string that the decoder accepts. *)
Definition capturable (cfg : config.settings) (E : env) (payload : json) : bool :=
  negb (config.ENABLE_RECORDINGS cfg) ||
  match payload with
  | JStr p => match b64decode E p with Some _ => true | None => false end
  | _ => false
  end.

(** The frames kept for a socket. *)
Definition chunks_of (s : agent) (w : ws_handle) : list (list Byte.byte) :=
  match audio_recordings s !! w with
  | Some chunks => chunks
  | None => []
  end.

(** The text of an exception says that the connection is gone. *)
Definition says_closed (e : exn) : bool :=
  contains "closed" (lower (exn_text e)) || contains "connection" (lower (exn_text e)).

(** What [.get] raises on a JSON value that is no object. *)
Definition attribute_error : exn := mk_exn AttributeError "object has no attribute 'get'".

(** An audio frame whose payload the decoder reads as [bytes]. *)
Definition audio_frame_of (f : env * frame) (bytes : list Byte.byte) : Prop :=
  exists kv p,
    snd f = Json (JObj kv) /\
    assoc "type" kv = Some (JStr "input_audio_buffer.append") /\
    audio_of kv = JStr p /\
    b64decode (fst f) p = Some bytes.

(** A JSON frame that is no object, arriving at most a second after [t0]. *)
Definition stray_within (t0 : float) (f : env * frame) : Prop :=
  (exists v, snd f = Json v /\ forall kv, v <> JObj kv) /\
  PrimFloat.ltb 1 (PrimFloat.sub (time_time (fst f)) t0) = false.

(** The two forms of [response.create] that the bridge sends. *)
Definition response_create_spoken : json :=
  JObj [("type", JStr "response.create");
        ("response", JObj [("modalities", JArr [JStr "text"; JStr "audio"])])].

Definition response_create : json := JObj [("type", JStr "response.create")].

(** What the receive loop prints for a frame that is no JSON object. *)
Definition malformed_notice (message : frame) : list effect :=
  match message with
  | NotJson _ => [Print DInvalidJsonOpenAI]
  | Undecodable =>
      [Print (DErrProcessingOpenAI (mk_exn UnicodeDecodeError "invalid start byte"))]
  | Json _ => [Print (DErrProcessingOpenAI attribute_error)]
  end.

(** The field [k] of an event, [''] when it is absent. *)
Definition payload_of (k : string) (kv : list (string * json)) : json :=
  match assoc k kv with
  | Some v => v
  | None => JStr ""
  end.

(** The last two assignments of the [finally] clause. *)
Definition torn_down (w : ws_handle) (s : agent) : agent :=
  set_session_configured false (set_active_connections (active_connections s ∖ {[w]}) s).

(** The loop of the handler with its [except] clauses (lines 302 to 401). *)
Definition guarded_loop (cfg : config.settings) (w : ws_handle)
    (frames : list (env * frame)) (ending : option exn) : M unit :=
  try_except
    (bind (browser_loop cfg w frames)
       (fun _ => match ending with
                 | None => ret tt
                 | Some e => raise e
                 end))
    (fun e =>
       match exn_kind e with
       | ConnectionClosed | OSError | TimeoutError =>
           print (DBrowserDisconnected (exn_kind e))
       | _ => print (DBrowserError e)
       end).

(** The audio written to files in a trace, file by file. *)
Definition audio_written (t : list effect) : list (list Byte.byte) :=
  flat_map (fun x => match x with
                     | WavWrite _ _ _ _ frames => [frames]
                     | _ => []
                     end) t.

(** The audio captured for the sockets [ws], the sockets without a byte
    left out. *)
Definition pending_audio (s : agent) (ws : list ws_handle) : list (list Byte.byte) :=
  flat_map (fun w => match captured s w with
                     | [] => []
                     | _ :: _ => [captured s w]
                     end) ws.

(** The states a session goes through after its start while no other
    client arrives: frames of its client and events of the provider, in any
    order. *)
Inductive session_steps (cfg : config.settings) (w : ws_handle) : agent -> agent -> Prop :=
| session_started s : session_steps cfg w s s
| session_frame s s' E message :
    session_steps cfg w s s' ->
    session_steps cfg w s (state_of (on_browser_message cfg E w message s'))
| session_event s s' E message :
    session_steps cfg w s s' ->
    session_steps cfg w s (state_of (on_openai_message E w message s')).

(** What the [finally] clause leaves when it runs to its end. *)
Definition released (cfg : config.settings) (w : ws_handle) (s : agent) : Prop :=
  active_connections s = ∅ /\
  openai_ws s = None /\
  session_configured s = false /\
  (config.ENABLE_RECORDINGS cfg = true -> audio_recordings s !! w = None).

(** The start and the cancellation of the receiving task. *)
Definition is_task (x : effect) : bool :=
  match x with
  | TaskCreate _ | TaskCancel _ => true
  | _ => false
  end.

(** Effects that start no task and send nothing, upstream or to a client. *)
Definition is_setup (x : effect) : bool :=
  match x with
  | TaskCreate _ | TaskCancel _ | UpstreamSend _ _ | ToBrowser _ _ | BrowserSendStr _ _ => false
  | _ => true
  end.

(** ** Further sample worlds *)

(** A client frame that carries audio. *)
Definition audio_frame (payload : string) : frame :=
  Json (JObj [("type", JStr "input_audio_buffer.append"); ("audio", JStr payload)]).

(** A world like [calm] whose decoder reads one payload and rejects the rest. *)
Definition hearing (now : float) : env :=
  {| time_time := now;
     ws_connect := fun _ _ _ => Connected 100;
     ws_send := fun _ _ => None;
     ws_close := fun _ => None;
     browser_closed := fun _ => false;
     browser_send := fun _ _ => None;
     browser_close := fun _ => None;
     b64decode := fun p => if String.eqb p "AQI=" then Some [Byte.x01; Byte.x02] else None;
     quote_plus := fun s => s;
     strftime_now := "20250101_120000";
     wave_write := fun _ _ => None |}.

(** A world in which the provider accepts the connection and every send on
    it fails. *)
Definition hung_up (now : float) : env :=
  {| time_time := now;
     ws_connect := fun _ _ _ => Connected 100;
     ws_send := fun _ _ => Some (mk_exn OSError "Connection reset by peer");
     ws_close := fun _ => None;
     browser_closed := fun _ => false;
     browser_send := fun _ _ => None;
     browser_close := fun _ => None;
     b64decode := fun _ => Some [];
     quote_plus := fun s => s;
     strftime_now := "20250101_120000";
     wave_write := fun _ _ => None |}.

(** A text of white space only: a space, U+00A0, U+2003 and U+3000. *)
Definition no_break_spaces : string :=
  String " " (String "194" (String "160"
    (String "226" (String "128" (String "131"
       (String "227" (String "128" (String "128" EmptyString)))))))).

(** Azure selected, the three values set, capture off. *)
Definition azure_complete : config.settings :=
  {| config.USE_AZURE := true;
     config.OPENAI_API_KEY := None;
     config.AZURE_OPENAI_ENDPOINT := Some "https://example.openai.azure.com//";
     config.AZURE_OPENAI_API_KEY := Some "key";
     config.AZURE_OPENAI_DEPLOYMENT := Some "gpt-4o-realtime";
     config.AZURE_API_VERSION := "2024-10-01-preview";
     config.ENABLE_RECORDINGS := false |}.

(** An environment that selects Azure and sets the deployment to a pair of
    quotes. *)
Definition quoted_environ : string -> option string :=
  fun k =>
    if String.eqb k "USE_AZURE" then Some "True"
    else if String.eqb k "AZURE_OPENAI_DEPLOYMENT" then Some "''"
    else None.

(** * Properties *)

(** Runs a coroutine body of the monad on the state at hand. *)
Ltac run :=
  unfold bind, ret, raise, lift, emit, print, self, modify, when, attempt,
         try_except, state_of, trace_of, result_of in *; simpl in *.

Section Traces.

Lemma client_messages_app t1 t2 :
  client_messages (t1 ++ t2) = client_messages t1 ++ client_messages t2.
Proof. apply flat_map_app. Qed.

Lemma bind_trace_prefix {A B : Type} (m : M A) (f : A -> M B) s :
  exists rest, trace_of (bind m f s) = trace_of (m s) ++ rest.
Proof.
  unfold bind, trace_of. destruct (m s) as [[[a | e] s1] t1]; simpl.
  - destruct (f a s1) as [[r s2] t2]. exists t2. reflexivity.
  - exists []. rewrite app_nil_r. reflexivity.
Qed.

Lemma bind_state {A B : Type} (m : M A) (f : A -> M B) s :
  state_of (bind m f s)
  = match result_of (m s) with
    | Ret a => state_of (f a (state_of (m s)))
    | Raise _ => state_of (m s)
    end.
Proof.
  unfold bind, state_of, result_of. destruct (m s) as [[[a | e] s1] t1]; simpl.
  - destruct (f a s1) as [[r s2] t2]. reflexivity.
  - reflexivity.
Qed.

(** A list cut at an element that its first part cannot hold is cut past
    that part. *)
Lemma split_past_prefix {A : Type} (P : A -> bool) (l r pre post : list A) (x : A) :
  forallb (fun y => negb (P y)) l = true ->
  P x = true ->
  l ++ r = pre ++ x :: post ->
  exists mid, pre = l ++ mid.
Proof.
  revert pre. induction l as [| a l IH]; intros pre Hl Hx Heq.
  - exists pre. reflexivity.
  - simpl in Hl. apply andb_true_iff in Hl as [Ha Hl].
    destruct pre as [| b pre]; simpl in Heq.
    + injection Heq as -> _. rewrite Hx in Ha. discriminate.
    + injection Heq as -> Heq. destruct (IH pre Hl Hx Heq) as [mid ->].
      exists mid. reflexivity.
Qed.

(** [_send_ws_message] returns normally and leaves the agent as it was; the
    frame reaches the wire exactly when the socket is open. *)
Lemma send_ws_message_run E w msg s :
  exists tail,
    _send_ws_message E w msg s = (Ret tt, s, ToBrowser w msg :: tail) /\
    client_messages tail = [] /\
    upstream_commands tail = [] /\
    wire_messages tail = (if browser_closed E w then [] else [msg]).
Proof.
  unfold _send_ws_message. run.
  destruct (browser_closed E w); simpl.
  - eexists; repeat split; reflexivity.
  - destruct (browser_send E w msg); simpl; eexists; repeat split; reflexivity.
Qed.

Lemma throttled_returns E d s : result_of (throttled E d s) = Ret tt.
Proof.
  unfold throttled. run.
  destruct (PrimFloat.ltb 1 (PrimFloat.sub (time_time E) (last_error_time s))); reflexivity.
Qed.

(** A [try] whose handlers return lets no exception out. *)
Lemma try_except_returns (m : M unit) (h : exn -> M unit) s :
  (forall e s', result_of (h e s') = Ret tt) ->
  result_of (try_except m h s) = Ret tt.
Proof.
  intros Hh. unfold try_except, result_of in *.
  destruct (m s) as [[[[] | e] s1] t1]; simpl in *; [reflexivity |].
  specialize (Hh e s1). destruct (h e s1) as [[r s2] t2]. exact Hh.
Qed.

End Traces.

(** ** What a coroutine body does to the set of active connections *)

Section Respects.

Context (R : relation (gset ws_handle)) `{!PreOrder R}.

Lemma respects_ret {A : Type} (a : A) : respects R (ret a).
Proof. intros s. reflexivity. Qed.

Lemma respects_raise {A : Type} (e : exn) : respects R (@raise A e).
Proof. intros s. reflexivity. Qed.

Lemma respects_lift {A : Type} (r : res A) : respects R (lift r).
Proof. intros s. reflexivity. Qed.

Lemma respects_emit x : respects R (emit x).
Proof. intros s. reflexivity. Qed.

Lemma respects_print d : respects R (print d).
Proof. intros s. reflexivity. Qed.

Lemma respects_modify (f : agent -> agent) :
  (forall s, R (active_connections s) (active_connections (f s))) ->
  respects R (modify f).
Proof. intros Hf s. apply Hf. Qed.

Lemma respects_bind {A B : Type} (m : M A) (f : A -> M B) :
  respects R m -> (forall a, respects R (f a)) -> respects R (bind m f).
Proof.
  intros Hm Hf s. specialize (Hm s). unfold bind, state_of in *.
  destruct (m s) as [[[a | e] s1] t1]; simpl in *; [| exact Hm].
  specialize (Hf a s1). unfold state_of in Hf.
  destruct (f a s1) as [[r s2] t2]. simpl in *. etransitivity; eassumption.
Qed.

Lemma respects_self_bind {B : Type} (f : agent -> M B) :
  (forall s0, respects R (f s0)) -> respects R (bind self f).
Proof.
  intros Hf s. specialize (Hf s s). unfold bind, self, state_of in *. simpl.
  destruct (f s s) as [[r s2] t2]. exact Hf.
Qed.

Lemma respects_try_except {A : Type} (m : M A) (h : exn -> M A) :
  respects R m -> (forall e, respects R (h e)) -> respects R (try_except m h).
Proof.
  intros Hm Hh s. specialize (Hm s). unfold try_except, state_of in *.
  destruct (m s) as [[[a | e] s1] t1]; simpl in *; [exact Hm |].
  specialize (Hh e s1). unfold state_of in Hh.
  destruct (h e s1) as [[r s2] t2]. simpl in *. etransitivity; eassumption.
Qed.

Lemma respects_when b (m : M unit) : respects R m -> respects R (when b m).
Proof. intros Hm. destruct b; [exact Hm | apply respects_ret]. Qed.

Lemma respects_attempt x outcome : respects R (attempt x outcome).
Proof.
  unfold attempt. apply respects_bind; [apply respects_emit |].
  intros _. destruct outcome; [apply respects_raise | apply respects_ret].
Qed.

Lemma respects_for_each {A : Type} (xs : list A) (body : A -> M unit) :
  (forall x, respects R (body x)) -> respects R (for_each xs body).
Proof.
  intros Hb. induction xs as [| x xs IH]; simpl.
  - apply respects_ret.
  - apply respects_bind; [apply Hb | intros _; exact IH].
Qed.

End Respects.

(** Walks through a coroutine body, one combinator at a time. *)
Ltac respects_step :=
  lazymatch goal with
  | |- respects _ (ret _) => apply respects_ret
  | |- respects _ (raise _) => apply respects_raise
  | |- respects _ (lift _) => apply respects_lift
  | |- respects _ (emit _) => apply respects_emit
  | |- respects _ (print _) => apply respects_print
  | |- respects _ (attempt _ _) => apply respects_attempt
  | |- respects _ (modify _) =>
      apply respects_modify; intros ?;
      repeat (match goal with
              | |- context [match ?x with _ => _ end] => destruct x
              end);
      first [reflexivity | apply subseteq_difference_l; reflexivity]
  | |- respects _ (bind self _) => apply respects_self_bind
  | |- respects _ (bind _ _) => apply respects_bind
  | |- respects _ (try_except _ _) => apply respects_try_except
  | |- respects _ (when _ _) => apply respects_when
  | |- respects _ (for_each _ _) => apply respects_for_each
  | |- respects _ (if ?c then _ else _) => destruct c
  | |- respects _ (match ?x with _ => _ end) => destruct x
  end.

Ltac respects := repeat (respects_step; try typeclasses eauto; intros).

(** ** Session configurator: [update_vad_threshold] *)

Section Sensitivity.

Lemma Z_ltb_float_one z : Z_ltb_float z 1%float = (z <? 1)%Z.
Proof.
  unfold Z_ltb_float.
  replace (Prim2SF 1%float) with (S754_finite false 4503599627370496 (-52))
    by (vm_compute; reflexivity).
  cbn -[Z.mul Z.ltb].
  destruct (Z.ltb_spec z 1), (Z.ltb_spec (z * 4503599627370496) 4503599627370496); lia.
Qed.

Lemma float_ltb_Z_zero z : float_ltb_Z 0%float z = (0 <? z)%Z.
Proof.
  unfold float_ltb_Z.
  replace (Prim2SF 0%float) with (S754_zero false) by (vm_compute; reflexivity).
  reflexivity.
Qed.

(** On a number the clamp returns a float, the one of the closed form. *)
Lemma clamp_threshold_num t n :
  as_num t = Some n -> clamp_threshold t = Ret (JFloat (clamped n)).
Proof.
  intros Hn. unfold clamp_threshold, Py.min, Py.max, lt.
  rewrite Hn. cbn [as_num].
  destruct n as [z | x]; cbn [num_ltb clamped].
  - rewrite Z_ltb_float_one.
    destruct (Z.ltb_spec z 1) as [Hz | Hz]; [| reflexivity].
    rewrite Hn. cbn [num_ltb]. rewrite float_ltb_Z_zero.
    destruct (Z.ltb_spec 0 z); [lia | reflexivity].
  - destruct t; try discriminate. injection Hn as ->.
    destruct (PrimFloat.ltb x 1) eqn:Hx; [| reflexivity].
    cbn [as_num num_ltb]. destruct (PrimFloat.ltb 0 x); reflexivity.
Qed.

(** On anything else the comparison raises and nothing is clamped. *)
Lemma clamp_threshold_other t :
  as_num t = None -> exists e, clamp_threshold t = Raise e /\ exn_kind e = TypeError.
Proof.
  intros Hn. unfold clamp_threshold, Py.min, lt. rewrite Hn.
  eexists. split; reflexivity.
Qed.

Lemma ltb_leb x y : PrimFloat.ltb x y = true -> PrimFloat.leb x y = true.
Proof.
  rewrite ltb_spec, leb_spec. unfold SFltb, SFleb.
  destruct (SFcompare (Prim2SF x) (Prim2SF y)) as [[]|]; congruence.
Qed.

Lemma clamped_range n :
  PrimFloat.leb 0%float (clamped n) = true /\ PrimFloat.leb (clamped n) 1%float = true.
Proof.
  destruct n as [z | x]; cbn [clamped].
  - destruct (z <? 1)%Z; split; reflexivity.
  - destruct (PrimFloat.ltb x 1) eqn:H1.
    + destruct (PrimFloat.ltb 0 x) eqn:H0.
      * split; apply ltb_leb; assumption.
      * split; reflexivity.
    + split; reflexivity.
Qed.

Lemma clamp_default : clamp_threshold (JFloat 0.7%float) = Ret (JFloat 0.7%float).
Proof. vm_compute. reflexivity. Qed.

(** With an upstream channel and a threshold the clamp accepts, exactly one
    command goes upstream, whether or not the send succeeds. *)
Lemma update_vad_threshold_run E s u t c :
  openai_ws s = Some u ->
  clamp_threshold t = Ret c ->
  state_of (update_vad_threshold E t s) = s /\
  upstream_commands (trace_of (update_vad_threshold E t s)) = [update_config c] /\
  (ws_send E u (update_config c) = None ->
   update_vad_threshold E t s
     = (Ret tt, s, [UpstreamSend u (update_config c); Print (DVadUpdated c)])).
Proof.
  intros Hu Hc. unfold update_vad_threshold. run. rewrite Hu, Hc.
  destruct (ws_send E u (update_config c)); simpl; repeat split; try reflexivity.
  intros. discriminate.
Qed.

(** Without an upstream channel the operation returns at once. *)
Lemma update_vad_threshold_no_channel E s t :
  openai_ws s = None -> update_vad_threshold E t s = (Ret tt, s, []).
Proof. intros Hu. unfold update_vad_threshold. run. rewrite Hu. reflexivity. Qed.

(** C8. For every numeric threshold [t] (a float, or an int or bool as JSON
    may carry), [update_vad_threshold] on an established upstream channel
    sends exactly one turn-detection update, whose threshold is
    [max(0.0, min(1.0, t))]: a float between 0.0 and 1.0, [t] itself when [t]
    is a float strictly between them.  A threshold of 1.5 goes out as exactly
    1.0 and one of -0.2 as exactly 0.0. *)
Theorem sensitivity_clamped (E : env) (s : agent) (u : ws_handle) (t : json) (n : num) :
  openai_ws s = Some u ->
  as_num t = Some n ->
  (exists c : float,
     clamp_threshold t = Ret (JFloat c) /\
     c = clamped n /\
     PrimFloat.leb 0%float c = true /\ PrimFloat.leb c 1%float = true /\
     upstream_commands (trace_of (update_vad_threshold E t s)) = [update_config (JFloat c)] /\
     field "threshold" (turn_detection (update_config (JFloat c))) = JFloat c) /\
  upstream_commands (trace_of (update_vad_threshold E (JFloat 1.5%float) s))
    = [update_config (JFloat 1.0%float)] /\
  upstream_commands (trace_of (update_vad_threshold E (JFloat (-0.2)%float) s))
    = [update_config (JFloat 0.0%float)].
Proof.
  intros Hu Hn. split; [| split].
  - exists (clamped n).
    pose proof (clamp_threshold_num t n Hn) as Hc.
    destruct (clamped_range n) as [Hlo Hhi].
    destruct (update_vad_threshold_run E s u t _ Hu Hc) as (_ & Hsent & _).
    repeat split; assumption || reflexivity.
  - apply (update_vad_threshold_run E s u (JFloat 1.5%float) (JFloat 1.0%float) Hu).
    vm_compute. reflexivity.
  - apply (update_vad_threshold_run E s u (JFloat (-0.2)%float) (JFloat 0.0%float) Hu).
    vm_compute. reflexivity.
Qed.

Lemma sensitivity_clamped_witness :
  openai_ws live = Some 100 /\
  as_num (JFloat 1.5%float) = Some (NFloat 1.5%float) /\
  upstream_commands (trace_of (update_vad_threshold (calm 5%float) (JFloat 1.5%float) live))
    = [update_config (JFloat 1.0%float)].
Proof.
  split; [reflexivity |]. split; [reflexivity |].
  exact (proj1 (proj2 (sensitivity_clamped (calm 5%float) live 100 (JFloat 1.5%float)
                         (NFloat 1.5%float) eq_refl eq_refl))).
Defined.

(** C9. The update that [update_vad_threshold] sends carries a
    turn-detection object only, in which every field other than the threshold
    (type, prefix padding, trailing-silence duration) has the value that
    [configure_session] sends from [config.py]. *)
Theorem narrow_update_preserves_fields (E : env) (s : agent) (u : ws_handle) (t c : json) :
  openai_ws s = Some u ->
  clamp_threshold t = Ret c ->
  upstream_commands (trace_of (update_vad_threshold E t s)) = [update_config c] /\
  field "threshold" (turn_detection (update_config c)) = c /\
  (forall k, k <> "threshold" ->
     field k (turn_detection (update_config c)) = field k (turn_detection session_config)) /\
  field "type" (turn_detection (update_config c)) = JStr config.TURN_DETECTION_TYPE /\
  field "prefix_padding_ms" (turn_detection (update_config c))
    = JInt config.TURN_DETECTION_PREFIX_PADDING_MS /\
  field "silence_duration_ms" (turn_detection (update_config c))
    = JInt config.TURN_DETECTION_SILENCE_DURATION_MS /\
  (forall k, k <> "turn_detection" -> field k (field "session" (update_config c)) = JNull).
Proof.
  intros Hu Hc.
  destruct (update_vad_threshold_run E s u t c Hu Hc) as (_ & Hsent & _).
  split; [exact Hsent |]. split; [reflexivity |]. split; [| repeat split].
  - intros k Hk. unfold turn_detection, field. cbn [update_config session_config assoc String.eqb Ascii.eqb Bool.eqb].
    cbn.
    destruct (String.eqb_spec k "type"); [reflexivity |].
    destruct (String.eqb_spec k "threshold"); [contradiction |].
    reflexivity.
  - intros k Hk. unfold field. cbn.
    destruct (String.eqb_spec k "turn_detection"); [contradiction | reflexivity].
Qed.

Lemma narrow_update_witness :
  openai_ws live = Some 100 /\
  clamp_threshold (JFloat 0.5%float) = Ret (JFloat 0.5%float) /\
  field "type" (turn_detection (update_config (JFloat 0.5%float)))
    = JStr config.TURN_DETECTION_TYPE.
Proof.
  split; [reflexivity |]. split; [vm_compute; reflexivity |].
  exact (proj1 (proj2 (proj2 (proj2
           (narrow_update_preserves_fields (calm 5%float) live 100 (JFloat 0.5%float)
              (JFloat 0.5%float) eq_refl eq_refl))))).
Defined.

End Sensitivity.

(** ** Command translator: the loop over the browser's frames *)

Section CommandTranslator.

Variable cfg : config.settings.

(** C7. An [interrupt] message sends nothing upstream when [is_responding]
    is false or when no response id is recorded; when [is_responding] is
    true, a response id is recorded (the attribute is truthy, as the code
    tests it) and the upstream channel exists, it sends exactly one command,
    [response.cancel], on that channel. *)
Theorem interrupt_cancels_only_in_flight (E : env) (w : ws_handle) (s : agent)
    (kv : list (string * json)) :
  assoc "type" kv = Some (JStr "interrupt") ->
  ((is_responding s = false \/ current_response_id s = JNull) ->
   upstream_commands (trace_of (on_browser_message cfg E w (Json (JObj kv)) s)) = []) /\
  (forall u,
     is_responding s = true ->
     truthy (current_response_id s) = true ->
     openai_ws s = Some u ->
     upstream_commands (trace_of (on_browser_message cfg E w (Json (JObj kv)) s))
       = [response_cancel] /\
     exists rest,
       trace_of (on_browser_message cfg E w (Json (JObj kv)) s)
         = UpstreamSend u response_cancel :: rest).
Proof.
  intros Hty. unfold on_browser_message, loads, get. run. rewrite Hty. simpl.
  split.
  - intros [Hr | Hid]; [rewrite Hr | rewrite Hid, andb_false_r]; simpl.
    + reflexivity.
    + destruct (openai_ws s); reflexivity.
  - intros u Hr Hid Hu. rewrite Hr, Hid, Hu. simpl.
    destruct (ws_send E u response_cancel) as [e |]; simpl.
    + unfold throttled. run.
      destruct (exn_kind e),
               (PrimFloat.ltb 1 (PrimFloat.sub (time_time E) (last_error_time s)));
        simpl; eauto.
    + eauto.
Qed.

(** C10. An [update_sensitivity] message without a [threshold] field is
    handled with the default 0.7: on an established upstream channel exactly
    one turn-detection update goes upstream, with threshold 0.7, and when that
    send succeeds nothing else happens (no diagnostic, no state change). *)
Theorem sensitivity_default (E : env) (w : ws_handle) (s : agent)
    (kv : list (string * json)) (u : ws_handle) :
  assoc "type" kv = Some (JStr "update_sensitivity") ->
  assoc "threshold" kv = None ->
  openai_ws s = Some u ->
  upstream_commands (trace_of (on_browser_message cfg E w (Json (JObj kv)) s))
    = [update_config (JFloat 0.7%float)] /\
  field "threshold" (turn_detection (update_config (JFloat 0.7%float)))
    = JFloat 0.7%float /\
  (ws_send E u (update_config (JFloat 0.7%float)) = None ->
   on_browser_message cfg E w (Json (JObj kv)) s
     = (Ret tt, s, [UpstreamSend u (update_config (JFloat 0.7%float));
                    Print (DVadUpdated (JFloat 0.7%float))])).
Proof.
  intros Hty Hth Hu. unfold on_browser_message, loads, get, update_vad_threshold. run.
  rewrite Hty. simpl. rewrite Hth, Hu. rewrite clamp_default. simpl.
  destruct (ws_send E u (update_config (JFloat 0.7%float))) as [e |]; simpl.
  - split; [| split; [reflexivity | discriminate]]. unfold throttled. run.
    destruct (exn_kind e),
             (PrimFloat.ltb 1 (PrimFloat.sub (time_time E) (last_error_time s)));
      reflexivity.
  - repeat split; reflexivity.
Qed.

(** No frame makes the loop body raise, and the loop reaches the end of
    every sequence of frames. *)
Lemma on_browser_message_returns E w message s :
  result_of (on_browser_message cfg E w message s) = Ret tt.
Proof.
  unfold on_browser_message. apply try_except_returns.
  intros e s'. destruct (exn_kind e); try apply throttled_returns; reflexivity.
Qed.

Lemma browser_loop_returns w frames s :
  result_of (browser_loop cfg w frames s) = Ret tt.
Proof.
  revert s. induction frames as [| [E message] rest IH]; intros s; simpl; [reflexivity |].
  pose proof (on_browser_message_returns E w message s) as Hm.
  unfold bind, result_of in *.
  destruct (on_browser_message cfg E w message s) as [[r s1] t1]. simpl in Hm. subst r.
  specialize (IH s1). destruct (browser_loop cfg w rest s1) as [[r2 s2] t2]. exact IH.
Qed.

(** A JSON value that is not an object goes to the throttled diagnostic. *)
Lemma non_object_frame_throttled E w v s :
  (forall kv, v <> JObj kv) ->
  on_browser_message cfg E w (Json v) s
  = throttled E (DErrProcessingBrowser
                   (mk_exn AttributeError "object has no attribute 'get'")) s.
Proof.
  intros Hv. destruct v as [| b | z | x | str | xs | kv];
    try (unfold on_browser_message, loads, get, throttled; run;
         destruct (PrimFloat.ltb 1 (PrimFloat.sub (time_time E) (last_error_time s)));
         reflexivity).
  contradiction (Hv kv eq_refl).
Qed.

(** An unhandled frame changes nothing; only the frame that is not JSON is
    given a notice. *)
Lemma unhandled_frame_run E w message s :
  unhandled message = true ->
  on_browser_message cfg E w message s = (Ret tt, s, invalid_json_notice message).
Proof.
  destruct message as [| text | data]; simpl; try discriminate.
  - reflexivity.
  - destruct data; try discriminate. intros H.
    apply negb_true_iff in H. simpl in H.
    repeat (apply orb_false_elim in H; destruct H as [? H]).
    unfold on_browser_message, loads, get. run.
    fold (msg_type_of kv).
    repeat match goal with Heq : eq_str _ _ = false |- _ => rewrite Heq; clear Heq end.
    reflexivity.
Qed.

(** C5, as amended.  Every frame that is not JSON, and every JSON object
    whose type is none of the five known ones, is dropped: the loop runs to
    the end of any sequence of such frames without raising, leaves the agent
    exactly as it was (the error throttle included), sends nothing upstream
    or to the client, and prints one "invalid JSON" notice for each frame that
    is not JSON and nothing for an unrecognised type. *)
Theorem unhandled_frames_dropped (w : ws_handle) (frames : list (env * frame)) (s : agent) :
  Forall (fun f => unhandled (snd f) = true) frames ->
  browser_loop cfg w frames s
    = (Ret tt, s, flat_map (fun f => invalid_json_notice (snd f)) frames).
Proof.
  induction 1 as [| [E message] rest Hm _ IH]; simpl.
  - reflexivity.
  - unfold bind. rewrite (unhandled_frame_run _ _ _ _ Hm), IH. reflexivity.
Qed.

End CommandTranslator.

Lemma interrupt_witness :
  assoc "type" [("type", JStr "interrupt")] = Some (JStr "interrupt") /\
  upstream_commands
    (trace_of (on_browser_message sample_settings (calm 5%float) 1
                 (Json (JObj [("type", JStr "interrupt")])) answering))
    = [response_cancel].
Proof.
  split; [reflexivity |].
  exact (proj1 (proj2 (interrupt_cancels_only_in_flight sample_settings (calm 5%float) 1
                         answering [("type", JStr "interrupt")] eq_refl)
                 100 eq_refl eq_refl eq_refl)).
Defined.

Lemma sensitivity_default_witness :
  assoc "type" [("type", JStr "update_sensitivity")] = Some (JStr "update_sensitivity") /\
  assoc "threshold" [("type", JStr "update_sensitivity")] = None /\
  openai_ws live = Some 100 /\
  upstream_commands
    (trace_of (on_browser_message sample_settings (calm 5%float) 1
                 (Json (JObj [("type", JStr "update_sensitivity")])) live))
    = [update_config (JFloat 0.7%float)].
Proof.
  repeat (split; [reflexivity |]).
  exact (proj1 (sensitivity_default sample_settings (calm 5%float) 1 live
                  [("type", JStr "update_sensitivity")] 100 eq_refl eq_refl eq_refl)).
Defined.

Lemma unhandled_frames_witness :
  Forall (fun f => unhandled (snd f) = true)
    [(calm 5%float, Json (JObj [("type", JStr "bogus")]));
     (calm 5%float, NotJson "{");
     (calm 5%float, Json (JObj [("kind", JStr "interrupt")]))] /\
  browser_loop sample_settings 1
    [(calm 5%float, Json (JObj [("type", JStr "bogus")]));
     (calm 5%float, NotJson "{");
     (calm 5%float, Json (JObj [("kind", JStr "interrupt")]))] answering
    = (Ret tt, answering, [Print DInvalidJsonBrowser]).
Proof.
  assert (H : Forall (fun f => unhandled (snd f) = true)
                [(calm 5%float, Json (JObj [("type", JStr "bogus")]));
                 (calm 5%float, NotJson "{");
                 (calm 5%float, Json (JObj [("kind", JStr "interrupt")]))]).
  { repeat constructor. }
  split; [exact H |].
  exact (unhandled_frames_dropped sample_settings 1 _ answering H).
Defined.

(** C5, as stated, fails: a message of unknown type is dropped without any
    diagnostic, and two frames that are not JSON arriving in the same instant
    are each given one, the throttle's counter staying at zero. *)
Lemma unknown_type_no_diagnostic :
  diagnostics (trace_of (on_browser_message sample_settings (calm 5%float) 1
                 (Json (JObj [("type", JStr "bogus")])) live)) = [] /\
  diagnostics (trace_of (browser_loop sample_settings 1
                 [(calm 5%float, NotJson "{"); (calm 5%float, NotJson "{")] live))
    = [DInvalidJsonBrowser; DInvalidJsonBrowser] /\
  error_count (state_of (browser_loop sample_settings 1
                 [(calm 5%float, NotJson "{"); (calm 5%float, NotJson "{")] live)) = 0%Z.
Proof. vm_compute. repeat split; reflexivity. Qed.

(** ** Event translator: the loop over the provider's events *)

Section EventTranslator.

Lemma on_openai_message_returns E w message s :
  result_of (on_openai_message E w message s) = Ret tt.
Proof.
  unfold on_openai_message. apply try_except_returns.
  intros e s'. destruct (exn_kind e); reflexivity.
Qed.

Lemma openai_loop_returns w frames s :
  result_of (openai_loop w frames s) = Ret tt.
Proof.
  revert s. induction frames as [| [E message] rest IH]; intros s; simpl; [reflexivity |].
  pose proof (on_openai_message_returns E w message s) as Hm.
  unfold bind, result_of in *.
  destruct (on_openai_message E w message s) as [[r s1] t1]. simpl in Hm. subst r.
  specialize (IH s1). destruct (openai_loop w rest s1) as [[r2 s2] t2]. exact IH.
Qed.

(** C2. An upstream [error] event whose message contains "no active
    response", in any letter case, gives the client nothing; every other
    [error] event gives the client exactly one message, of type [error],
    carrying the provider's message unchanged (and that is the one frame put
    on the wire when the client's socket is open).  The message [m] is the
    string the handler reads from the event: the provider's, or "Unknown
    error" when the event has none. *)
Theorem benign_error_suppressed (E : env) (w : ws_handle) (s : agent)
    (kv : list (string * json)) (m : string) :
  assoc "type" kv = Some (JStr "error") ->
  error_text (JObj kv) = Ret (JStr m) ->
  (contains "no active response" (lower m) = true ->
   client_messages (trace_of (on_openai_message E w (Json (JObj kv)) s)) = [] /\
   wire_messages (trace_of (on_openai_message E w (Json (JObj kv)) s)) = []) /\
  (contains "no active response" (lower m) = false ->
   client_messages (trace_of (on_openai_message E w (Json (JObj kv)) s))
     = [error_message (JStr m)] /\
   (browser_closed E w = false ->
    wire_messages (trace_of (on_openai_message E w (Json (JObj kv)) s))
      = [error_message (JStr m)])).
Proof.
  intros Hty Htext.
  destruct (send_ws_message_run E w (error_message (JStr m)) s)
    as (tail & Hsend & Hc & _ & Hw).
  unfold error_text in Htext. cbn [get] in Htext.
  unfold on_openai_message, loads, str_lower.
  unfold bind, ret, lift, try_except, when, print, emit, trace_of.
  cbn [get]. rewrite Hty. simpl.
  destruct (get match assoc "error" kv with
                | Some v => v
                | None => JObj []
                end "message" (JStr "Unknown error")) as [text | e];
    [| discriminate Htext].
  injection Htext as ->. simpl.
  split; intros Hb; rewrite Hb; simpl.
  - split; reflexivity.
  - fold (error_message (JStr m)). rewrite Hsend. simpl. rewrite Hc, Hw.
    split; [reflexivity |]. intros ->. reflexivity.
Qed.

Lemma benign_error_witness :
  client_messages
    (trace_of (on_openai_message (calm 5%float) 1
       (Json (JObj [("type", JStr "error");
                    ("error", JObj [("message", JStr "no active response")])])) live))
    = [] /\
  client_messages
    (trace_of (on_openai_message (calm 5%float) 1
       (Json (JObj [("type", JStr "error");
                    ("error", JObj [("message", JStr "rate limit exceeded")])])) live))
    = [error_message (JStr "rate limit exceeded")].
Proof.
  split.
  - exact (proj1 (proj1 (benign_error_suppressed (calm 5%float) 1 live
             [("type", JStr "error"); ("error", JObj [("message", JStr "no active response")])]
             "no active response" eq_refl eq_refl) eq_refl)).
  - exact (proj1 (proj2 (benign_error_suppressed (calm 5%float) 1 live
             [("type", JStr "error"); ("error", JObj [("message", JStr "rate limit exceeded")])]
             "rate limit exceeded" eq_refl eq_refl) eq_refl)).
Defined.

(** An [error] event whose message is not a string is dropped by the
    handler of the loop: nothing reaches the client. *)
Lemma error_with_odd_message E w s kv e :
  assoc "type" kv = Some (JStr "error") ->
  error_text (JObj kv) = Raise e \/
    (exists v, error_text (JObj kv) = Ret v /\ forall m, v <> JStr m) ->
  client_messages (trace_of (on_openai_message E w (Json (JObj kv)) s)) = [].
Proof.
  intros Hty Htext.
  unfold error_text in Htext. cbn [get] in Htext.
  unfold on_openai_message, loads, str_lower.
  unfold bind, ret, lift, try_except, when, print, emit, trace_of.
  cbn [get]. rewrite Hty. simpl.
  destruct (get match assoc "error" kv with
                | Some v => v
                | None => JObj []
                end "message" (JStr "Unknown error")) as [text | e'].
  - destruct Htext as [Hr | (v & Hv & Hodd)]; [discriminate Hr |].
    injection Hv as ->. destruct v as [| b | z | x | str | xs | okv]; simpl; try reflexivity.
    contradiction (Hodd str eq_refl).
  - simpl. destruct (exn_kind e'); reflexivity.
Qed.

Lemma response_created_run E w s kv rkv id :
  assoc "type" kv = Some (JStr "response.created") ->
  assoc "response" kv = Some (JObj rkv) ->
  assoc "id" rkv = Some id ->
  exists t,
    on_openai_message E w (Json (JObj kv)) s
      = (Ret tt, set_is_responding true (set_current_response_id id s), t) /\
    client_messages t = [thinking_start] /\
    wire_messages t = (if browser_closed E w then [] else [thinking_start]).
Proof.
  intros Hty Hresp Hid.
  destruct (send_ws_message_run E w thinking_start
              (set_is_responding true (set_current_response_id id s)))
    as (tail & Hsend & Hc & _ & Hw).
  unfold on_openai_message, loads, get.
  unfold bind, ret, lift, try_except, when, print, emit, modify.
  rewrite Hty. simpl. rewrite Hresp. simpl. rewrite Hid. simpl.
  fold thinking_start. rewrite Hsend. simpl.
  eexists. split; [reflexivity |]. simpl. rewrite Hc, Hw. split; reflexivity.
Qed.

Lemma response_done_run E w s kv :
  assoc "type" kv = Some (JStr "response.done") ->
  exists t,
    on_openai_message E w (Json (JObj kv)) s
      = (Ret tt, set_current_response_id JNull (set_is_responding false s), t) /\
    client_messages t = [simple "response_done"] /\
    wire_messages t = (if browser_closed E w then [] else [simple "response_done"]).
Proof.
  intros Hty.
  destruct (send_ws_message_run E w (simple "response_done")
              (set_current_response_id JNull (set_is_responding false s)))
    as (tail & Hsend & Hc & _ & Hw).
  unfold on_openai_message, loads, get.
  unfold bind, ret, lift, try_except, when, print, emit, modify.
  rewrite Hty. simpl. rewrite Hsend. simpl.
  eexists. split; [reflexivity |].
  unfold client_messages, wire_messages in *. cbn [flat_map app].
  rewrite !flat_map_app, Hc, Hw. cbn [flat_map app].
  split; [reflexivity | destruct (browser_closed E w); reflexivity].
Qed.

(** C3. A [response.created] event carrying response id [r], followed by a
    [response.done] event: after the first the id is recorded and
    [is_responding] is set; after the second [current_response_id] is [None]
    and [is_responding] is false; and the client has been given exactly
    [thinking{status:start}] and then [response_done]: these are the two
    calls of [_send_ws_message], in that order, and the frames put on the
    wire are those two, in that order, each one unless the client's socket is
    closed or closing when its event arrives. *)
Theorem response_round_trip (w : ws_handle) (s : agent) (E1 E2 : env)
    (kv1 rkv kv2 : list (string * json)) (r : string) :
  assoc "type" kv1 = Some (JStr "response.created") ->
  assoc "response" kv1 = Some (JObj rkv) ->
  assoc "id" rkv = Some (JStr r) ->
  assoc "type" kv2 = Some (JStr "response.done") ->
  current_response_id (state_of (on_openai_message E1 w (Json (JObj kv1)) s)) = JStr r /\
  is_responding (state_of (on_openai_message E1 w (Json (JObj kv1)) s)) = true /\
  current_response_id
    (state_of (openai_loop w [(E1, Json (JObj kv1)); (E2, Json (JObj kv2))] s)) = JNull /\
  is_responding
    (state_of (openai_loop w [(E1, Json (JObj kv1)); (E2, Json (JObj kv2))] s)) = false /\
  client_messages
    (trace_of (openai_loop w [(E1, Json (JObj kv1)); (E2, Json (JObj kv2))] s))
    = [thinking_start; simple "response_done"] /\
  wire_messages
    (trace_of (openai_loop w [(E1, Json (JObj kv1)); (E2, Json (JObj kv2))] s))
    = (if browser_closed E1 w then [] else [thinking_start])
      ++ (if browser_closed E2 w then [] else [simple "response_done"]).
Proof.
  intros Hty1 Hresp Hid Hty2.
  destruct (response_created_run E1 w s kv1 rkv (JStr r) Hty1 Hresp Hid)
    as (t1 & H1 & Hc1 & Hw1).
  destruct (response_done_run E2 w
              (set_is_responding true (set_current_response_id (JStr r) s)) kv2 Hty2)
    as (t2 & H2 & Hc2 & Hw2).
  unfold openai_loop, bind, ret, state_of, trace_of.
  rewrite H1. simpl. rewrite H2. simpl.
  rewrite app_nil_r, client_messages_app.
  unfold wire_messages in *. rewrite flat_map_app, Hc1, Hc2, Hw1, Hw2.
  repeat split.
Qed.

Lemma response_round_trip_witness :
  client_messages
    (trace_of (openai_loop 1
       [(calm 5%float, Json (JObj [("type", JStr "response.created");
                                   ("response", JObj [("id", JStr "r1")])]));
        (calm 6%float, Json (JObj [("type", JStr "response.done")]))] live))
    = [thinking_start; simple "response_done"] /\
  wire_messages
    (trace_of (openai_loop 1
       [(calm 5%float, Json (JObj [("type", JStr "response.created");
                                   ("response", JObj [("id", JStr "r1")])]));
        (calm 6%float, Json (JObj [("type", JStr "response.done")]))] live))
    = [thinking_start; simple "response_done"].
Proof.
  exact (proj2 (proj2 (proj2 (proj2
           (response_round_trip 1 live (calm 5%float) (calm 6%float)
              [("type", JStr "response.created"); ("response", JObj [("id", JStr "r1")])]
              [("id", JStr "r1")]
              [("type", JStr "response.done")] "r1"
              eq_refl eq_refl eq_refl eq_refl))))).
Defined.

End EventTranslator.

(** ** Audio capture sink: [save_recording] *)

Section AudioCapture.

Variable cfg : config.settings.

Lemma save_recording_absent E w s :
  audio_recordings s !! w = None ->
  save_recording cfg E w s = (Ret tt, s, []).
Proof. intros H. unfold save_recording. run. rewrite H. reflexivity. Qed.

Lemma save_recording_present E w s chunks :
  config.ENABLE_RECORDINGS cfg = true ->
  audio_recordings s !! w = Some chunks ->
  result_of (save_recording cfg E w s) = Ret tt /\
  state_of (save_recording cfg E w s)
    = set_audio_recordings (delete w (audio_recordings s)) s /\
  files_written (trace_of (save_recording cfg E w s))
    = match List.concat chunks with
      | [] => []
      | _ :: _ => ["recording_" +:+ strftime_now E +:+ ".wav"]
      end.
Proof.
  intros Hen Hw. unfold save_recording, del_recording. run. rewrite Hw.
  destruct chunks as [| c chunks]; [repeat split; reflexivity |].
  destruct (List.concat (c :: chunks)) as [| b data] eqn:Hdata; simpl.
  - repeat split; reflexivity.
  - rewrite Hen. simpl.
    destruct (wave_write E _ _) as [e |]; simpl.
    + rewrite bool_decide_eq_true_2 by (apply elem_of_dom; eauto).
      repeat split; reflexivity.
    + repeat split; reflexivity.
Qed.

(** C6. With capture enabled, flushing a socket's buffer twice: both calls
    return normally; after the first the buffer entry is gone; the second
    changes nothing and does nothing; and together they write one container
    file when the captured audio has at least one byte and none when it has
    none (no entry, no frame, or only empty frames). *)
Theorem flush_idempotent (E1 E2 : env) (w : ws_handle) (s : agent) :
  config.ENABLE_RECORDINGS cfg = true ->
  result_of (save_recording cfg E1 w s) = Ret tt /\
  audio_recordings (state_of (save_recording cfg E1 w s)) !! w = None /\
  save_recording cfg E2 w (state_of (save_recording cfg E1 w s))
    = (Ret tt, state_of (save_recording cfg E1 w s), []) /\
  List.length
    (files_written
       (trace_of (save_recording cfg E1 w s) ++
        trace_of (save_recording cfg E2 w (state_of (save_recording cfg E1 w s)))))
    = match captured s w with
      | [] => 0
      | _ :: _ => 1
      end.
Proof.
  intros Hen.
  assert (Hgone : audio_recordings (state_of (save_recording cfg E1 w s)) !! w = None).
  { destruct (audio_recordings s !! w) as [chunks |] eqn:Hw.
    - destruct (save_recording_present E1 w s chunks Hen Hw) as (_ & -> & _).
      simpl. apply lookup_delete_eq.
    - rewrite (save_recording_absent _ _ _ Hw). exact Hw. }
  rewrite (save_recording_absent E2 w _ Hgone).
  unfold captured.
  destruct (audio_recordings s !! w) as [chunks |] eqn:Hw.
  - destruct (save_recording_present E1 w s chunks Hen Hw) as (Hr & _ & Hf).
    repeat split; try assumption.
    unfold trace_of at 2. simpl. rewrite app_nil_r, Hf.
    destruct (List.concat chunks); reflexivity.
  - rewrite (save_recording_absent _ _ _ Hw). repeat split; try assumption.
Qed.

End AudioCapture.

Lemma flush_idempotent_witness :
  config.ENABLE_RECORDINGS sample_settings = true /\
  captured recording 1 = [Byte.x01; Byte.x02; Byte.x03] /\
  List.length
    (files_written
       (trace_of (save_recording sample_settings (calm 5%float) 1 recording) ++
        trace_of (save_recording sample_settings (calm 6%float) 1
                    (state_of (save_recording sample_settings (calm 5%float) 1 recording)))))
    = 1.
Proof.
  split; [reflexivity |]. split; [vm_compute; reflexivity |].
  exact (proj2 (proj2 (proj2
           (flush_idempotent sample_settings (calm 5%float) (calm 6%float) 1 recording
              eq_refl)))).
Defined.

(** ** Upstream connector: [connect_to_openai] *)

Section UpstreamConnector.

Variable cfg : config.settings.

Lemma provider_endpoint_complete E :
  credentials_complete cfg = true -> exists target, provider_endpoint cfg E = Ret target.
Proof.
  unfold credentials_complete, provider_endpoint.
  destruct (config.USE_AZURE cfg); [intros -> |]; simpl; eauto.
Qed.

(** A configuration that [validate_config] accepts is complete. *)
Lemma validated_credentials_complete :
  config.validate_config cfg = Ret tt -> credentials_complete cfg = true.
Proof.
  unfold config.validate_config, credentials_complete, config.missing.
  destruct (config.USE_AZURE cfg); [| reflexivity].
  destruct (truthy_opt (config.AZURE_OPENAI_ENDPOINT cfg)),
           (truthy_opt (config.AZURE_OPENAI_API_KEY cfg)),
           (truthy_opt (config.AZURE_OPENAI_DEPLOYMENT cfg)); simpl;
    intros H; (reflexivity || discriminate H).
Qed.

(** Whatever the outcome, the first thing [connect_to_openai] does to the
    outside is the attempt under the keyword [additional_headers]. *)
Lemma connect_trace_head E s target :
  provider_endpoint cfg E = Ret target ->
  exists rest,
    trace_of (connect_to_openai cfg E s)
      = Print DConnecting :: Print (DAttempt additional_headers)
        :: UpstreamConnect (fst target) additional_headers (snd target) :: rest.
Proof.
  intros Ht. unfold connect_to_openai, open_upstream. run. rewrite Ht. simpl.
  destruct (ws_connect E (fst target) additional_headers (snd target)) as [u | e]; simpl;
    [eexists; reflexivity |].
  destruct (exn_kind e); simpl; try (eexists; reflexivity).
  destruct (contains "additional_headers" (exn_text e)
            || contains "extra_headers" (exn_text e));
    simpl; [| eexists; reflexivity].
  destruct (ws_connect E (fst target) extra_headers (snd target)) as [u | e2]; simpl;
    [eexists; reflexivity |].
  destruct (exn_kind e2); simpl; eexists; reflexivity.
Qed.

(** C4, as amended.  Three cases, which are all the cases.  (1) Either
    credential shape, complete, and any answer to the connection attempts
    other than a [TypeError] on the first attempt that names neither header
    keyword: [connect_to_openai] returns a boolean and raises nothing, [True]
    with the channel stored or [False] with the channel attribute untouched.
    (2) Every [TypeError] of the first attempt that names neither header
    keyword is raised again to the caller, after that one attempt, with the
    agent unchanged.  (3) Every Azure configuration that lacks one of its
    three values, which [validate_config] refuses at start-up, raises
    [ValueError] before any attempt. *)
Theorem connect_returns_bool (E : env) (s : agent) :
  (credentials_complete cfg = true ->
   (forall o, first_attempt cfg E = Some o -> foreign_type_error o = false) ->
   exists b : bool,
     result_of (connect_to_openai cfg E s) = Ret b /\
     (b = true -> exists u, openai_ws (state_of (connect_to_openai cfg E s)) = Some u) /\
     (b = false -> openai_ws (state_of (connect_to_openai cfg E s)) = openai_ws s)) /\
  (forall e,
     first_attempt cfg E = Some (Refused e) ->
     foreign_type_error (Refused e) = true ->
     result_of (connect_to_openai cfg E s) = Raise e /\
     state_of (connect_to_openai cfg E s) = s /\
     List.length (List.filter is_connect (trace_of (connect_to_openai cfg E s))) = 1) /\
  (credentials_complete cfg = false ->
   config.validate_config cfg <> Ret tt /\
   exists e,
     connect_to_openai cfg E s = (Raise e, s, []) /\ exn_kind e = ValueError).
Proof.
  split; [| split].
  - intros Hc Hfirst. destruct (provider_endpoint_complete E Hc) as [[url headers] Ht].
    unfold first_attempt in Hfirst. rewrite Ht in Hfirst. simpl in Hfirst.
    specialize (Hfirst _ eq_refl).
    unfold connect_to_openai, open_upstream. run. rewrite Ht. simpl.
    destruct (ws_connect E url additional_headers headers) as [u | e]; simpl.
    + exists true. repeat split; intros; eauto; congruence.
    + simpl in Hfirst.
      destruct (exn_kind e); simpl;
        try (exists false; repeat split; intros; congruence).
      apply negb_false_iff in Hfirst. rewrite Hfirst. simpl.
      destruct (ws_connect E url extra_headers headers) as [u | e2]; simpl.
      * exists true. repeat split; intros; eauto; congruence.
      * destruct (exn_kind e2); simpl; exists false; repeat split; intros; congruence.
  - intros e Hfirst Hforeign. unfold first_attempt in Hfirst.
    destruct (provider_endpoint cfg E) as [[url headers] | e0] eqn:Ht; [| discriminate Hfirst].
    injection Hfirst as Hfirst. simpl in Hfirst.
    unfold connect_to_openai, open_upstream. run. rewrite Ht. simpl. rewrite Hfirst. simpl.
    simpl in Hforeign.
    destruct (exn_kind e); try discriminate Hforeign.
    apply negb_true_iff in Hforeign. rewrite Hforeign. simpl. repeat split.
  - intros Hc. split.
    + intros Hv. apply validated_credentials_complete in Hv. congruence.
    + unfold credentials_complete in Hc.
      unfold connect_to_openai, provider_endpoint. run.
      destruct (config.USE_AZURE cfg); [| discriminate Hc]. rewrite Hc. simpl.
      eexists. split; reflexivity.
Qed.

End UpstreamConnector.

Lemma connect_returns_bool_witness :
  credentials_complete sample_settings = true /\
  (forall o,
     first_attempt sample_settings
       (refusing (mk_exn OSError "Name or service not known")) = Some o ->
     foreign_type_error o = false) /\
  (exists b : bool,
     result_of (connect_to_openai sample_settings
                  (refusing (mk_exn OSError "Name or service not known")) init) = Ret b) /\
  (credentials_complete azure_without_deployment = false /\
   exists e,
     connect_to_openai azure_without_deployment (calm 0%float) init = (Raise e, init, []) /\
     exn_kind e = ValueError).
Proof.
  assert (H : forall o,
            first_attempt sample_settings
              (refusing (mk_exn OSError "Name or service not known")) = Some o ->
            foreign_type_error o = false).
  { intros o Ho. injection Ho as <-. reflexivity. }
  split; [reflexivity |]. split; [exact H |]. split.
  - destruct (proj1 (connect_returns_bool sample_settings
                       (refusing (mk_exn OSError "Name or service not known")) init)
                eq_refl H)
      as (b & Hb & _).
    exists b. exact Hb.
  - split; [reflexivity |].
    exact (proj2 (proj2 (proj2 (connect_returns_bool azure_without_deployment
                                  (calm 0%float) init)) eq_refl)).
Defined.

(** C4, as stated, fails on a configuration that [validate_config]
    accepts: a [TypeError] of the first attempt that names neither header
    keyword is raised again to the caller. *)
Lemma connect_reraises_type_error :
  config.validate_config sample_settings = Ret tt /\
  result_of (connect_to_openai sample_settings
               (refusing (mk_exn TypeError
                            "connect() got an unexpected keyword argument 'ping_timeout'"))
               init)
    = Raise (mk_exn TypeError "connect() got an unexpected keyword argument 'ping_timeout'").
Proof. split; vm_compute; reflexivity. Qed.

(** ** Session bridge: supersession *)

Section SessionBridge.

Variable cfg : config.settings.

Lemma swallowed_close_run (x : effect) (outcome : option exn) s :
  try_except (attempt x outcome) (fun _ => ret tt) s = (Ret tt, s, [x]).
Proof.
  unfold try_except, attempt, bind, emit, raise, ret. destruct outcome; reflexivity.
Qed.

Lemma close_each_run E olds s :
  for_each olds
    (fun old_ws =>
       try_except (attempt (BrowserClose old_ws) (browser_close E old_ws))
                  (fun _ => ret tt)) s
  = (Ret tt, s, map BrowserClose olds).
Proof.
  induction olds as [| w olds IH]; simpl; [reflexivity |].
  unfold bind at 1. rewrite swallowed_close_run, IH. reflexivity.
Qed.

(** With a session in place, supersession closes its upstream channel and
    every one of its client channels, whatever the closes answer, and leaves
    the new socket as the only active one, with no upstream channel. *)
Lemma supersede_run E w s :
  active_connections s <> ∅ ->
  supersede E w s
  = (Ret tt,
     set_active_connections {[w]} (set_openai_ws None s),
     Print (DClosingOld (size (active_connections s))) :: closes_of s).
Proof.
  intros Hne. unfold supersede, closes_of.
  unfold bind at 1. unfold self at 1. cbv iota beta.
  rewrite bool_decide_eq_false_2 by assumption. cbn [negb when].
  unfold bind at 1. unfold bind at 1. unfold print at 1. unfold emit at 1. cbv iota beta.
  assert (Hset : forall a : agent,
            set_active_connections ({[w]} ∪ active_connections (set_active_connections ∅ a))
              (set_active_connections ∅ a) = set_active_connections {[w]} a).
  { intros a. unfold set_active_connections. cbn. f_equal. apply (right_id_L ∅ (∪)). }
  destruct (openai_ws s) as [u |] eqn:Hu.
  - unfold bind at 1. unfold bind at 1. rewrite swallowed_close_run.
    unfold modify at 1. cbv iota beta.
    unfold bind at 1. rewrite close_each_run.
    unfold modify. cbv iota beta. rewrite Hset, !app_nil_r. reflexivity.
  - unfold bind at 1. unfold ret at 1. cbv iota beta.
    unfold bind at 1. rewrite close_each_run. unfold modify. cbv iota beta.
    rewrite Hset, !app_nil_r.
    replace (set_openai_ws None s) with s; [reflexivity |].
    destruct s; cbn in *; subst; reflexivity.
Qed.

Lemma accept_run E w s :
  active_connections s <> ∅ ->
  accept cfg E w s
  = (result_of (open_session cfg E w (set_active_connections {[w]} (set_openai_ws None s))),
     state_of (open_session cfg E w (set_active_connections {[w]} (set_openai_ws None s))),
     (Print DBrowserConnected :: Print (DClosingOld (size (active_connections s)))
        :: closes_of s)
     ++ trace_of (open_session cfg E w (set_active_connections {[w]} (set_openai_ws None s)))).
Proof.
  intros Hne. unfold accept.
  unfold bind at 1. unfold print at 1. unfold emit at 1. cbv iota beta.
  unfold bind at 1. rewrite (supersede_run E w s Hne).
  destruct (open_session cfg E w _) as [[r s2] t2]. reflexivity.
Qed.

Lemma closes_no_connect s : forallb (fun y => negb (is_connect y)) (closes_of s) = true.
Proof.
  unfold closes_of. rewrite forallb_app. apply andb_true_iff. split.
  - destruct (openai_ws s); reflexivity.
  - induction (elements (active_connections s)); simpl; auto.
Qed.

Lemma keeps_on_browser_message E w message :
  respects eq (on_browser_message cfg E w message).
Proof.
  unfold on_browser_message, loads, send_greeting, send_text_message,
    update_vad_threshold, throttled, record_chunk.
  respects.
Qed.

Lemma keeps_on_openai_message E w message :
  respects eq (on_openai_message E w message).
Proof. unfold on_openai_message, loads, _send_ws_message. respects. Qed.

Lemma keeps_open_session E w : respects eq (open_session cfg E w).
Proof.
  unfold open_session, connect_to_openai, open_upstream, configure_session, _send_ws_message.
  respects.
Qed.

Lemma teardown_shrinks E w : respects (flip (⊆)) (teardown cfg E w).
Proof. unfold teardown, save_recording, del_recording. respects. Qed.

Lemma supersede_alone E w s :
  active_connections (state_of (supersede E w s)) = {[w]}.
Proof.
  destruct (decide (active_connections s = ∅)) as [Hempty | Hne].
  - unfold supersede. run. rewrite bool_decide_eq_true_2 by assumption. simpl.
    rewrite Hempty. apply (right_id_L ∅ (∪)).
  - rewrite (supersede_run E w s Hne). reflexivity.
Qed.

(** Whatever becomes of the connection attempt, the handler leaves the new
    socket as the only active connection. *)
Lemma accept_alone E w s :
  active_connections (state_of (accept cfg E w s)) = {[w]}.
Proof.
  unfold accept. rewrite bind_state. cbn [print emit result_of state_of fst snd].
  rewrite bind_state.
  pose proof (supersede_alone E w s) as Hs.
  destruct (result_of (supersede E w s)); [| exact Hs].
  rewrite <- (keeps_open_session E w). exact Hs.
Qed.

(** At most one connection is active in every state the bridge reaches. *)
Lemma single_active_connection s :
  reachable cfg s -> size (active_connections s) <= 1.
Proof.
  induction 1 as [| s E w _ _ | s E w message _ IH | s E w message _ IH | s E w _ IH].
  - change (size (∅ : gset ws_handle) <= 1). rewrite size_empty. lia.
  - rewrite accept_alone, size_singleton. reflexivity.
  - rewrite <- (keeps_on_browser_message E w message s). exact IH.
  - rewrite <- (keeps_on_openai_message E w message s). exact IH.
  - etransitivity; [| exact IH]. apply subseteq_size, teardown_shrinks.
Qed.

(** C1. A client connects while a session is in place (the set of active
    connections is not empty).  When supersession is over the new socket is
    the only active connection and there is no upstream channel; in the trace
    of the handler every connection attempt comes after the close of the
    prior upstream channel and after the close of each prior client channel;
    the provider's endpoint being configured, an attempt is made; and when the
    handler reaches its loop, or returns, the new socket is still the only
    active connection. *)
Theorem supersession_before_connect (E : env) (w : ws_handle) (s : agent) :
  active_connections s <> ∅ ->
  (active_connections (state_of (supersede E w s)) = {[w]} /\
   openai_ws (state_of (supersede E w s)) = None) /\
  (forall pre x post,
     trace_of (accept cfg E w s) = pre ++ x :: post ->
     is_connect x = true ->
     (forall u, openai_ws s = Some u -> In (UpstreamClose u) pre) /\
     (forall old_ws, old_ws ∈ active_connections s -> In (BrowserClose old_ws) pre)) /\
  (forall target,
     provider_endpoint cfg E = Ret target ->
     exists pre post,
       trace_of (accept cfg E w s)
         = pre ++ UpstreamConnect (fst target) additional_headers (snd target) :: post) /\
  active_connections (state_of (accept cfg E w s)) = {[w]}.
Proof.
  intros Hne. split; [| split; [| split; [| apply accept_alone]]].
  - rewrite (supersede_run E w s Hne). split; reflexivity.
  - intros pre x post Htrace Hx.
    rewrite (accept_run E w s Hne) in Htrace. unfold trace_of at 1 in Htrace.
    cbn [snd] in Htrace.
    apply split_past_prefix with (P := is_connect) in Htrace as [mid ->]; [| | exact Hx].
    + split.
      * intros u Hu. apply in_or_app. left. right. right.
        unfold closes_of. rewrite Hu. left. reflexivity.
      * intros old_ws Hold. apply in_or_app. left. right. right.
        unfold closes_of. apply in_or_app. right. apply in_map.
        apply list_elem_of_In, elem_of_elements. exact Hold.
    + cbn [forallb is_connect negb andb]. apply closes_no_connect.
  - intros target Ht. rewrite (accept_run E w s Hne).
    unfold trace_of at 1. cbn [snd]. unfold open_session.
    destruct (bind_trace_prefix (connect_to_openai cfg E)
                (fun ok : bool =>
                   if negb ok
                   then bind (_send_ws_message E w connect_failed) (fun _ => ret false)
                   else bind (configure_session E)
                          (fun _ => bind (emit (TaskCreate w)) (fun _ => ret true)))
                (set_active_connections {[w]} (set_openai_ws None s))) as [rest ->].
    destruct (connect_trace_head cfg E (set_active_connections {[w]} (set_openai_ws None s))
                target Ht) as [rest' ->].
    exists (Print DBrowserConnected :: Print (DClosingOld (size (active_connections s)))
              :: closes_of s ++ [Print DConnecting; Print (DAttempt additional_headers)]).
    exists (rest' ++ rest).
    cbn [app]. rewrite <- !app_assoc. reflexivity.
Qed.

End SessionBridge.

Lemma supersession_witness :
  active_connections live <> ∅ /\
  active_connections (state_of (supersede (calm 5%float) 2 live)) = {[2]} /\
  openai_ws (state_of (supersede (calm 5%float) 2 live)) = None.
Proof.
  assert (H : active_connections live <> ∅).
  { intros Heq. apply (f_equal (fun X : gset ws_handle => bool_decide (1 ∈ X))) in Heq.
    vm_compute in Heq. discriminate Heq. }
  split; [exact H |].
  exact (proj1 (supersession_before_connect sample_settings (calm 5%float) 2 live H)).
Defined.

(** The handler on a second client, run: the closes of the session in place
    come first, then the connection attempt. *)
Example second_client_trace :
  firstn 7 (trace_of (accept sample_settings (calm 5%float) 2 live))
  = [Print DBrowserConnected; Print (DClosingOld 1);
     UpstreamClose 100; BrowserClose 1;
     Print DConnecting; Print (DAttempt additional_headers);
     UpstreamConnect
       "wss://api.openai.com/v1/realtime?model=gpt-4o-realtime-preview-2024-12-17"
       additional_headers
       [("Authorization", "Bearer sk-test"); ("OpenAI-Beta", "realtime=v1")]].
Proof. vm_compute. reflexivity. Qed.

(** ** The bridge run on concrete sessions *)

(** A first client, four frames, then the end of the stream: the audio and
    the trimmed text go upstream after the session's configuration; the frame
    that is not JSON and the JSON array are dropped with their diagnostics;
    the session is torn down. *)
Example one_session :
  let r :=
    handle_browser_websocket sample_settings (calm 1%float) 1
      [(calm 2%float,
        Json (JObj [("type", JStr "input_audio_buffer.append"); ("audio", JStr "AAEC")]));
       (calm 3%float, Json (JObj [("type", JStr "text_message"); ("text", JStr "  hi ")]));
       (calm 4%float, NotJson "oops");
       (calm 5%float, Json (JArr []))]
      None (calm 6%float) init in
  result_of r = Ret tt /\
  upstream_commands (trace_of r)
    = [session_config;
       audio_append (JStr "AAEC");
       conversation_item "user" "hi";
       JObj [("type", JStr "response.create")]] /\
  diagnostics (trace_of r)
    = [DBrowserConnected; DConnecting; DAttempt additional_headers; DConnected;
       DSessionConfigured; DInvalidJsonBrowser;
       DErrProcessingBrowser (mk_exn AttributeError "object has no attribute 'get'")] /\
  active_connections (state_of r) = ∅ /\
  openai_ws (state_of r) = None /\
  error_count (state_of r) = 1%Z.
Proof. vm_compute. repeat split; reflexivity. Qed.

(** An [interrupt] outside a response sends nothing; inside one it cancels. *)
Example interrupt_idle :
  trace_of (on_browser_message sample_settings (calm 5%float) 1
              (Json (JObj [("type", JStr "interrupt")])) live) = [].
Proof. vm_compute. reflexivity. Qed.

Example interrupt_answering :
  trace_of (on_browser_message sample_settings (calm 5%float) 1
              (Json (JObj [("type", JStr "interrupt")])) answering)
  = [UpstreamSend 100 response_cancel; Print DResponseCancelled].
Proof. vm_compute. reflexivity. Qed.

(** The clamp on the numbers JSON can carry, and on what is no number. *)
Example clamp_samples :
  clamp_threshold (JFloat 1.5%float) = Ret (JFloat 1.0%float) /\
  clamp_threshold (JFloat (-0.2)%float) = Ret (JFloat 0.0%float) /\
  clamp_threshold (JFloat 0.35%float) = Ret (JFloat 0.35%float) /\
  clamp_threshold (JInt 3) = Ret (JFloat 1.0%float) /\
  clamp_threshold (JInt 0) = Ret (JFloat 0.0%float) /\
  clamp_threshold (JFloat nan) = Ret (JFloat 1.0%float) /\
  result_of (update_vad_threshold (calm 5%float) (JStr "high") live)
    = Raise (mk_exn TypeError "'<' not supported between instances").
Proof. vm_compute. repeat split; reflexivity. Qed.

(** Flushing the two captured frames of [recording] writes one file; a
    buffer holding one empty frame writes none. *)
Example flush_samples :
  trace_of (save_recording sample_settings (calm 5%float) 1 recording)
  = [WavWrite "recording_20250101_120000.wav" 1 2 24000 [Byte.x01; Byte.x02; Byte.x03];
     Print (DRecordingSaved "recording_20250101_120000.wav")] /\
  trace_of (save_recording sample_settings (calm 5%float) 1
              (set_audio_recordings {[ 1 := [[]] ]} live)) = [].
Proof. vm_compute. repeat split; reflexivity. Qed.

(** The Azure endpoint is stripped of trailing slashes and given the
    WebSocket scheme. *)
Example azure_endpoint :
  provider_endpoint
    {| config.USE_AZURE := true;
       config.OPENAI_API_KEY := None;
       config.AZURE_OPENAI_ENDPOINT := Some "https://example.openai.azure.com//";
       config.AZURE_OPENAI_API_KEY := Some "key";
       config.AZURE_OPENAI_DEPLOYMENT := Some "gpt-4o-realtime";
       config.AZURE_API_VERSION := "2024-10-01-preview";
       config.ENABLE_RECORDINGS := false |}
    (calm 0%float)
  = Ret ("wss://example.openai.azure.com/openai/realtime?api-version=2024-10-01-preview&deployment=gpt-4o-realtime",
         [("api-key", "key")]).
Proof. vm_compute. reflexivity. Qed.

(** * Further properties of the bridge *)

(** ** Conditions kept by a coroutine body *)

Section Holds.

Context (Inv : agent -> Prop) (P : effect -> bool).

Lemma holds_ret {A : Type} (a : A) : holds Inv P (ret a).
Proof. intros s Hs. split; [exact Hs | reflexivity]. Qed.

Lemma holds_raise {A : Type} (e : exn) : holds Inv P (@raise A e).
Proof. intros s Hs. split; [exact Hs | reflexivity]. Qed.

Lemma holds_lift {A : Type} (r : res A) : holds Inv P (lift r).
Proof. intros s Hs. split; [exact Hs | reflexivity]. Qed.

Lemma holds_emit x : P x = true -> holds Inv P (emit x).
Proof. intros Hx s Hs. split; [exact Hs |]. simpl. rewrite Hx. reflexivity. Qed.

Lemma holds_modify (f : agent -> agent) :
  (forall s, Inv s -> Inv (f s)) -> holds Inv P (modify f).
Proof. intros Hf s Hs. split; [apply Hf, Hs | reflexivity]. Qed.

Lemma holds_bind {A B : Type} (m : M A) (f : A -> M B) :
  holds Inv P m -> (forall a, holds Inv P (f a)) -> holds Inv P (bind m f).
Proof.
  intros Hm Hf s Hs. destruct (Hm s Hs) as [Hi Ht].
  unfold bind, state_of, trace_of in *.
  destruct (m s) as [[[a | e] s1] t1]; simpl in *; [| split; assumption].
  destruct (Hf a s1 Hi) as [Hi2 Ht2]. unfold state_of, trace_of in *.
  destruct (f a s1) as [[r s2] t2]. simpl in *.
  split; [exact Hi2 |]. rewrite forallb_app, Ht, Ht2. reflexivity.
Qed.

Lemma holds_self_bind {B : Type} (f : agent -> M B) :
  (forall s0, Inv s0 -> holds Inv P (f s0)) -> holds Inv P (bind self f).
Proof.
  intros Hf s Hs. destruct (Hf s Hs s Hs) as [Hi Ht].
  unfold bind, self, state_of, trace_of in *. simpl.
  destruct (f s s) as [[r s2] t2]. simpl in *. split; assumption.
Qed.

Lemma holds_try_except {A : Type} (m : M A) (h : exn -> M A) :
  holds Inv P m -> (forall e, holds Inv P (h e)) -> holds Inv P (try_except m h).
Proof.
  intros Hm Hh s Hs. destruct (Hm s Hs) as [Hi Ht].
  unfold try_except, state_of, trace_of in *.
  destruct (m s) as [[[a | e] s1] t1]; simpl in *; [split; assumption |].
  destruct (Hh e s1 Hi) as [Hi2 Ht2]. unfold state_of, trace_of in *.
  destruct (h e s1) as [[r s2] t2]. simpl in *.
  split; [exact Hi2 |]. rewrite forallb_app, Ht, Ht2. reflexivity.
Qed.

Lemma holds_when b (m : M unit) : holds Inv P m -> holds Inv P (when b m).
Proof. intros Hm. destruct b; [exact Hm | apply holds_ret]. Qed.

Lemma holds_attempt x outcome : P x = true -> holds Inv P (attempt x outcome).
Proof.
  intros Hx. unfold attempt. apply holds_bind; [apply holds_emit, Hx |].
  intros _. destruct outcome; [apply holds_raise | apply holds_ret].
Qed.

Lemma holds_for_each {A : Type} (xs : list A) (body : A -> M unit) :
  (forall x, holds Inv P (body x)) -> holds Inv P (for_each xs body).
Proof.
  intros Hb. induction xs as [| x xs IH]; simpl.
  - apply holds_ret.
  - apply holds_bind; [apply Hb | intros _; exact IH].
Qed.

End Holds.

(** Walks through a coroutine body; [side] closes the conditions on the
    agent that the steps leave. *)
Ltac holds_step side :=
  lazymatch goal with
  | |- holds _ _ (ret _) => apply holds_ret
  | |- holds _ _ (raise _) => apply holds_raise
  | |- holds _ _ (lift _) => apply holds_lift
  | |- holds _ _ (emit _) => apply holds_emit; reflexivity
  | |- holds _ _ (print _) => apply holds_emit; reflexivity
  | |- holds _ _ (attempt _ _) => apply holds_attempt; reflexivity
  | |- holds _ _ (modify _) => apply holds_modify; intros ? ?; side
  | |- holds _ _ (bind self _) => apply holds_self_bind; intros ? ?
  | |- holds _ _ (bind _ _) => apply holds_bind; [| intros ?]
  | |- holds _ _ (try_except _ _) => apply holds_try_except; [| intros ?]
  | |- holds _ _ (when _ _) => apply holds_when
  | |- holds _ _ (for_each _ _) => apply holds_for_each; intros ?
  | |- holds _ _ (if ?c then _ else _) => destruct c eqn:?
  | |- holds _ _ (match ?x with _ => _ end) => destruct x eqn:?
  end.

Ltac holds_with side := repeat (holds_step side; try (exfalso; congruence)).

(** Unfolds the methods that the loop bodies call. *)
Ltac unfold_methods :=
  unfold on_browser_message, on_openai_message, loads, send_greeting, send_text_message,
    update_vad_threshold, throttled, record_chunk, _send_ws_message, save_recording,
    del_recording, teardown, accept, supersede, open_session, connect_to_openai,
    open_upstream, configure_session.

(** Closes a condition on the agent that the setter at hand does not touch. *)
Ltac same_side :=
  repeat (match goal with
          | |- context [match ?x with _ => _ end] => destruct x
          end);
  match goal with
  | H : same_but_response _ _ |- _ => exact H
  | H : same_session _ _ |- _ => exact H
  end.

Lemma translator_holds E w message c :
  holds (same_but_response c) (fun x => negb (is_upstream x)) (on_openai_message E w message).
Proof. unfold_methods. holds_with same_side. Qed.

Lemma commands_hold cfg E w message c :
  holds (same_session c) (fun x => negb (is_client x)) (on_browser_message cfg E w message).
Proof. unfold_methods. holds_with same_side. Qed.

Lemma same_but_response_refl s : same_but_response s s.
Proof. repeat split. Qed.

Lemma same_session_refl s : same_session s s.
Proof. repeat split. Qed.

Lemma holds_openai_loop Inv P w frames :
  (forall E message, holds Inv P (on_openai_message E w message)) ->
  holds Inv P (openai_loop w frames).
Proof.
  intros Hstep. induction frames as [| [E message] rest IH]; simpl.
  - apply holds_ret.
  - apply holds_bind; [apply Hstep | intros _; exact IH].
Qed.

Lemma holds_browser_loop Inv P cfg w frames :
  (forall E message, holds Inv P (on_browser_message cfg E w message)) ->
  holds Inv P (browser_loop cfg w frames).
Proof.
  intros Hstep. induction frames as [| [E message] rest IH]; simpl.
  - apply holds_ret.
  - apply holds_bind; [apply Hstep | intros _; exact IH].
Qed.

(** X1. The loop over the client's frames, on any frames from any agent:
    it returns normally, it leaves the set of active connections, the
    session flag and the tracked response as they were, and it never sends
    to, or closes, a client socket. *)
Theorem command_translator_frame (cfg : config.settings) (w : ws_handle)
    (frames : list (env * frame)) (s : agent) :
  result_of (browser_loop cfg w frames s) = Ret tt /\
  same_session s (state_of (browser_loop cfg w frames s)) /\
  forallb (fun x => negb (is_client x)) (trace_of (browser_loop cfg w frames s)) = true.
Proof.
  split; [apply browser_loop_returns |].
  apply (holds_browser_loop (same_session s) _ cfg w frames
           (fun E message => commands_hold cfg E w message s) s).
  apply same_session_refl.
Qed.

(** The same for a condition on one attribute. *)
Ltac field_side :=
  repeat (match goal with
          | |- context [match ?x with _ => _ end] => destruct x
          end);
  first [assumption | reflexivity].

Lemma no_channel_holds cfg E w message :
  holds (fun s => openai_ws s = None) (fun x => negb (is_upstream_send x))
        (on_browser_message cfg E w message).
Proof. unfold_methods. holds_with field_side. Qed.

Lemma no_channel_loop cfg w frames s :
  openai_ws s = None ->
  upstream_commands (trace_of (browser_loop cfg w frames s)) = [] /\
  openai_ws (state_of (browser_loop cfg w frames s)) = None.
Proof.
  intros Hnone.
  destruct (holds_browser_loop _ _ cfg w frames
              (fun E message => no_channel_holds cfg E w message) s Hnone) as [Hs Ht].
  split; [| exact Hs].
  induction (trace_of (browser_loop cfg w frames s)) as [| x t IH]; [reflexivity |].
  simpl in Ht. apply andb_true_iff in Ht as [Hx Ht].
  destruct x; try discriminate Hx; simpl; apply IH, Ht.
Qed.

(** X2. Without an upstream channel the loop over the client's frames sends
    no upstream command, whatever the frames are, it does not create a
    channel, and it returns normally. *)
Theorem no_channel_no_command (cfg : config.settings) (w : ws_handle)
    (frames : list (env * frame)) (s : agent) :
  openai_ws s = None ->
  upstream_commands (trace_of (browser_loop cfg w frames s)) = [] /\
  openai_ws (state_of (browser_loop cfg w frames s)) = None /\
  result_of (browser_loop cfg w frames s) = Ret tt.
Proof.
  intros Hnone. destruct (no_channel_loop cfg w frames s Hnone) as [Hc Hs].
  repeat split; [exact Hc | exact Hs | apply browser_loop_returns].
Qed.

Lemma no_channel_witness :
  openai_ws init = None /\
  upstream_commands
    (trace_of (browser_loop sample_settings 1
                 [(calm 2%float, audio_frame "AQI=");
                  (calm 3%float, Json (JObj [("type", JStr "session_start")]))] init)) = [].
Proof.
  split; [reflexivity |].
  exact (proj1 (no_channel_no_command sample_settings 1 _ init eq_refl)).
Defined.

(** ** Audio frames: forwarding and capture *)

Section Audio.
Variable cfg : config.settings.

Lemma audio_step_off E w s kv u :
  assoc "type" kv = Some (JStr "input_audio_buffer.append") ->
  config.ENABLE_RECORDINGS cfg = false ->
  openai_ws s = Some u ->
  upstream_commands (trace_of (on_browser_message cfg E w (Json (JObj kv)) s))
    = [audio_append (audio_of kv)] /\
  audio_recordings (state_of (on_browser_message cfg E w (Json (JObj kv)) s))
    = audio_recordings s /\
  openai_ws (state_of (on_browser_message cfg E w (Json (JObj kv)) s))
    = match ws_send E u (audio_append (audio_of kv)) with
      | Some e => if says_closed e then None else Some u
      | None => Some u
      end.
Proof.
  intros Hty Hoff Hu. unfold on_browser_message, loads, get, throttled, says_closed. run.
  rewrite Hty. simpl. rewrite Hoff. simpl. rewrite Hu. fold (audio_of kv).
  destruct (ws_send E u (audio_append (audio_of kv))) as [e |]; simpl.
  - destruct (PrimFloat.ltb 1 (PrimFloat.sub (time_time E) (last_error_time s))); simpl;
      destruct (contains "closed" (lower (exn_text e))
                || contains "connection" (lower (exn_text e))); simpl;
      repeat split; (reflexivity || exact Hu).
  - repeat split; (reflexivity || exact Hu).
Qed.

Lemma audio_step_on E w s kv u p bytes :
  assoc "type" kv = Some (JStr "input_audio_buffer.append") ->
  config.ENABLE_RECORDINGS cfg = true ->
  audio_of kv = JStr p ->
  b64decode E p = Some bytes ->
  openai_ws s = Some u ->
  upstream_commands (trace_of (on_browser_message cfg E w (Json (JObj kv)) s))
    = [audio_append (JStr p)] /\
  audio_recordings (state_of (on_browser_message cfg E w (Json (JObj kv)) s))
    = <[w := chunks_of s w ++ [bytes]]> (audio_recordings s) /\
  openai_ws (state_of (on_browser_message cfg E w (Json (JObj kv)) s))
    = match ws_send E u (audio_append (JStr p)) with
      | Some e => if says_closed e then None else Some u
      | None => Some u
      end.
Proof.
  intros Hty Hon Hp Hdec Hu.
  unfold on_browser_message, loads, get, throttled, says_closed, base64_b64decode,
    record_chunk, chunks_of. run.
  rewrite Hty. simpl. rewrite Hon. simpl. fold (audio_of kv). rewrite Hp, Hdec. simpl.
  destruct (audio_recordings s !! w) as [chunks |] eqn:Hw; simpl.
  - rewrite Hw. simpl. rewrite Hu.
    destruct (ws_send E u (audio_append (JStr p))) as [e |]; simpl.
    + destruct (PrimFloat.ltb 1 (PrimFloat.sub (time_time E) (last_error_time s))); simpl;
        destruct (contains "closed" (lower (exn_text e))
                  || contains "connection" (lower (exn_text e))); simpl;
        repeat split; (reflexivity || exact Hu).
    + repeat split; (reflexivity || exact Hu).
  - rewrite lookup_insert_eq. simpl. rewrite Hu.
    destruct (ws_send E u (audio_append (JStr p))) as [e |]; simpl.
    + destruct (PrimFloat.ltb 1 (PrimFloat.sub (time_time E) (last_error_time s))); simpl;
        destruct (contains "closed" (lower (exn_text e))
                  || contains "connection" (lower (exn_text e))); simpl;
        repeat split; (reflexivity || exact Hu || apply insert_insert_eq).
    + repeat split; (reflexivity || exact Hu || apply insert_insert_eq).
Qed.

Lemma audio_step_kept E w s kv p bytes :
  assoc "type" kv = Some (JStr "input_audio_buffer.append") ->
  config.ENABLE_RECORDINGS cfg = true ->
  audio_of kv = JStr p ->
  b64decode E p = Some bytes ->
  audio_recordings (state_of (on_browser_message cfg E w (Json (JObj kv)) s))
    = <[w := chunks_of s w ++ [bytes]]> (audio_recordings s).
Proof.
  intros Hty Hon Hp Hdec.
  destruct (openai_ws s) as [u |] eqn:Hu.
  - apply (audio_step_on E w s kv u p bytes Hty Hon Hp Hdec Hu).
  - unfold on_browser_message, loads, get, throttled, base64_b64decode,
      record_chunk, chunks_of. run.
    rewrite Hty. simpl. rewrite Hon. simpl. fold (audio_of kv). rewrite Hp, Hdec. simpl.
    destruct (audio_recordings s !! w) as [chunks |] eqn:Hw; simpl.
    + rewrite Hw. simpl. rewrite Hu.
      match goal with |- context [PrimFloat.ltb ?a ?b] => destruct (PrimFloat.ltb a b) end;
        reflexivity.
    + rewrite lookup_insert_eq. simpl. rewrite Hu.
      match goal with |- context [PrimFloat.ltb ?a ?b] => destruct (PrimFloat.ltb a b) end;
        simpl; apply insert_insert_eq.
Qed.

(** X3. An audio frame whose capture step does not raise, on an established
    channel: exactly one upstream command, [input_audio_buffer.append] with
    the payload as received; with capture off the buffers are untouched. *)
Theorem audio_forwarded_unchanged (E : env) (w : ws_handle) (s : agent)
    (kv : list (string * json)) (u : ws_handle) :
  assoc "type" kv = Some (JStr "input_audio_buffer.append") ->
  capturable cfg E (audio_of kv) = true ->
  openai_ws s = Some u ->
  upstream_commands (trace_of (on_browser_message cfg E w (Json (JObj kv)) s))
    = [audio_append (audio_of kv)] /\
  (config.ENABLE_RECORDINGS cfg = false ->
   audio_recordings (state_of (on_browser_message cfg E w (Json (JObj kv)) s))
     = audio_recordings s).
Proof.
  intros Hty Hcap Hu. unfold capturable in Hcap.
  destruct (config.ENABLE_RECORDINGS cfg) eqn:Hon; simpl in Hcap.
  - destruct (audio_of kv) as [| | | | p | |] eqn:Hp; try discriminate Hcap.
    destruct (b64decode E p) as [bytes |] eqn:Hdec; [| discriminate Hcap].
    split; [| discriminate].
    apply (audio_step_on E w s kv u p bytes Hty Hon Hp Hdec Hu).
  - destruct (audio_step_off E w s kv u Hty Hon Hu) as (Hc & Hr & _).
    split; [exact Hc | intros _; exact Hr].
Qed.

(** X4. With capture on, an audio frame that the decoder reads is appended
    after the frames already kept for its socket, and the frames kept for
    every other socket are as they were. *)
Theorem audio_kept_in_order (E : env) (w : ws_handle) (s : agent)
    (kv : list (string * json)) (p : string) (bytes : list Byte.byte) :
  assoc "type" kv = Some (JStr "input_audio_buffer.append") ->
  config.ENABLE_RECORDINGS cfg = true ->
  audio_of kv = JStr p ->
  b64decode E p = Some bytes ->
  chunks_of (state_of (on_browser_message cfg E w (Json (JObj kv)) s)) w
    = chunks_of s w ++ [bytes] /\
  (forall w', w' <> w ->
     chunks_of (state_of (on_browser_message cfg E w (Json (JObj kv)) s)) w'
       = chunks_of s w').
Proof.
  intros Hty Hon Hp Hdec.
  pose proof (audio_step_kept E w s kv p bytes Hty Hon Hp Hdec) as Hk.
  unfold chunks_of at 1 3. rewrite Hk. split.
  - rewrite lookup_insert_eq. reflexivity.
  - intros w' Hne. rewrite lookup_insert_ne by congruence. reflexivity.
Qed.

(** X5. With capture on, an audio frame whose payload the decoder rejects
    (or that is no string) is not forwarded: the body returns normally, no
    upstream command is sent, nothing is kept for the socket and the channel
    stays as it was. *)
Theorem undecodable_audio_not_forwarded (E : env) (w : ws_handle) (s : agent)
    (kv : list (string * json)) :
  assoc "type" kv = Some (JStr "input_audio_buffer.append") ->
  capturable cfg E (audio_of kv) = false ->
  result_of (on_browser_message cfg E w (Json (JObj kv)) s) = Ret tt /\
  upstream_commands (trace_of (on_browser_message cfg E w (Json (JObj kv)) s)) = [] /\
  chunks_of (state_of (on_browser_message cfg E w (Json (JObj kv)) s)) w = chunks_of s w /\
  openai_ws (state_of (on_browser_message cfg E w (Json (JObj kv)) s)) = openai_ws s.
Proof.
  intros Hty Hcap. unfold capturable in Hcap.
  destruct (config.ENABLE_RECORDINGS cfg) eqn:Hon; [| discriminate Hcap]. simpl in Hcap.
  unfold on_browser_message, loads, get, throttled, base64_b64decode, chunks_of. run.
  rewrite Hty. simpl. rewrite Hon. simpl. fold (audio_of kv).
  destruct (audio_recordings s !! w) as [chunks |] eqn:Hw; simpl;
    destruct (audio_of kv) as [| | | | p | |]; simpl; try discriminate Hcap;
    try (destruct (b64decode E p); [discriminate Hcap |]); simpl;
    match goal with |- context [PrimFloat.ltb ?a ?b] => destruct (PrimFloat.ltb a b) end;
    simpl; rewrite ?lookup_insert_eq, ?Hw; repeat split; reflexivity.
Qed.

Lemma bind_run {A B : Type} (m : M A) (f : A -> M B) (a : A) s :
  result_of (m s) = Ret a ->
  bind m f s
  = (result_of (f a (state_of (m s))),
     state_of (f a (state_of (m s))),
     trace_of (m s) ++ trace_of (f a (state_of (m s)))).
Proof.
  unfold bind, result_of, state_of, trace_of. destruct (m s) as [[r s1] t1]. simpl.
  intros ->. destruct (f a s1) as [[r2 s2] t2]. reflexivity.
Qed.

Lemma browser_loop_cons E w message frames s :
  browser_loop cfg w ((E, message) :: frames) s
  = (result_of (browser_loop cfg w frames (state_of (on_browser_message cfg E w message s))),
     state_of (browser_loop cfg w frames (state_of (on_browser_message cfg E w message s))),
     trace_of (on_browser_message cfg E w message s)
     ++ trace_of (browser_loop cfg w frames (state_of (on_browser_message cfg E w message s)))).
Proof.
  simpl.
  apply (bind_run (on_browser_message cfg E w message) (fun _ => browser_loop cfg w frames) tt).
  apply on_browser_message_returns.
Qed.

Lemma upstream_commands_app t1 t2 :
  upstream_commands (t1 ++ t2) = upstream_commands t1 ++ upstream_commands t2.
Proof. apply flat_map_app. Qed.

(** X6. When the send of an audio frame fails with a text that names a closed
    connection, the channel is dropped: that frame is the only upstream
    command of the loop, whatever frames follow, and the loop ends without a
    channel. *)
Theorem closed_upstream_ends_forwarding (E : env) (w : ws_handle) (s : agent)
    (kv : list (string * json)) (u : ws_handle) (e : exn) (frames : list (env * frame)) :
  assoc "type" kv = Some (JStr "input_audio_buffer.append") ->
  capturable cfg E (audio_of kv) = true ->
  openai_ws s = Some u ->
  ws_send E u (audio_append (audio_of kv)) = Some e ->
  says_closed e = true ->
  upstream_commands (trace_of (browser_loop cfg w ((E, Json (JObj kv)) :: frames) s))
    = [audio_append (audio_of kv)] /\
  openai_ws (state_of (browser_loop cfg w ((E, Json (JObj kv)) :: frames) s)) = None.
Proof.
  intros Hty Hcap Hu Hsend Hclosed.
  assert (Hstep :
            upstream_commands (trace_of (on_browser_message cfg E w (Json (JObj kv)) s))
              = [audio_append (audio_of kv)] /\
            openai_ws (state_of (on_browser_message cfg E w (Json (JObj kv)) s)) = None).
  { unfold capturable in Hcap.
    destruct (config.ENABLE_RECORDINGS cfg) eqn:Hon; simpl in Hcap.
    - destruct (audio_of kv) as [| | | | p | |] eqn:Hp; try discriminate Hcap.
      destruct (b64decode E p) as [bytes |] eqn:Hdec; [| discriminate Hcap].
      destruct (audio_step_on E w s kv u p bytes Hty Hon Hp Hdec Hu) as (Hc & _ & Hw).
      rewrite Hsend, Hclosed in Hw. split; assumption.
    - destruct (audio_step_off E w s kv u Hty Hon Hu) as (Hc & _ & Hw).
      rewrite Hsend, Hclosed in Hw. split; assumption. }
  destruct Hstep as [Hc Hnone].
  rewrite browser_loop_cons. unfold trace_of at 1, state_of at 1. cbn [fst snd].
  destruct (no_channel_loop cfg w frames _ Hnone) as [Hrest Hfinal].
  rewrite upstream_commands_app, Hc, Hrest. split; [reflexivity | exact Hfinal].
Qed.

Lemma captured_frames w frames chunks :
  config.ENABLE_RECORDINGS cfg = true ->
  Forall2 audio_frame_of frames chunks ->
  forall s,
    chunks_of (state_of (browser_loop cfg w frames s)) w = chunks_of s w ++ chunks.
Proof.
  intros Hon. induction 1 as [| [E message] bytes frames chunks Hf _ IH]; intros s.
  - simpl. rewrite app_nil_r. reflexivity.
  - destruct Hf as (kv & p & Hm & Hty & Hp & Hdec). simpl in Hm, Hdec. subst message.
    rewrite browser_loop_cons. unfold state_of at 1. cbn [fst snd].
    rewrite IH. unfold chunks_of at 1.
    rewrite (audio_step_kept E w s kv p bytes Hty Hon Hp Hdec), lookup_insert_eq.
    rewrite <- app_assoc. reflexivity.
Qed.

Lemma save_recording_writes E w s :
  config.ENABLE_RECORDINGS cfg = true ->
  List.concat (chunks_of s w) <> [] ->
  exists rest,
    trace_of (save_recording cfg E w s)
      = WavWrite ("recording_" +:+ strftime_now E +:+ ".wav") 1 2 config.SAMPLE_RATE
          (List.concat (chunks_of s w)) :: rest.
Proof.
  intros Hon Hdata. unfold chunks_of in *. unfold save_recording, del_recording. run.
  destruct (audio_recordings s !! w) as [chunks |]; [| contradiction Hdata; reflexivity].
  destruct chunks as [| c chunks]; [contradiction Hdata; reflexivity |].
  destruct (List.concat (c :: chunks)) as [| b data] eqn:Hcat;
    [contradiction Hdata; reflexivity |].
  simpl. rewrite Hon. simpl.
  destruct (wave_write E _ _); simpl;
    [destruct (bool_decide (w ∈ dom (audio_recordings s))) |]; simpl; eexists; reflexivity.
Qed.

(** X7. Capture round trip.  With capture on, after a run of audio frames
    that the decoder reads, flushing the socket writes, first of all, one
    file whose frames are the bytes kept before followed by the decoded
    payloads in arrival order, mono, 16 bit, at 24000 Hz. *)
Theorem capture_round_trip (E' : env) (w : ws_handle) (frames : list (env * frame))
    (chunks : list (list Byte.byte)) (s : agent) :
  config.ENABLE_RECORDINGS cfg = true ->
  Forall2 audio_frame_of frames chunks ->
  List.concat (chunks_of s w ++ chunks) <> [] ->
  exists rest,
    trace_of (save_recording cfg E' w (state_of (browser_loop cfg w frames s)))
      = WavWrite ("recording_" +:+ strftime_now E' +:+ ".wav") 1 2 24000
          (List.concat (chunks_of s w ++ chunks)) :: rest.
Proof.
  intros Hon Hframes Hdata.
  rewrite <- (captured_frames w frames chunks Hon Hframes s) in *.
  apply (save_recording_writes E' w _ Hon Hdata).
Qed.

End Audio.

Lemma audio_forwarded_witness :
  capturable sample_settings (hearing 2%float) (JStr "AQI=") = true /\
  upstream_commands
    (trace_of (on_browser_message sample_settings (hearing 2%float) 1 (audio_frame "AQI=")
                 live))
    = [audio_append (JStr "AQI=")].
Proof.
  split; [reflexivity |].
  exact (proj1 (audio_forwarded_unchanged sample_settings (hearing 2%float) 1 live
                  [("type", JStr "input_audio_buffer.append"); ("audio", JStr "AQI=")] 100
                  eq_refl eq_refl eq_refl)).
Defined.

Lemma audio_kept_witness :
  b64decode (hearing 2%float) "AQI=" = Some [Byte.x01; Byte.x02] /\
  chunks_of
    (state_of (on_browser_message sample_settings (hearing 2%float) 1 (audio_frame "AQI=")
                 recording)) 1
    = chunks_of recording 1 ++ [[Byte.x01; Byte.x02]].
Proof.
  split; [reflexivity |].
  exact (proj1 (audio_kept_in_order sample_settings (hearing 2%float) 1 recording
                  [("type", JStr "input_audio_buffer.append"); ("audio", JStr "AQI=")]
                  "AQI=" [Byte.x01; Byte.x02] eq_refl eq_refl eq_refl eq_refl)).
Defined.

Lemma undecodable_audio_witness :
  capturable sample_settings (hearing 2%float) (JStr "%%%") = false /\
  upstream_commands
    (trace_of (on_browser_message sample_settings (hearing 2%float) 1 (audio_frame "%%%")
                 live)) = [].
Proof.
  split; [reflexivity |].
  exact (proj1 (proj2 (undecodable_audio_not_forwarded sample_settings (hearing 2%float) 1
                         live
                         [("type", JStr "input_audio_buffer.append"); ("audio", JStr "%%%")]
                         eq_refl eq_refl))).
Defined.

Lemma closed_upstream_witness :
  says_closed (mk_exn OSError "Connection reset by peer") = true /\
  upstream_commands
    (trace_of (browser_loop sample_settings 1
                 [(hung_up 2%float, audio_frame "AQI=");
                  (calm 3%float, audio_frame "AQI=");
                  (calm 4%float, Json (JObj [("type", JStr "session_start")]))] live))
    = [audio_append (JStr "AQI=")].
Proof.
  split; [reflexivity |].
  exact (proj1 (closed_upstream_ends_forwarding sample_settings (hung_up 2%float) 1 live
                  [("type", JStr "input_audio_buffer.append"); ("audio", JStr "AQI=")] 100
                  (mk_exn OSError "Connection reset by peer") _
                  eq_refl eq_refl eq_refl eq_refl eq_refl)).
Defined.

Lemma capture_round_trip_witness :
  Forall2 audio_frame_of
    [(hearing 2%float, audio_frame "AQI="); (hearing 3%float, audio_frame "AQI=")]
    [[Byte.x01; Byte.x02]; [Byte.x01; Byte.x02]] /\
  exists rest,
    trace_of (save_recording sample_settings (calm 9%float) 1
                (state_of (browser_loop sample_settings 1
                             [(hearing 2%float, audio_frame "AQI=");
                              (hearing 3%float, audio_frame "AQI=")] recording)))
    = WavWrite "recording_20250101_120000.wav" 1 2 24000
        (List.concat (chunks_of recording 1
                      ++ [[Byte.x01; Byte.x02]; [Byte.x01; Byte.x02]])) :: rest.
Proof.
  assert (Hf : forall now, audio_frame_of (hearing now, audio_frame "AQI=")
                             [Byte.x01; Byte.x02]).
  { intros now.
    exists [("type", JStr "input_audio_buffer.append"); ("audio", JStr "AQI=")], "AQI=".
    repeat split. }
  assert (Hall : Forall2 audio_frame_of
                   [(hearing 2%float, audio_frame "AQI=");
                    (hearing 3%float, audio_frame "AQI=")]
                   [[Byte.x01; Byte.x02]; [Byte.x01; Byte.x02]]).
  { repeat constructor; apply Hf. }
  split; [exact Hall |].
  apply (capture_round_trip sample_settings (calm 9%float) 1 _ _ recording eq_refl Hall).
  intros H. vm_compute in H. discriminate H.
Defined.

(** ** The error throttle, the greeting and typed text *)

(** Splits on the throttle's reading of the clock, when there is one. *)
Ltac split_clock :=
  try match goal with
      | |- context [PrimFloat.ltb ?a ?b] => destruct (PrimFloat.ltb a b)
      end.

Section Loop.
Variable cfg : config.settings.

Lemma throttled_quiet E d s :
  PrimFloat.ltb 1 (PrimFloat.sub (time_time E) (last_error_time s)) = false ->
  throttled E d s = (Ret tt, set_error_count (error_count s + 1) s, []).
Proof. intros H. unfold throttled. run. rewrite H. reflexivity. Qed.

Lemma throttled_loud E d s :
  PrimFloat.ltb 1 (PrimFloat.sub (time_time E) (last_error_time s)) = true ->
  throttled E d s
  = (Ret tt, set_error_count 1 (set_last_error_time (time_time E) s), [Print d]).
Proof. intros H. unfold throttled. run. rewrite H. reflexivity. Qed.

Lemma stray_frames_quiet w frames :
  forall s,
    Forall (stray_within (last_error_time s)) frames ->
    browser_loop cfg w frames s
    = (Ret tt, set_error_count (error_count s + Z.of_nat (List.length frames)) s, []).
Proof.
  induction frames as [| [E message] rest IH]; intros s Hall.
  - simpl. unfold ret. f_equal. f_equal. destruct s; unfold set_error_count; simpl.
    f_equal. lia.
  - inversion Hall as [| f fs [(v & Hm & Hv) Hlate] Hrest]; subst.
    simpl in Hm, Hlate. subst message.
    rewrite (browser_loop_cons cfg).
    rewrite (non_object_frame_throttled cfg E w v s Hv).
    rewrite (throttled_quiet E _ s Hlate).
    unfold result_of, state_of, trace_of. cbn [fst snd].
    rewrite (IH (set_error_count (error_count s + 1) s) Hrest).
    cbn [fst snd app]. f_equal. f_equal.
    unfold set_error_count. cbn. f_equal. lia.
Qed.

(** X8. The error throttle.  A frame that is no JSON object, arriving more
    than a second after the last printed error, is printed; the frames of the
    same kind that follow within a second of it are counted and not printed. *)
Theorem errors_throttled (w : ws_handle) (E0 : env) (v0 : json)
    (rest : list (env * frame)) (s : agent) :
  (forall kv, v0 <> JObj kv) ->
  PrimFloat.ltb 1 (PrimFloat.sub (time_time E0) (last_error_time s)) = true ->
  Forall (stray_within (time_time E0)) rest ->
  diagnostics (trace_of (browser_loop cfg w ((E0, Json v0) :: rest) s))
    = [DErrProcessingBrowser attribute_error] /\
  error_count (state_of (browser_loop cfg w ((E0, Json v0) :: rest) s))
    = (1 + Z.of_nat (List.length rest))%Z /\
  last_error_time (state_of (browser_loop cfg w ((E0, Json v0) :: rest) s)) = time_time E0.
Proof.
  intros Hv Hloud Hrest.
  rewrite (browser_loop_cons cfg).
  rewrite (non_object_frame_throttled cfg E0 w v0 s Hv).
  rewrite (throttled_loud E0 _ s Hloud).
  unfold result_of, state_of, trace_of. cbn [fst snd].
  rewrite (stray_frames_quiet w rest
             (set_error_count 1 (set_last_error_time (time_time E0) s)) Hrest).
  cbn. repeat split.
Qed.

(** X9. On [session_start] with an established channel the greeting item is
    sent, followed by a [response.create] asking for text and audio when the
    first send succeeds and by nothing when it fails; nothing is said to the
    client. *)
Theorem session_start_greets (E : env) (w : ws_handle) (s : agent)
    (kv : list (string * json)) (u : ws_handle) :
  assoc "type" kv = Some (JStr "session_start") ->
  openai_ws s = Some u ->
  (ws_send E u (conversation_item "assistant" greeting) = None ->
   upstream_commands (trace_of (on_browser_message cfg E w (Json (JObj kv)) s))
     = [conversation_item "assistant" greeting; response_create_spoken]) /\
  (forall e, ws_send E u (conversation_item "assistant" greeting) = Some e ->
   upstream_commands (trace_of (on_browser_message cfg E w (Json (JObj kv)) s))
     = [conversation_item "assistant" greeting]) /\
  client_messages (trace_of (on_browser_message cfg E w (Json (JObj kv)) s)) = [].
Proof.
  intros Hty Hu. unfold on_browser_message, loads, get, send_greeting, throttled. run.
  rewrite Hty. simpl. rewrite Hu. fold response_create_spoken.
  destruct (ws_send E u (conversation_item "assistant" greeting)) as [e |]; simpl.
  - repeat split; try discriminate.
    + intros e' _.
      destruct (exn_kind e);
        split_clock;
        reflexivity.
    + destruct (exn_kind e);
        split_clock;
        reflexivity.
  - destruct (ws_send E u response_create_spoken) as [e |]; simpl.
    + repeat split; try discriminate;
        destruct (exn_kind e);
        split_clock;
        reflexivity.
    + repeat split; try discriminate; reflexivity.
Qed.

Lemma lstrip_white raw : all_white raw = true -> lstrip raw = "".
Proof.
  assert (H : forall n s, String.length s <= n -> all_white s = true -> lstrip s = "").
  { induction n as [| n IH]; intros s Hlen Hs.
    - destruct s; [reflexivity | simpl in Hlen; lia].
    - destruct s as [| c1 r1]; [reflexivity |].
      cbn [all_white lstrip] in *. cbn [String.length] in Hlen.
      destruct (is_space c1); [apply IH; [lia | exact Hs] |].
      destruct r1 as [| c2 r2]; [discriminate Hs |]. cbn [String.length] in Hlen.
      destruct (is_space2 c1 c2); [apply IH; [lia | exact Hs] |].
      destruct r2 as [| c3 r3]; [discriminate Hs |]. cbn [String.length] in Hlen.
      apply andb_true_iff in Hs as [Hc Hs]. rewrite Hc. apply IH; [lia | exact Hs]. }
  apply (H (String.length raw)). lia.
Qed.

(** X10. A [text_message] whose text is only white space, Unicode white
    space included, does nothing at all; an ASCII text that is not only white
    space is sent trimmed as a user item, followed by a bare
    [response.create] when that send succeeds. *)
Theorem text_message_trimmed (E : env) (w : ws_handle) (s : agent)
    (kv : list (string * json)) (raw : string) (u : ws_handle) :
  assoc "type" kv = Some (JStr "text_message") ->
  text_of kv = JStr raw ->
  openai_ws s = Some u ->
  (all_white raw = true ->
   on_browser_message cfg E w (Json (JObj kv)) s = (Ret tt, s, [])) /\
  (all_chars is_ascii raw = true ->
   strip raw <> "" ->
   upstream_commands (trace_of (on_browser_message cfg E w (Json (JObj kv)) s))
     = conversation_item "user" (strip raw)
       :: match ws_send E u (conversation_item "user" (strip raw)) with
          | None => [response_create]
          | Some _ => []
          end).
Proof.
  intros Hty Hraw Hu.
  unfold on_browser_message, loads, get, send_text_message, str_strip, throttled. run.
  rewrite Hty. simpl. fold (text_of kv). rewrite Hraw. simpl. split.
  - intros Hsp. unfold strip. rewrite (lstrip_white raw Hsp). reflexivity.
  - intros _ Hne. destruct (String.eqb_spec (strip raw) "") as [Heq | _]; [contradiction |].
    simpl. rewrite Hu. fold response_create.
    destruct (ws_send E u (conversation_item "user" (strip raw))) as [e |]; simpl.
    + destruct (exn_kind e);
        split_clock;
        reflexivity.
    + destruct (ws_send E u response_create) as [e |]; simpl; [| reflexivity].
      destruct (exn_kind e);
        split_clock;
        reflexivity.
Qed.

End Loop.

(** X11. [configure_session]: without a channel it returns [False] and does
    nothing; with one it sends the one session configuration, and the session
    is marked configured exactly when the send succeeds, a failing send being
    raised to the caller with the agent unchanged. *)
Theorem configure_marks_after_send (E : env) (s : agent) :
  (openai_ws s = None -> configure_session E s = (Ret false, s, [])) /\
  (forall u, openai_ws s = Some u ->
     upstream_commands (trace_of (configure_session E s)) = [session_config] /\
     (ws_send E u session_config = None ->
      result_of (configure_session E s) = Ret true /\
      state_of (configure_session E s) = set_session_configured true s) /\
     (forall e, ws_send E u session_config = Some e ->
      result_of (configure_session E s) = Raise e /\
      state_of (configure_session E s) = s)).
Proof.
  unfold configure_session. run. split.
  - intros ->. reflexivity.
  - intros u ->. destruct (ws_send E u session_config) as [e |]; simpl.
    + split; [reflexivity |]. split; [discriminate |].
      intros e' Heq. injection Heq as <-. split; reflexivity.
    + split; [reflexivity |]. split; [intros _; split; reflexivity | discriminate].
Qed.

Lemma errors_throttled_witness :
  PrimFloat.ltb 1 (PrimFloat.sub (time_time (calm 5%float)) (last_error_time init)) = true /\
  diagnostics
    (trace_of (browser_loop sample_settings 1
                 [(calm 5%float, Json (JArr []));
                  (calm 5.5%float, Json (JInt 3));
                  (calm 5.9%float, Json (JArr []))] init))
    = [DErrProcessingBrowser attribute_error].
Proof.
  split; [reflexivity |].
  refine (proj1 (errors_throttled sample_settings 1 (calm 5%float) (JArr []) _ init _ _ _)).
  - intros kv. discriminate.
  - reflexivity.
  - repeat constructor; simpl; try (eexists; split; [reflexivity | intros kv; discriminate]).
Defined.

Lemma session_start_witness :
  openai_ws live = Some 100 /\
  upstream_commands
    (trace_of (on_browser_message sample_settings (calm 2%float) 1
                 (Json (JObj [("type", JStr "session_start")])) live))
    = [conversation_item "assistant" greeting; response_create_spoken].
Proof.
  split; [reflexivity |].
  exact (proj1 (session_start_greets sample_settings (calm 2%float) 1 live
                  [("type", JStr "session_start")] 100 eq_refl eq_refl) eq_refl).
Defined.

Lemma text_message_witness :
  (strip "  hi " = "hi" /\
   upstream_commands
     (trace_of (on_browser_message sample_settings (calm 2%float) 1
                  (Json (JObj [("type", JStr "text_message"); ("text", JStr "  hi ")]))
                  live))
     = [conversation_item "user" "hi"; response_create]) /\
  (all_white no_break_spaces = true /\
   on_browser_message sample_settings (calm 2%float) 1
     (Json (JObj [("type", JStr "text_message"); ("text", JStr no_break_spaces)])) live
   = (Ret tt, live, [])).
Proof.
  split; (split; [reflexivity |]).
  - refine (proj2 (text_message_trimmed sample_settings (calm 2%float) 1 live
                     [("type", JStr "text_message"); ("text", JStr "  hi ")] "  hi " 100
                     eq_refl eq_refl eq_refl) eq_refl _).
    intros H. vm_compute in H. discriminate H.
  - exact (proj1 (text_message_trimmed sample_settings (calm 2%float) 1 live
                    [("type", JStr "text_message"); ("text", JStr no_break_spaces)]
                    no_break_spaces 100 eq_refl eq_refl eq_refl) eq_refl).
Defined.

(** ** Provider events *)

Section Events.

(** X12. A provider event whose type is none of the ten translated ones
    leaves the agent as it was and hands nothing to the client. *)
Theorem untranslated_events_ignored (E : env) (w : ws_handle) (s : agent)
    (kv : list (string * json)) :
  existsb (eq_str (event_type_of kv)) translated_events = false ->
  result_of (on_openai_message E w (Json (JObj kv)) s) = Ret tt /\
  state_of (on_openai_message E w (Json (JObj kv)) s) = s /\
  client_messages (trace_of (on_openai_message E w (Json (JObj kv)) s)) = [].
Proof.
  intros H. simpl in H.
  repeat (apply orb_false_elim in H; destruct H as [? H]).
  unfold on_openai_message, loads, get. run. fold (event_type_of kv).
  repeat match goal with Heq : eq_str _ _ = false |- _ => rewrite Heq; clear Heq end.
  simpl.
  repeat match goal with
         | |- context [eq_str (event_type_of kv) ?k] =>
             destruct (eq_str (event_type_of kv) k)
         end;
    repeat split; reflexivity.
Qed.

(** X13. The four events that carry a payload (transcript of the user,
    transcript delta, transcript of the answer, audio delta) are handed to the
    client under the client-side type and field, payload unchanged, when the
    payload is truthy, and dropped when it is empty; the agent is unchanged.
    Handed to the client: [_send_ws_message] is called with the message, once,
    and that message is the one frame put on the wire, unless the client's
    socket is closed or closing, when nothing is put on the wire. *)
Theorem payload_events_forwarded (E : env) (w : ws_handle) (s : agent)
    (kv : list (string * json)) (ety fld out outfld : string) :
  In (ety, fld, out, outfld) payload_events ->
  assoc "type" kv = Some (JStr ety) ->
  state_of (on_openai_message E w (Json (JObj kv)) s) = s /\
  client_messages (trace_of (on_openai_message E w (Json (JObj kv)) s))
    = (if truthy (payload_of fld kv)
       then [JObj [("type", JStr out); (outfld, payload_of fld kv)]]
       else []) /\
  wire_messages (trace_of (on_openai_message E w (Json (JObj kv)) s))
    = (if truthy (payload_of fld kv) && negb (browser_closed E w)
       then [JObj [("type", JStr out); (outfld, payload_of fld kv)]]
       else []).
Proof.
  intros Hin Hty. simpl in Hin.
  destruct Hin as [Heq | [Heq | [Heq | [Heq | []]]]]; injection Heq as <- <- <- <-;
    unfold on_openai_message, loads, get;
    unfold bind, ret, lift, try_except, when, print, emit, state_of, trace_of;
    rewrite Hty; simpl;
    match goal with
    | |- context [payload_of ?f kv] => fold (payload_of f kv)
    end;
    (destruct (truthy (payload_of _ kv)); simpl; [| repeat split; reflexivity]);
    match goal with
    | |- context [_send_ws_message E w ?msg s] =>
        destruct (send_ws_message_run E w msg s) as (tail & -> & Hc & _ & Hw)
    end;
    simpl; unfold client_messages, wire_messages in *; cbn [flat_map app];
    rewrite ?flat_map_app, Hc, Hw; cbn [flat_map app];
    destruct (browser_closed E w); repeat split; reflexivity.
Qed.

(** X14. The three signal events (speech started, speech stopped, audio
    done) hand exactly one bare message of the matching client-side type to
    the client and leave the agent unchanged.  Handed to the client:
    [_send_ws_message] is called with the message, once, and that message is
    the one frame put on the wire, unless the client's socket is closed or
    closing, when nothing is put on the wire. *)
Theorem signal_events_forwarded (E : env) (w : ws_handle) (s : agent)
    (kv : list (string * json)) (ety out : string) :
  In (ety, out) signal_events ->
  assoc "type" kv = Some (JStr ety) ->
  state_of (on_openai_message E w (Json (JObj kv)) s) = s /\
  client_messages (trace_of (on_openai_message E w (Json (JObj kv)) s)) = [simple out] /\
  wire_messages (trace_of (on_openai_message E w (Json (JObj kv)) s))
    = (if browser_closed E w then [] else [simple out]).
Proof.
  intros Hin Hty. simpl in Hin.
  destruct Hin as [Heq | [Heq | [Heq | []]]]; injection Heq as <- <-;
    unfold on_openai_message, loads, get;
    unfold bind, ret, lift, try_except, when, print, emit, state_of, trace_of;
    rewrite Hty; simpl;
    match goal with
    | |- context [_send_ws_message E w ?msg s] =>
        destruct (send_ws_message_run E w msg s) as (tail & -> & Hc & _ & Hw)
    end;
    simpl; unfold client_messages, wire_messages in *; cbn [flat_map app];
    rewrite ?flat_map_app, Hc, Hw; cbn [flat_map app];
    destruct (browser_closed E w); repeat split; reflexivity.
Qed.

Lemma malformed_frame_run E w message s :
  malformed message = true ->
  on_openai_message E w message s = (Ret tt, s, malformed_notice message).
Proof.
  destruct message as [| text | data]; simpl.
  - reflexivity.
  - reflexivity.
  - destruct data; try discriminate; reflexivity.
Qed.

(** X15. Provider frames that are not JSON objects are dropped one by one:
    the receive loop goes through all of them, prints one diagnostic for each
    (unthrottled), leaves the agent unchanged and does nothing else. *)
Theorem malformed_events_dropped (w : ws_handle) (frames : list (env * frame)) (s : agent) :
  Forall (fun f => malformed (snd f) = true) frames ->
  openai_loop w frames s
    = (Ret tt, s, flat_map (fun f => malformed_notice (snd f)) frames).
Proof.
  induction 1 as [| [E message] rest Hm _ IH]; simpl.
  - reflexivity.
  - unfold bind. rewrite (malformed_frame_run _ _ _ _ Hm), IH. reflexivity.
Qed.

(** X16. [_send_ws_message] never raises and never changes the agent; the
    frame reaches the wire exactly when the socket is not closed or closing,
    and nothing goes upstream. *)
Theorem send_swallows_failures (E : env) (w : ws_handle) (msg : json) (s : agent) :
  result_of (_send_ws_message E w msg s) = Ret tt /\
  state_of (_send_ws_message E w msg s) = s /\
  client_messages (trace_of (_send_ws_message E w msg s)) = [msg] /\
  upstream_commands (trace_of (_send_ws_message E w msg s)) = [] /\
  wire_messages (trace_of (_send_ws_message E w msg s))
    = (if browser_closed E w then [] else [msg]).
Proof.
  destruct (send_ws_message_run E w msg s) as (tail & -> & Hc & Hu & Hw).
  cbn [result_of state_of trace_of fst snd]. repeat split.
  - unfold client_messages in *. cbn [flat_map app]. rewrite Hc. reflexivity.
  - unfold upstream_commands in *. cbn [flat_map app]. exact Hu.
  - unfold wire_messages in *. cbn [flat_map app]. exact Hw.
Qed.

Lemma receiver_holds w frames c :
  holds (same_but_response c) (fun x => negb (is_upstream x)) (receive_from_openai w frames).
Proof.
  unfold receive_from_openai. apply holds_self_bind. intros s0 _.
  destruct (openai_ws s0).
  - apply holds_openai_loop. intros E message. apply translator_holds.
  - apply holds_emit. reflexivity.
Qed.

(** X17. [receive_from_openai], on any frames from any agent: it returns
    normally, changes nothing but the tracked response, and performs no
    operation on the upstream channel; without a channel it only prints. *)
Theorem receiver_frame (w : ws_handle) (frames : list (env * frame)) (s : agent) :
  result_of (receive_from_openai w frames s) = Ret tt /\
  same_but_response s (state_of (receive_from_openai w frames s)) /\
  forallb (fun x => negb (is_upstream x)) (trace_of (receive_from_openai w frames s)) = true /\
  (openai_ws s = None ->
   receive_from_openai w frames s = (Ret tt, s, [Print DCannotReceive])).
Proof.
  split; [| split; [| split]].
  - unfold receive_from_openai. unfold bind, self. cbv iota beta.
    destruct (openai_ws s).
    + pose proof (openai_loop_returns w frames s) as H.
      unfold result_of in *. destruct (openai_loop w frames s) as [[r s1] t1].
      simpl in *. exact H.
    + reflexivity.
  - apply (receiver_holds w frames s s), same_but_response_refl.
  - apply (receiver_holds w frames s s), same_but_response_refl.
  - intros Hnone. unfold receive_from_openai. unfold bind, self. cbv iota beta.
    rewrite Hnone. reflexivity.
Qed.

End Events.

Lemma untranslated_event_witness :
  existsb (eq_str (event_type_of [("type", JStr "rate_limits.updated")])) translated_events
    = false /\
  state_of (on_openai_message (calm 2%float) 1
              (Json (JObj [("type", JStr "rate_limits.updated")])) answering) = answering.
Proof.
  split; [reflexivity |].
  exact (proj1 (proj2 (untranslated_events_ignored (calm 2%float) 1 answering
                         [("type", JStr "rate_limits.updated")] eq_refl))).
Defined.

Lemma payload_event_witness :
  In ("response.audio.delta", "delta", "audio_chunk", "audio") payload_events /\
  client_messages
    (trace_of (on_openai_message (calm 2%float) 1
                 (Json (JObj [("type", JStr "response.audio.delta"); ("delta", JStr "AAEC")]))
                 live))
    = [JObj [("type", JStr "audio_chunk"); ("audio", JStr "AAEC")]] /\
  wire_messages
    (trace_of (on_openai_message (calm 2%float) 1
                 (Json (JObj [("type", JStr "response.audio.delta"); ("delta", JStr "AAEC")]))
                 live))
    = [JObj [("type", JStr "audio_chunk"); ("audio", JStr "AAEC")]].
Proof.
  assert (Hin : In ("response.audio.delta", "delta", "audio_chunk", "audio") payload_events).
  { do 3 right. left. reflexivity. }
  split; [exact Hin |].
  exact (proj2 (payload_events_forwarded (calm 2%float) 1 live
                  [("type", JStr "response.audio.delta"); ("delta", JStr "AAEC")]
                  _ _ _ _ Hin eq_refl)).
Defined.

Lemma signal_event_witness :
  In ("input_audio_buffer.speech_started", "speech_started") signal_events /\
  client_messages
    (trace_of (on_openai_message (calm 2%float) 1
                 (Json (JObj [("type", JStr "input_audio_buffer.speech_started")])) live))
    = [simple "speech_started"] /\
  wire_messages
    (trace_of (on_openai_message (calm 2%float) 1
                 (Json (JObj [("type", JStr "input_audio_buffer.speech_started")])) live))
    = [simple "speech_started"].
Proof.
  assert (Hin : In ("input_audio_buffer.speech_started", "speech_started") signal_events).
  { left. reflexivity. }
  split; [exact Hin |].
  exact (proj2 (signal_events_forwarded (calm 2%float) 1 live
                  [("type", JStr "input_audio_buffer.speech_started")] _ _ Hin eq_refl)).
Defined.

Lemma malformed_events_witness :
  Forall (fun f : env * frame => malformed (snd f) = true)
    [(calm 2%float, NotJson "oops"); (calm 3%float, Json (JArr []))] /\
  openai_loop 1 [(calm 2%float, NotJson "oops"); (calm 3%float, Json (JArr []))] live
  = (Ret tt, live,
     [Print DInvalidJsonOpenAI; Print (DErrProcessingOpenAI attribute_error)]).
Proof.
  assert (Hall : Forall (fun f : env * frame => malformed (snd f) = true)
                   [(calm 2%float, NotJson "oops"); (calm 3%float, Json (JArr []))]).
  { repeat constructor. }
  split; [exact Hall |].
  exact (malformed_events_dropped 1 _ live Hall).
Defined.

(** ** Configuration and the provider's endpoint *)

Section Configuration.

(** X18. [validate_config] returns exactly when the values of the selected
    provider are set; otherwise it raises [ValueError]; and a configuration
    it accepts always yields an endpoint in [connect_to_openai]. *)
Theorem validate_config_accepts_iff (cfg : config.settings) :
  (config.validate_config cfg = Ret tt <-> required_values_set cfg = true) /\
  (required_values_set cfg = false ->
   exists e, config.validate_config cfg = Raise e /\ exn_kind e = ValueError) /\
  (config.validate_config cfg = Ret tt ->
   forall E, exists target, provider_endpoint cfg E = Ret target).
Proof.
  unfold config.validate_config, required_values_set, config.missing, provider_endpoint.
  destruct (config.USE_AZURE cfg).
  - destruct (truthy_opt (config.AZURE_OPENAI_ENDPOINT cfg)),
             (truthy_opt (config.AZURE_OPENAI_API_KEY cfg)),
             (truthy_opt (config.AZURE_OPENAI_DEPLOYMENT cfg)); simpl;
      (split; [split; intros H; (reflexivity || discriminate H) |]);
      (split; [intros H; (discriminate H || (eexists; split; reflexivity)) |]);
      intros H E; (discriminate H || (eexists; reflexivity)).
  - destruct (truthy_opt (config.OPENAI_API_KEY cfg)); simpl;
      (split; [split; intros H; (reflexivity || discriminate H) |]);
      (split; [intros H; (discriminate H || (eexists; split; reflexivity)) |]);
      intros H E; eexists; reflexivity.
Qed.

Lemma lstrip_chars_all p q s : all_chars p q = true -> lstrip_chars p (q +:+ s) = lstrip_chars p s.
Proof.
  induction q as [| c q IH]; simpl; [reflexivity |].
  intros H. apply andb_true_iff in H as [Hc Hq]. rewrite Hc. apply IH, Hq.
Qed.

Lemma rstrip_chars_all p q : all_chars p q = true -> rstrip_chars p q = "".
Proof.
  induction q as [| c q IH]; simpl; [reflexivity |].
  intros H. apply andb_true_iff in H as [Hc Hq]. rewrite (IH Hq), Hc. reflexivity.
Qed.

Lemma last_char_none s : last_char s = None -> s = "".
Proof.
  destruct s as [| a s]; [reflexivity |]. simpl. destruct (last_char s); discriminate.
Qed.

Lemma rstrip_chars_keeps p s :
  (exists c, last_char s = Some c /\ p c = false) -> rstrip_chars p s = s.
Proof.
  induction s as [| a s IH]; intros (c & Hl & Hc); [discriminate Hl |].
  cbn [last_char] in Hl. cbn [rstrip_chars].
  destruct (last_char s) as [c' |] eqn:Hs.
  - injection Hl as ->. rewrite IH by eauto.
    destruct s; [discriminate Hs | reflexivity].
  - injection Hl as ->. rewrite (last_char_none s Hs). cbn [rstrip_chars].
    rewrite Hc. reflexivity.
Qed.

Lemma rstrip_chars_drop p s q :
  all_chars p q = true -> rstrip_chars p (s +:+ q) = rstrip_chars p s.
Proof.
  intros Hq. induction s as [| a s IH].
  - apply rstrip_chars_all, Hq.
  - change (String a s +:+ q) with (String a (s +:+ q)).
    cbn [rstrip_chars]. rewrite IH. reflexivity.
Qed.

Lemma rstrip_chars_app p s q :
  (exists c, last_char s = Some c /\ p c = false) ->
  all_chars p q = true ->
  rstrip_chars p (s +:+ q) = s.
Proof.
  intros Hs Hq. rewrite (rstrip_chars_drop p s q Hq). apply rstrip_chars_keeps, Hs.
Qed.

Lemma bare_last p s : bare p s = true -> exists c, last_char s = Some c /\ p c = false.
Proof.
  unfold bare. destruct (first_char s); [| discriminate].
  destruct (last_char s) as [c |]; [| discriminate].
  intros H. apply andb_true_iff in H as [_ Hc]. apply negb_true_iff in Hc. eauto.
Qed.

(** X19. [_strip_quotes] removes every leading and trailing quote character
    of either kind around a value that neither starts nor ends with one, and
    is the identity on such a value (so it is idempotent there). *)
Theorem strip_quotes_unwraps (q1 core q2 : string) :
  all_chars config.is_quote q1 = true ->
  all_chars config.is_quote q2 = true ->
  bare config.is_quote core = true ->
  config._strip_quotes (Some (q1 +:+ core +:+ q2)) = Some core /\
  config._strip_quotes (Some core) = Some core.
Proof.
  intros H1 H2 Hcore.
  assert (Hne : forall a b, truthy_opt (Some (a +:+ core +:+ b)) = true).
  { intros a b. simpl. apply negb_true_iff.
    destruct (String.eqb_spec (a +:+ core +:+ b) "") as [Heq | ]; [| reflexivity].
    exfalso. destruct a; simpl in Heq; [| discriminate].
    destruct core; [discriminate Hcore | discriminate Heq]. }
  assert (Hstrip : forall a b, all_chars config.is_quote a = true ->
                          all_chars config.is_quote b = true ->
                          strip_chars config.is_quote (a +:+ core +:+ b) = core).
  { intros a b Ha Hb. unfold strip_chars. rewrite (lstrip_chars_all _ a _ Ha).
    assert (Hl : lstrip_chars config.is_quote (core +:+ b) = core +:+ b).
    { destruct core as [| c core]; [discriminate Hcore |].
      unfold bare in Hcore. simpl in Hcore. simpl.
      destruct (last_char core); apply andb_true_iff in Hcore as [Hc _];
        apply negb_true_iff in Hc; rewrite Hc; reflexivity. }
    rewrite Hl. apply rstrip_chars_app; [apply bare_last, Hcore | exact Hb]. }
  split.
  - unfold config._strip_quotes. rewrite (Hne q1 q2), (Hstrip q1 q2 H1 H2). reflexivity.
  - unfold config._strip_quotes, strip_chars.
    assert (Hl : lstrip_chars config.is_quote core = core).
    { destruct core as [| c core']; [discriminate Hcore |].
      unfold bare in Hcore. simpl in Hcore. simpl.
      destruct (last_char core'); apply andb_true_iff in Hcore as [Hc _];
        apply negb_true_iff in Hc; rewrite Hc; reflexivity. }
    rewrite Hl, (rstrip_chars_keeps _ core (bare_last _ core Hcore)).
    destruct core; [discriminate Hcore | reflexivity].
Qed.

Lemma lstrip_chars_only p q : all_chars p q = true -> lstrip_chars p q = "".
Proof.
  induction q as [| c q IH]; simpl; [reflexivity |].
  intros H. apply andb_true_iff in H as [Hc Hq]. rewrite Hc. apply IH, Hq.
Qed.

Lemma strip_quotes_only q :
  all_chars config.is_quote q = true ->
  truthy_opt (config._strip_quotes (Some q)) = false.
Proof.
  intros Hq. unfold config._strip_quotes.
  destruct (truthy_opt (Some q)) eqn:Ht; [| exact Ht].
  unfold strip_chars. rewrite (lstrip_chars_only _ q Hq). reflexivity.
Qed.

(** X20. With Azure selected, a deployment name made of quote characters
    only is stripped to the empty string, which [validate_config] rejects as
    not set. *)
Theorem quoted_empty_is_missing (getenv : string -> option string) (q : string) :
  lower (config.getenv_or getenv "USE_AZURE" "false") = "true" ->
  getenv "AZURE_OPENAI_DEPLOYMENT" = Some q ->
  all_chars config.is_quote q = true ->
  exists e,
    config.validate_config (config.from_environ getenv) = Raise e /\
    exn_kind e = ValueError.
Proof.
  intros Hazure Hdep Hq.
  unfold config.validate_config, config.from_environ, config.missing.
  cbn [config.USE_AZURE config.AZURE_OPENAI_ENDPOINT config.AZURE_OPENAI_API_KEY
       config.AZURE_OPENAI_DEPLOYMENT].
  rewrite Hazure, Hdep, (strip_quotes_only q Hq). cbn [String.eqb Ascii.eqb Bool.eqb].
  destruct (truthy_opt (config._strip_quotes (getenv "AZURE_OPENAI_ENDPOINT"))),
           (truthy_opt (config._strip_quotes (getenv "AZURE_OPENAI_API_KEY")));
    simpl; eexists; split; reflexivity.
Qed.

End Configuration.

Section Connector.
Variable cfg : config.settings.

(** X21. [connect_to_openai] makes one connection attempt under the keyword
    [additional_headers], and a second one, to the same URL with the same
    headers under [extra_headers], exactly when the first fails with a
    [TypeError] naming one of the two keywords; never a third.  When the
    endpoint cannot be built nothing is attempted and the error is raised. *)
Theorem connect_attempts_shape (E : env) (s : agent) :
  (forall target, provider_endpoint cfg E = Ret target ->
     connection_attempts (trace_of (connect_to_openai cfg E s))
       = (fst target, additional_headers, snd target)
         :: (if falls_back (ws_connect E (fst target) additional_headers (snd target))
             then [(fst target, extra_headers, snd target)]
             else [])) /\
  (forall e, provider_endpoint cfg E = Raise e ->
     connect_to_openai cfg E s = (Raise e, s, [])).
Proof.
  unfold connect_to_openai, open_upstream, falls_back. run. split.
  - intros target ->. simpl.
    destruct (ws_connect E (fst target) additional_headers (snd target)) as [u | e]; simpl;
      [reflexivity |].
    destruct (exn_kind e); simpl; try reflexivity.
    destruct (contains "additional_headers" (exn_text e)
              || contains "extra_headers" (exn_text e)); simpl; [| reflexivity].
    destruct (ws_connect E (fst target) extra_headers (snd target)) as [u | e2]; simpl;
      [reflexivity |].
    destruct (exn_kind e2); reflexivity.
  - intros e ->. reflexivity.
Qed.

Lemma prefix_free c old s :
  free_of c s = true -> free_of c old = false -> String.prefix old s = false.
Proof.
  unfold free_of. revert s. induction old as [| a old IH]; intros s Hs Hold.
  - discriminate Hold.
  - destruct s as [| b s]; [reflexivity |]. simpl in *.
    apply andb_true_iff in Hs as [Hb Hs].
    destruct (ascii_dec a b) as [-> | _]; [| reflexivity].
    rewrite Hb in Hold. simpl in Hold. apply IH; assumption.
Qed.

Lemma replace_from_free c fuel old new s :
  free_of c s = true -> free_of c old = false -> replace_from fuel old new s = s.
Proof.
  intros Hs Hold. revert s Hs. induction fuel as [| fuel IH]; intros s Hs; [reflexivity |].
  cbn [replace_from]. rewrite (prefix_free c old s Hs Hold).
  destruct s as [| b s]; [reflexivity |].
  unfold free_of in Hs. simpl in Hs. apply andb_true_iff in Hs as [_ Hs].
  rewrite (IH s Hs). reflexivity.
Qed.

Lemma replace_from_skip old new fuel c s :
  String.prefix old (String c s) = false ->
  replace_from (S fuel) old new (String c s) = String c (replace_from fuel old new s).
Proof. intros H. cbn [replace_from]. rewrite H. reflexivity. Qed.

Lemma replace_from_hit old new fuel s :
  String.prefix old s = true ->
  replace_from (S fuel) old new s
  = new +:+ replace_from fuel old new (drop_chars (String.length old) s).
Proof. intros H. cbn [replace_from]. rewrite H. reflexivity. Qed.

Lemma rstrip_slash_chars s :
  rstrip_slash s = rstrip_chars (fun c => Ascii.eqb c "/") s.
Proof.
  induction s as [| a s IH]; [reflexivity |].
  cbn [rstrip_slash rstrip_chars]. rewrite IH. reflexivity.
Qed.

Lemma slashes_all n : all_chars (fun c => Ascii.eqb c "/") (slashes n) = true.
Proof. induction n; simpl; auto. Qed.

Lemma free_last c s :
  free_of c s = true -> s <> "" ->
  exists b, last_char s = Some b /\ Ascii.eqb b c = false.
Proof.
  unfold free_of. induction s as [| a s IH]; intros Hs Hne; [contradiction |].
  simpl in *. apply andb_true_iff in Hs as [Ha Hs].
  destruct s as [| a' s'].
  - exists a. split; [reflexivity | apply negb_true_iff, Ha].
  - destruct (IH Hs) as (b & Hl & Hb); [discriminate |]. rewrite Hl. eauto.
Qed.

Lemma last_char_after pre s b :
  last_char s = Some b -> last_char (pre +:+ s) = Some b.
Proof.
  intros Hs. induction pre as [| a pre IH]; simpl; [exact Hs |]. rewrite IH. reflexivity.
Qed.

Lemma replace_https host :
  free_of "/" host = true ->
  replace "https://" "wss://" ("https://" +:+ host) = "wss://" +:+ host.
Proof.
  intros Hfree. unfold replace.
  rewrite (replace_from_hit "https://" "wss://") by (destruct host; reflexivity).
  change (drop_chars (String.length "https://") ("https://" +:+ host)) with host.
  rewrite (replace_from_free "/" _ "https://" "wss://" host Hfree) by reflexivity.
  reflexivity.
Qed.

Lemma replace_http host :
  free_of "/" host = true ->
  replace "http://" "ws://" ("http://" +:+ host) = "ws://" +:+ host.
Proof.
  intros Hfree. unfold replace.
  rewrite (replace_from_hit "http://" "ws://") by (destruct host; reflexivity).
  change (drop_chars (String.length "http://") ("http://" +:+ host)) with host.
  rewrite (replace_from_free "/" _ "http://" "ws://" host Hfree) by reflexivity.
  reflexivity.
Qed.

Lemma replace_http_kept host :
  free_of "/" host = true ->
  replace "http://" "ws://" ("wss://" +:+ host) = "wss://" +:+ host.
Proof.
  intros Hfree. unfold replace.
  change (String.length ("wss://" +:+ host)) with (6 + String.length host)%nat.
  change ("wss://" +:+ host)
    with (String "w" (String "s" (String "s" (String ":" (String "/" (String "/" host)))))).
  cbn [Nat.add].
  do 6 (rewrite (replace_from_skip "http://" "ws://") by reflexivity).
  rewrite (replace_from_free "/" _ "http://" "ws://" host Hfree) by reflexivity.
  reflexivity.
Qed.

Lemma replace_https_kept host :
  free_of "/" host = true ->
  replace "https://" "wss://" ("http://" +:+ host) = "http://" +:+ host.
Proof.
  intros Hfree. unfold replace.
  change (String.length ("http://" +:+ host)) with (7 + String.length host)%nat.
  change ("http://" +:+ host)
    with (String "h" (String "t" (String "t" (String "p"
            (String ":" (String "/" (String "/" host))))))).
  cbn [Nat.add].
  do 7 (rewrite (replace_from_skip "https://" "wss://") by reflexivity).
  rewrite (replace_from_free "/" _ "https://" "wss://" host Hfree) by reflexivity.
  reflexivity.
Qed.

(** X22. The Azure endpoint [scheme://host] followed by any number of
    slashes, the host having no slash, with key and deployment set: the URL is
    the WebSocket scheme ([wss] for [https], [ws] for [http]), the host, the
    path [/openai/realtime] and the two query parameters in the order
    api-version, deployment; the key travels in the [api-key] header. *)
Theorem azure_endpoint_normalised (E : env) (secure : bool) (host key dep : string)
    (n : nat) :
  config.USE_AZURE cfg = true ->
  config.AZURE_OPENAI_ENDPOINT cfg
    = Some ((if secure then "https://" else "http://") +:+ host +:+ slashes n) ->
  free_of "/" host = true -> host <> "" ->
  config.AZURE_OPENAI_API_KEY cfg = Some key -> key <> "" ->
  config.AZURE_OPENAI_DEPLOYMENT cfg = Some dep -> dep <> "" ->
  provider_endpoint cfg E
  = Ret ((if secure then "wss://" else "ws://") +:+ host +:+ "/openai/realtime?" +:+
         "api-version=" +:+ quote_plus E (config.AZURE_API_VERSION cfg) +:+
         "&deployment=" +:+ quote_plus E dep,
         [("api-key", key)]).
Proof.
  intros Hazure Hend Hfree Hhost Hkey Hk Hdep Hd.
  unfold provider_endpoint. rewrite Hazure, Hend, Hkey, Hdep.
  assert (Ht : forall x, x <> "" -> truthy_opt (Some x) = true).
  { intros x Hx. simpl. destruct (String.eqb_spec x ""); [contradiction | reflexivity]. }
  rewrite (Ht key Hk), (Ht dep Hd).
  assert (Hclean :
            rstrip_slash ((if secure then "https://" else "http://") +:+ host +:+ slashes n)
            = (if secure then "https://" else "http://") +:+ host).
  { destruct (free_last "/" host Hfree Hhost) as (b & Hl & Hb).
    rewrite rstrip_slash_chars.
    destruct secure.
    - change ("https://" +:+ host +:+ slashes n) with (("https://" +:+ host) +:+ slashes n).
      apply rstrip_chars_app; [| apply slashes_all].
      exists b. split; [apply (last_char_after "https://"), Hl | exact Hb].
    - change ("http://" +:+ host +:+ slashes n) with (("http://" +:+ host) +:+ slashes n).
      apply rstrip_chars_app; [| apply slashes_all].
      exists b. split; [apply (last_char_after "http://"), Hl | exact Hb]. }
  assert (Hfull : truthy_opt
                    (Some ((if secure then "https://" else "http://") +:+ host +:+ slashes n))
                  = true).
  { destruct secure; reflexivity. }
  rewrite Hfull. cbn [andb negb str_of]. rewrite Hclean.
  destruct secure.
  - rewrite (replace_https host Hfree), (replace_http_kept host Hfree). reflexivity.
  - rewrite (replace_https_kept host Hfree), (replace_http host Hfree). reflexivity.
Qed.

End Connector.

Lemma strip_quotes_witness :
  bare config.is_quote "sk-test" = true /\
  config._strip_quotes (Some "'sk-test'") = Some "sk-test".
Proof.
  split; [reflexivity |].
  exact (proj1 (strip_quotes_unwraps "'" "sk-test" "'" eq_refl eq_refl eq_refl)).
Defined.

Lemma quoted_empty_witness :
  lower (config.getenv_or quoted_environ "USE_AZURE" "false") = "true" /\
  all_chars config.is_quote "''" = true /\
  exists e,
    config.validate_config (config.from_environ quoted_environ) = Raise e /\
    exn_kind e = ValueError.
Proof.
  split; [reflexivity |]. split; [reflexivity |].
  exact (quoted_empty_is_missing quoted_environ "''" eq_refl eq_refl eq_refl).
Defined.

Lemma azure_endpoint_witness :
  free_of "/" "example.openai.azure.com" = true /\
  provider_endpoint azure_complete (calm 0%float)
  = Ret ("wss://example.openai.azure.com/openai/realtime?api-version=2024-10-01-preview&deployment=gpt-4o-realtime",
         [("api-key", "key")]).
Proof.
  split; [reflexivity |].
  refine (azure_endpoint_normalised azure_complete (calm 0%float) true
            "example.openai.azure.com" "key" "gpt-4o-realtime" 2
            eq_refl eq_refl eq_refl _ eq_refl _ eq_refl _); discriminate.
Defined.

(** ** Flushing, teardown and shutdown *)

Section Flush.
Variable cfg : config.settings.

Lemma set_audio_recordings_same s m :
  m = audio_recordings s -> set_audio_recordings m s = s.
Proof. intros ->. destruct s; reflexivity. Qed.

Lemma flush_run E w s :
  exists t,
    save_recording cfg E w s
      = (Ret tt, set_audio_recordings (delete w (audio_recordings s)) s, t) /\
    List.length (files_written t) <= 1 /\
    (config.ENABLE_RECORDINGS cfg = false -> files_written t = []).
Proof.
  unfold save_recording, del_recording. run.
  destruct (audio_recordings s !! w) as [chunks |] eqn:Hw.
  - destruct chunks as [| c chunks].
    + exists []. repeat split; simpl; lia.
    + destruct (List.concat (c :: chunks)) as [| b data] eqn:Hdata; simpl.
      * exists []. repeat split; simpl; lia.
      * destruct (config.ENABLE_RECORDINGS cfg); simpl.
        -- destruct (wave_write E _ _) as [e |]; simpl.
           ++ rewrite bool_decide_eq_true_2 by (apply elem_of_dom; eauto).
              eexists. split; [reflexivity |]. split; [simpl; lia | discriminate].
           ++ eexists. split; [reflexivity |]. split; [simpl; lia | discriminate].
        -- rewrite bool_decide_eq_true_2 by (apply elem_of_dom; eauto).
           eexists. split; [reflexivity |]. split; [simpl; lia | reflexivity].
  - exists []. split; [| split; [simpl; lia | reflexivity]].
    rewrite set_audio_recordings_same; [reflexivity |].
    apply delete_id. exact Hw.
Qed.

(** X23. [save_recording] never raises and always leaves the socket without
    a buffer entry, every other attribute and every other entry unchanged,
    whatever the file system answers; it writes at most one file, and none
    when capture is off. *)
Theorem flush_always_releases (E : env) (w : ws_handle) (s : agent) :
  result_of (save_recording cfg E w s) = Ret tt /\
  state_of (save_recording cfg E w s)
    = set_audio_recordings (delete w (audio_recordings s)) s /\
  List.length (files_written (trace_of (save_recording cfg E w s))) <= 1 /\
  (config.ENABLE_RECORDINGS cfg = false ->
   files_written (trace_of (save_recording cfg E w s)) = []).
Proof.
  destruct (flush_run E w s) as (t & -> & Hone & Hoff). repeat split; assumption.
Qed.

Lemma flush_each_run E ks :
  forall s,
  exists t,
    for_each ks (save_recording cfg E) s
    = (Ret tt,
       set_audio_recordings (fold_left (fun m k => delete k m) ks (audio_recordings s)) s,
       t).
Proof.
  induction ks as [| k ks IH]; intros s.
  - exists []. simpl. unfold ret. rewrite set_audio_recordings_same; reflexivity.
  - simpl. destruct (flush_run E k s) as (t1 & Hk & _).
    destruct (IH (set_audio_recordings (delete k (audio_recordings s)) s)) as (t2 & Hks).
    exists (t1 ++ t2). unfold bind. rewrite Hk, Hks. reflexivity.
Qed.

Lemma delete_each_lookup (ks : list ws_handle) :
  forall (m : gmap ws_handle (list (list Byte.byte))) k,
    fold_left (fun m k => delete k m) ks m !! k
    = if bool_decide (k ∈ ks) then None else m !! k.
Proof.
  induction ks as [| a ks IH]; intros m k; cbn [fold_left].
  - rewrite bool_decide_eq_false_2 by apply not_elem_of_nil. reflexivity.
  - rewrite IH. destruct (decide (k ∈ ks)) as [Hin | Hout].
    + rewrite !bool_decide_eq_true_2; [reflexivity | | exact Hin].
      apply elem_of_cons. right. exact Hin.
    + rewrite (bool_decide_eq_false_2 (k ∈ ks)) by exact Hout.
      destruct (decide (k = a)) as [-> | Hne].
      * rewrite bool_decide_eq_true_2 by (apply elem_of_cons; left; reflexivity).
        apply lookup_delete_eq.
      * rewrite bool_decide_eq_false_2.
        -- apply lookup_delete_ne. congruence.
        -- intros Hc. apply elem_of_cons in Hc as [? | ?]; contradiction.
Qed.

Lemma delete_all (m : gmap ws_handle (list (list Byte.byte))) :
  fold_left (fun m k => delete k m) (elements (dom m)) m = ∅.
Proof.
  apply map_eq. intros k. rewrite delete_each_lookup, lookup_empty.
  destruct (decide (k ∈ elements (dom m))) as [Hin | Hout].
  - rewrite bool_decide_eq_true_2 by exact Hin. reflexivity.
  - rewrite bool_decide_eq_false_2 by exact Hout.
    apply not_elem_of_dom. intros Hd. apply Hout, elem_of_elements, Hd.
Qed.

Lemma flush_trace E w s :
  List.filter is_upstream (trace_of (save_recording cfg E w s)) = [] /\
  (config.ENABLE_RECORDINGS cfg = true ->
   audio_written (trace_of (save_recording cfg E w s)) = pending_audio s [w]).
Proof.
  unfold pending_audio, captured, save_recording, del_recording. run.
  destruct (audio_recordings s !! w) as [chunks |] eqn:Hw; [| split; reflexivity].
  destruct chunks as [| c chunks]; [split; reflexivity |].
  destruct (List.concat (c :: chunks)) as [| b data] eqn:Hdata; simpl;
    [split; reflexivity |].
  destruct (config.ENABLE_RECORDINGS cfg); simpl.
  - destruct (wave_write E _ _) as [e |]; simpl.
    + rewrite bool_decide_eq_true_2 by (apply elem_of_dom; eauto). split; reflexivity.
    + split; reflexivity.
  - rewrite bool_decide_eq_true_2 by (apply elem_of_dom; eauto). split; [reflexivity |].
    discriminate.
Qed.

Lemma filter_app_nil {A : Type} (P : A -> bool) (l r : list A) :
  List.filter P l = [] -> List.filter P r = [] -> List.filter P (l ++ r) = [].
Proof.
  intros Hl Hr. induction l as [| x l IH]; [exact Hr |].
  simpl in *. destruct (P x); [discriminate Hl | apply IH, Hl].
Qed.

Lemma audio_written_app t1 t2 :
  audio_written (t1 ++ t2) = audio_written t1 ++ audio_written t2.
Proof. apply flat_map_app. Qed.

Lemma pending_audio_deleted k ks s :
  k ∉ ks ->
  pending_audio (set_audio_recordings (delete k (audio_recordings s)) s) ks
  = pending_audio s ks.
Proof.
  intros Hk. unfold pending_audio. induction ks as [| a ks IH]; [reflexivity |].
  cbn [flat_map]. rewrite IH by (intros Hin; apply Hk; right; exact Hin).
  assert (Ha : captured (set_audio_recordings (delete k (audio_recordings s)) s) a
               = captured s a).
  { unfold captured. cbn. rewrite lookup_delete_ne; [reflexivity |].
    intros ->. apply Hk. left. }
  rewrite Ha. reflexivity.
Qed.

(** Flushing the sockets [ks] one after the other writes the audio of each
    socket that has some, and touches nothing upstream. *)
Lemma flush_each_trace E ks :
  NoDup ks ->
  forall s,
    List.filter is_upstream (trace_of (for_each ks (save_recording cfg E) s)) = [] /\
    (config.ENABLE_RECORDINGS cfg = true ->
     audio_written (trace_of (for_each ks (save_recording cfg E) s)) = pending_audio s ks).
Proof.
  induction 1 as [| k ks Hk _ IH]; intros s; [split; reflexivity |].
  destruct (flush_run E k s) as (t1 & Hrun & _).
  destruct (flush_trace E k s) as [Hu1 Ha1]. rewrite Hrun in Hu1, Ha1.
  cbn [trace_of snd] in Hu1, Ha1.
  destruct (IH (set_audio_recordings (delete k (audio_recordings s)) s)) as [Hu2 Ha2].
  cbn [for_each]. unfold bind. rewrite Hrun.
  destruct (for_each ks (save_recording cfg E)
              (set_audio_recordings (delete k (audio_recordings s)) s)) as [[r s2] t2].
  cbn [trace_of snd] in *. split.
  - apply filter_app_nil; assumption.
  - intros Hon. rewrite audio_written_app, (Ha1 Hon), (Ha2 Hon).
    rewrite (pending_audio_deleted k ks s Hk).
    unfold pending_audio. cbn [flat_map]. rewrite app_nil_r. reflexivity.
Qed.

Lemma cleanup_run E s :
  cleanup cfg E s
  = (match openai_ws s with
     | Some u => match ws_close E u with Some e => Raise e | None => Ret tt end
     | None => Ret tt
     end,
     (if config.ENABLE_RECORDINGS cfg then set_audio_recordings ∅ s else s),
     (if config.ENABLE_RECORDINGS cfg
      then trace_of (for_each (elements (dom (audio_recordings s))) (save_recording cfg E) s)
      else [])
     ++ match openai_ws s with
        | Some u => [UpstreamClose u]
        | None => []
        end).
Proof.
  unfold cleanup. unfold bind at 1. unfold self at 1. cbv iota beta.
  destruct (config.ENABLE_RECORDINGS cfg); cbn [when].
  - destruct (flush_each_run E (elements (dom (audio_recordings s))) s) as (t & Ht).
    unfold bind at 1. rewrite Ht, delete_all. run.
    destruct (openai_ws s) as [u |]; simpl; [| reflexivity].
    destruct (ws_close E u); rewrite ?app_nil_r; reflexivity.
  - run. destruct (openai_ws s) as [u |]; simpl; [| reflexivity].
    destruct (ws_close E u); reflexivity.
Qed.

(** X24. [cleanup]: with capture on every buffer is flushed, that is, the
    audio written to files is the audio captured for each socket that has
    some, once each (whatever the order of the sockets), and the buffer map
    ends empty; with capture off nothing is written and the agent
    is unchanged.  The upstream channel, if any, is closed, and that close is
    the only upstream effect; it stays stored, and a failure of the close is
    raised. *)
Theorem cleanup_flushes_all (E : env) (s : agent) :
  state_of (cleanup cfg E s)
    = (if config.ENABLE_RECORDINGS cfg then set_audio_recordings ∅ s else s) /\
  result_of (cleanup cfg E s)
    = match openai_ws s with
      | Some u => match ws_close E u with Some e => Raise e | None => Ret tt end
      | None => Ret tt
      end /\
  Permutation
    (audio_written (trace_of (cleanup cfg E s)))
    (if config.ENABLE_RECORDINGS cfg
     then pending_audio s (elements (dom (audio_recordings s)))
     else []) /\
  List.filter is_upstream (trace_of (cleanup cfg E s))
    = match openai_ws s with
      | Some u => [UpstreamClose u]
      | None => []
      end.
Proof.
  rewrite cleanup_run. cbn [state_of result_of trace_of fst snd].
  split; [reflexivity |]. split; [reflexivity |].
  destruct (flush_each_trace E (elements (dom (audio_recordings s)))
              (NoDup_elements (dom (audio_recordings s))) s) as [Hu Ha].
  assert (Hclose : audio_written match openai_ws s with
                                 | Some u => [UpstreamClose u]
                                 | None => []
                                 end = []).
  { destruct (openai_ws s); reflexivity. }
  rewrite audio_written_app, Hclose, app_nil_r.
  destruct (config.ENABLE_RECORDINGS cfg) eqn:Hon.
  - rewrite (Ha eq_refl). split; [reflexivity |].
    rewrite List.filter_app, Hu. destruct (openai_ws s); reflexivity.
  - split; [reflexivity |]. destruct (openai_ws s); reflexivity.
Qed.

Lemma teardown_run E w s :
  exists t,
    teardown cfg E w s
    = (let s1 := if config.ENABLE_RECORDINGS cfg
                 then set_audio_recordings (delete w (audio_recordings s)) s
                 else s in
       match openai_ws s with
       | Some u =>
           match ws_close E u with
           | Some e => (Raise e, s1, t)
           | None => (Ret tt, torn_down w (set_openai_ws None s1), t)
           end
       | None => (Ret tt, torn_down w s1, t)
       end).
Proof.
  unfold teardown, torn_down.
  unfold bind at 1. unfold emit at 1. cbv iota beta.
  unfold bind at 1. unfold self at 1. cbv iota beta.
  destruct (flush_run E w s) as (t & Ht & _).
  destruct (config.ENABLE_RECORDINGS cfg) eqn:Hon; cbn [andb when].
  - destruct (bool_decide (w ∈ dom (audio_recordings s))) eqn:Hdom; cbn [when].
    + unfold bind at 1. rewrite Ht. run.
      destruct (openai_ws s) as [u |] eqn:Hu; simpl; [| eexists; reflexivity].
      destruct (ws_close E u); simpl; eexists; reflexivity.
    + apply bool_decide_eq_false_1 in Hdom. apply not_elem_of_dom in Hdom.
      rewrite (set_audio_recordings_same s (delete w (audio_recordings s)))
        by (apply delete_id, Hdom).
      run. destruct (openai_ws s) as [u |] eqn:Hu; simpl; [| eexists; reflexivity].
      destruct (ws_close E u); simpl; eexists; reflexivity.
  - run. destruct (openai_ws s) as [u |] eqn:Hu; simpl; [| eexists; reflexivity].
    destruct (ws_close E u); simpl; eexists; reflexivity.
Qed.

(** X25. The [finally] clause of the handler.  When the upstream close does
    not fail: the socket leaves the active set, the channel is forgotten, the
    session is no longer configured and, with capture on, the socket has no
    buffer entry.  When it fails: the error escapes and the socket stays
    active, the channel stored and the session flag as it was. *)
Theorem teardown_outcome (E : env) (w : ws_handle) (s : agent) :
  ((forall u, openai_ws s = Some u -> ws_close E u = None) ->
   result_of (teardown cfg E w s) = Ret tt /\
   active_connections (state_of (teardown cfg E w s)) = active_connections s ∖ {[w]} /\
   openai_ws (state_of (teardown cfg E w s)) = None /\
   session_configured (state_of (teardown cfg E w s)) = false /\
   (config.ENABLE_RECORDINGS cfg = true ->
    audio_recordings (state_of (teardown cfg E w s)) !! w = None)) /\
  (forall u e, openai_ws s = Some u -> ws_close E u = Some e ->
   result_of (teardown cfg E w s) = Raise e /\
   active_connections (state_of (teardown cfg E w s)) = active_connections s /\
   openai_ws (state_of (teardown cfg E w s)) = Some u /\
   session_configured (state_of (teardown cfg E w s)) = session_configured s).
Proof.
  destruct (teardown_run E w s) as (t & ->). cbv zeta. split.
  - intros Hclose. destruct (openai_ws s) as [u |] eqn:Hu.
    + rewrite (Hclose u eq_refl).
      destruct (config.ENABLE_RECORDINGS cfg); repeat split; try discriminate.
      intros _. apply lookup_delete_eq.
    + destruct (config.ENABLE_RECORDINGS cfg); repeat split; try discriminate;
        try exact Hu.
      intros _. apply lookup_delete_eq.
  - intros u e Hu Hc. rewrite Hu, Hc.
    destruct (config.ENABLE_RECORDINGS cfg); repeat split; assumption.
Qed.

End Flush.

(** Shutdown with two captured frames and a channel in place: the three
    bytes are written and the channel is closed. *)
Example cleanup_sample :
  audio_written (trace_of (cleanup sample_settings (calm 9%float) recording))
    = [[Byte.x01; Byte.x02; Byte.x03]] /\
  List.filter is_upstream (trace_of (cleanup sample_settings (calm 9%float) recording))
    = [UpstreamClose 100] /\
  audio_recordings (state_of (cleanup sample_settings (calm 9%float) recording)) = ∅.
Proof. vm_compute. repeat split; reflexivity. Qed.

(** ** The handler as a whole *)

(** No condition on the agent. *)
Ltac trivial_side := exact I.

Section Handler.
Variable cfg : config.settings.

Lemma setup_trace t :
  forallb is_setup t = true ->
  client_messages t = [] /\ upstream_commands t = [] /\
  forallb (fun x => negb (is_task x)) t = true.
Proof.
  induction t as [| x t IH]; [repeat split |].
  simpl. intros H. apply andb_true_iff in H as [Hx Ht].
  destruct (IH Ht) as (Hc & Hu & Hk).
  destruct x; try discriminate Hx; simpl; repeat split; assumption.
Qed.

Lemma supersede_setup E w :
  holds (fun _ => True) is_setup (supersede E w).
Proof. unfold supersede. holds_with trivial_side. Qed.

Lemma connect_setup E :
  holds (fun _ => True) is_setup (connect_to_openai cfg E).
Proof. unfold connect_to_openai, open_upstream. holds_with trivial_side. Qed.

Lemma supersede_returns E w s : result_of (supersede E w s) = Ret tt.
Proof.
  destruct (decide (active_connections s = ∅)) as [Hempty | Hne].
  - unfold supersede. run. rewrite bool_decide_eq_true_2 by assumption. reflexivity.
  - rewrite (supersede_run E w s Hne). reflexivity.
Qed.

Lemma connect_result_stateless E s s' :
  result_of (connect_to_openai cfg E s) = result_of (connect_to_openai cfg E s').
Proof.
  unfold connect_to_openai, open_upstream. run.
  destruct (provider_endpoint cfg E) as [target | e]; simpl; [| reflexivity].
  destruct (ws_connect E (fst target) additional_headers (snd target)) as [u | e]; simpl;
    [reflexivity |].
  destruct (exn_kind e); simpl; try reflexivity.
  destruct (contains "additional_headers" (exn_text e)
            || contains "extra_headers" (exn_text e)); simpl; [| reflexivity].
  destruct (ws_connect E (fst target) extra_headers (snd target)) as [u | e2]; simpl;
    [reflexivity |].
  destruct (exn_kind e2); reflexivity.
Qed.

Lemma connect_true_stores E s :
  result_of (connect_to_openai cfg E s) = Ret true ->
  exists u, openai_ws (state_of (connect_to_openai cfg E s)) = Some u.
Proof.
  unfold connect_to_openai, open_upstream. run.
  destruct (provider_endpoint cfg E) as [target | e]; simpl; [| discriminate].
  destruct (ws_connect E (fst target) additional_headers (snd target)) as [u | e]; simpl;
    [eauto |].
  destruct (exn_kind e); simpl; try discriminate.
  destruct (contains "additional_headers" (exn_text e)
            || contains "extra_headers" (exn_text e)); simpl; [| discriminate].
  destruct (ws_connect E (fst target) extra_headers (snd target)) as [u | e2]; simpl;
    [eauto |].
  destruct (exn_kind e2); discriminate.
Qed.

(** The handler up to the connection attempt. *)
Lemma accept_steps E w s :
  accept cfg E w s
  = (result_of (open_session cfg E w (state_of (supersede E w s))),
     state_of (open_session cfg E w (state_of (supersede E w s))),
     Print DBrowserConnected
       :: trace_of (supersede E w s)
       ++ trace_of (open_session cfg E w (state_of (supersede E w s)))).
Proof.
  unfold accept. unfold bind at 1. unfold print at 1. unfold emit at 1. cbv iota beta.
  rewrite (bind_run (supersede E w) (fun _ => open_session cfg E w) tt s
             (supersede_returns E w s)).
  reflexivity.
Qed.

Lemma handler_without_session E w frames ending E' s :
  result_of (accept cfg E w s) <> Ret true ->
  handle_browser_websocket cfg E w frames ending E' s
  = (match result_of (accept cfg E w s) with
     | Ret _ => Ret tt
     | Raise e => Raise e
     end,
     state_of (accept cfg E w s), trace_of (accept cfg E w s)).
Proof.
  intros Hno. unfold handle_browser_websocket, bind, result_of, state_of, trace_of in *.
  destruct (accept cfg E w s) as [[[[] | e] s1] t1]; simpl in *.
  - contradiction Hno. reflexivity.
  - unfold ret. rewrite app_nil_r. reflexivity.
  - reflexivity.
Qed.

Lemma send_ws_message_trace E w msg s :
  exists tail,
    _send_ws_message E w msg s = (Ret tt, s, ToBrowser w msg :: tail) /\
    client_messages tail = [] /\
    upstream_commands tail = [] /\
    forallb (fun x => negb (is_task x)) tail = true.
Proof.
  unfold _send_ws_message. run.
  destruct (browser_closed E w); simpl.
  - eexists; repeat split; reflexivity.
  - destruct (browser_send E w msg); simpl; eexists; repeat split; reflexivity.
Qed.

Lemma open_session_refused E w s :
  result_of (connect_to_openai cfg E s) = Ret false ->
  exists tail,
    open_session cfg E w s
    = (Ret false, state_of (connect_to_openai cfg E s),
       trace_of (connect_to_openai cfg E s) ++ ToBrowser w connect_failed :: tail) /\
    client_messages tail = [] /\
    upstream_commands tail = [] /\
    forallb (fun x => negb (is_task x)) tail = true.
Proof.
  intros Hfail.
  destruct (send_ws_message_trace E w connect_failed (state_of (connect_to_openai cfg E s)))
    as (tail & Hsend & Htail).
  exists tail. split; [| exact Htail].
  unfold open_session, bind, result_of, state_of, trace_of in *.
  destruct (connect_to_openai cfg E s) as [[r s1] t1]. simpl in *. subst r.
  simpl. rewrite Hsend. unfold ret. rewrite app_nil_r. reflexivity.
Qed.

(** X26. When the upstream connection cannot be made the handler returns
    normally after telling the client so once: no loop, no task started or
    cancelled, no upstream command, and the socket is left in the active set
    (the [finally] clause is not reached). *)
Theorem failed_connect_abandons (E : env) (w : ws_handle) (frames : list (env * frame))
    (ending : option exn) (E' : env) (s : agent) :
  result_of (connect_to_openai cfg E s) = Ret false ->
  result_of (handle_browser_websocket cfg E w frames ending E' s) = Ret tt /\
  client_messages (trace_of (handle_browser_websocket cfg E w frames ending E' s))
    = [connect_failed] /\
  upstream_commands (trace_of (handle_browser_websocket cfg E w frames ending E' s)) = [] /\
  forallb (fun x => negb (is_task x))
    (trace_of (handle_browser_websocket cfg E w frames ending E' s)) = true /\
  active_connections (state_of (handle_browser_websocket cfg E w frames ending E' s))
    = {[w]}.
Proof.
  intros Hfail.
  rewrite (connect_result_stateless E s (state_of (supersede E w s))) in Hfail.
  destruct (open_session_refused E w _ Hfail) as (tail & Hopen & Hc & Hu & Hk).
  assert (Haccept : result_of (accept cfg E w s) = Ret false).
  { rewrite accept_steps, Hopen. reflexivity. }
  rewrite handler_without_session by (rewrite Haccept; discriminate).
  rewrite Haccept. cbn [result_of state_of trace_of fst snd].
  split; [reflexivity |].
  pose proof (accept_alone cfg E w s) as Halone.
  rewrite accept_steps in *. cbn [result_of state_of trace_of fst snd] in *.
  rewrite Hopen in *. cbn [result_of state_of trace_of fst snd] in *.
  destruct (supersede_setup E w s I) as [_ Hs1].
  destruct (connect_setup E (state_of (supersede E w s)) I) as [_ Hs2].
  apply setup_trace in Hs1 as (Hc1 & Hu1 & Hk1).
  apply setup_trace in Hs2 as (Hc2 & Hu2 & Hk2).
  repeat split.
  - unfold client_messages in *. cbn [flat_map app].
    rewrite !flat_map_app. cbn [flat_map app]. rewrite Hc1, Hc2, Hc. reflexivity.
  - unfold upstream_commands in *. cbn [flat_map app].
    rewrite !flat_map_app. cbn [flat_map app]. rewrite Hu1, Hu2, Hu. reflexivity.
  - cbn [forallb is_task negb andb]. rewrite !forallb_app. cbn [forallb is_task negb andb].
    rewrite Hk1, Hk2, Hk. reflexivity.
  - exact Halone.
Qed.

Lemma open_session_unconfigured E w s e :
  result_of (connect_to_openai cfg E s) = Ret true ->
  (forall u, ws_send E u session_config = Some e) ->
  exists u,
    openai_ws (state_of (connect_to_openai cfg E s)) = Some u /\
    open_session cfg E w s
    = (Raise e, state_of (connect_to_openai cfg E s),
       trace_of (connect_to_openai cfg E s) ++ [UpstreamSend u session_config]).
Proof.
  intros Hok Hsend. destruct (connect_true_stores E s Hok) as [u Hu].
  exists u. split; [exact Hu |].
  unfold open_session, bind, result_of, state_of, trace_of in *.
  destruct (connect_to_openai cfg E s) as [[r s1] t1]. simpl in *. subst r. simpl.
  unfold configure_session. run. rewrite Hu, (Hsend u). reflexivity.
Qed.

(** X27. When the connection is made but the send of the session
    configuration fails, the error escapes the handler: no task is started or
    cancelled, the socket stays in the active set and the channel stays
    stored. *)
Theorem session_setup_failure_escapes (E : env) (w : ws_handle)
    (frames : list (env * frame)) (ending : option exn) (E' : env) (s : agent) (e : exn) :
  result_of (connect_to_openai cfg E s) = Ret true ->
  (forall u, ws_send E u session_config = Some e) ->
  result_of (handle_browser_websocket cfg E w frames ending E' s) = Raise e /\
  forallb (fun x => negb (is_task x))
    (trace_of (handle_browser_websocket cfg E w frames ending E' s)) = true /\
  active_connections (state_of (handle_browser_websocket cfg E w frames ending E' s))
    = {[w]} /\
  openai_ws (state_of (handle_browser_websocket cfg E w frames ending E' s)) <> None.
Proof.
  intros Hok Hsend.
  rewrite (connect_result_stateless E s (state_of (supersede E w s))) in Hok.
  destruct (open_session_unconfigured E w _ e Hok Hsend) as (u & Hu & Hopen).
  assert (Haccept : result_of (accept cfg E w s) = Raise e).
  { rewrite accept_steps, Hopen. reflexivity. }
  rewrite handler_without_session by (rewrite Haccept; discriminate).
  rewrite Haccept. cbn [result_of state_of trace_of fst snd].
  split; [reflexivity |].
  pose proof (accept_alone cfg E w s) as Halone.
  rewrite accept_steps in *. cbn [result_of state_of trace_of fst snd] in *.
  rewrite Hopen in *. cbn [result_of state_of trace_of fst snd] in *.
  destruct (supersede_setup E w s I) as [_ Hs1].
  destruct (connect_setup E (state_of (supersede E w s)) I) as [_ Hs2].
  apply setup_trace in Hs1 as (_ & _ & Hk1).
  apply setup_trace in Hs2 as (_ & _ & Hk2).
  repeat split.
  - cbn [forallb is_task negb andb]. rewrite !forallb_app. cbn [forallb is_task negb andb].
    rewrite Hk1, Hk2. reflexivity.
  - exact Halone.
  - rewrite Hu. discriminate.
Qed.

Lemma guarded_loop_returns w frames ending s :
  result_of (guarded_loop cfg w frames ending s) = Ret tt.
Proof.
  apply try_except_returns. intros e s'. destruct (exn_kind e); reflexivity.
Qed.

Lemma handler_with_session E w frames ending E' s :
  result_of (accept cfg E w s) = Ret true ->
  handle_browser_websocket cfg E w frames ending E' s
  = (result_of (teardown cfg E' w
                  (state_of (guarded_loop cfg w frames ending (state_of (accept cfg E w s))))),
     state_of (teardown cfg E' w
                 (state_of (guarded_loop cfg w frames ending (state_of (accept cfg E w s))))),
     trace_of (accept cfg E w s)
     ++ trace_of (guarded_loop cfg w frames ending (state_of (accept cfg E w s)))
     ++ trace_of (teardown cfg E' w
                    (state_of (guarded_loop cfg w frames ending (state_of (accept cfg E w s)))))).
Proof.
  intros Hgo. unfold handle_browser_websocket.
  rewrite (bind_run _ _ true s Hgo). cbn [when].
  fold (guarded_loop cfg w frames ending).
  rewrite (bind_run (guarded_loop cfg w frames ending) (fun _ => teardown cfg E' w) tt _
             (guarded_loop_returns w frames ending _)).
  cbn [result_of state_of trace_of fst snd]. reflexivity.
Qed.

Lemma session_steps_alone w s s2 :
  session_steps cfg w s s2 -> active_connections s2 = active_connections s.
Proof.
  induction 1 as [s | s s' E message _ IH | s s' E message _ IH].
  - reflexivity.
  - rewrite <- (keeps_on_browser_message cfg E w message s'). exact IH.
  - rewrite <- (keeps_on_openai_message E w message s'). exact IH.
Qed.

Lemma session_steps_loop w frames s :
  session_steps cfg w s (state_of (browser_loop cfg w frames s)).
Proof.
  assert (H : forall s0, session_steps cfg w s s0 ->
                         session_steps cfg w s (state_of (browser_loop cfg w frames s0))).
  { induction frames as [| [E message] rest IH]; intros s0 Hs0; [exact Hs0 |].
    rewrite browser_loop_cons. cbn [state_of fst snd].
    apply IH. apply session_frame, Hs0. }
  apply H, session_started.
Qed.

Lemma guarded_loop_state w frames ending s :
  state_of (guarded_loop cfg w frames ending s) = state_of (browser_loop cfg w frames s).
Proof.
  pose proof (browser_loop_returns cfg w frames s) as Hr.
  unfold guarded_loop, try_except, bind, result_of, state_of in *.
  destruct (browser_loop cfg w frames s) as [[r s1] t1]. simpl in Hr. subst r.
  destruct ending as [e |]; simpl; [| reflexivity].
  destruct (exn_kind e); reflexivity.
Qed.

(** The [finally] clause on an agent whose only active connection is the
    handler's own. *)
Lemma teardown_releases E w s :
  active_connections s = {[w]} ->
  (forall u, ws_close E u = None) ->
  result_of (teardown cfg E w s) = Ret tt /\ released cfg w (state_of (teardown cfg E w s)).
Proof.
  intros Halone Hclose. unfold released.
  destruct (teardown_run cfg E w s) as (t & ->). cbv zeta.
  destruct (openai_ws s) as [u |] eqn:Hu.
  - rewrite (Hclose u).
    destruct (config.ENABLE_RECORDINGS cfg); cbn; rewrite Halone;
      repeat split; try discriminate; try apply difference_diag_L.
    intros _. apply lookup_delete_eq.
  - destruct (config.ENABLE_RECORDINGS cfg); cbn; rewrite Halone;
      repeat split; try discriminate; try apply difference_diag_L; try exact Hu.
    intros _. apply lookup_delete_eq.
Qed.

Lemma open_session_true E w s :
  result_of (open_session cfg E w s) = Ret true ->
  exists u, openai_ws (state_of (open_session cfg E w s)) = Some u.
Proof.
  intros Hgo. pose proof (connect_true_stores E s) as Hst.
  destruct (send_ws_message_run E w connect_failed (state_of (connect_to_openai cfg E s)))
    as (tail & Hsend & _).
  unfold open_session, bind, result_of, state_of in *.
  destruct (connect_to_openai cfg E s) as [[[b | e] s1] t1]; simpl in *; [| discriminate Hgo].
  destruct b; simpl in *.
  - destruct (Hst eq_refl) as [u Hu]. exists u.
    unfold configure_session in *. run. rewrite Hu in *.
    destruct (ws_send E u session_config); simpl in *; [discriminate Hgo | exact Hu].
  - rewrite Hsend in Hgo. discriminate Hgo.
Qed.

(** The [finally] clause of a handler whose socket is no longer the active
    one: the channel it closes and forgets is the successor's. *)
Lemma teardown_superseded E w w2 s u :
  w2 <> w ->
  active_connections s = {[w2]} ->
  openai_ws s = Some u ->
  ws_close E u = None ->
  In (UpstreamClose u) (trace_of (teardown cfg E w s)) /\
  active_connections (state_of (teardown cfg E w s)) = {[w2]} /\
  openai_ws (state_of (teardown cfg E w s)) = None /\
  session_configured (state_of (teardown cfg E w s)) = false.
Proof.
  intros Hne Halone Hu Hclose.
  assert (Hkeep : ({[w2]} : gset ws_handle) ∖ {[w]} = {[w2]}).
  { apply set_eq. intros x. rewrite elem_of_difference, !elem_of_singleton.
    split; [intros [Hx _]; exact Hx | intros ->; split; [reflexivity | exact Hne]]. }
  split.
  - unfold teardown.
    unfold bind at 1. unfold emit at 1. cbv iota beta.
    unfold bind at 1. unfold self at 1. cbv iota beta.
    destruct (flush_run cfg E w s) as (t & Ht & _).
    destruct (config.ENABLE_RECORDINGS cfg && bool_decide (w ∈ dom (audio_recordings s)));
      cbn [when].
    + unfold bind at 1. rewrite Ht. run. rewrite Hu, Hclose. simpl.
      right. apply in_or_app. right. left. reflexivity.
    + run. rewrite Hu, Hclose. simpl. right. left. reflexivity.
  - destruct (teardown_run cfg E w s) as (t & ->). cbv zeta. rewrite Hu, Hclose.
    destruct (config.ENABLE_RECORDINGS cfg); cbn; rewrite Halone, Hkeep; repeat split.
Qed.

(** X28. A handler that got its session, when the upstream close of its
    [finally] clause succeeds.  (1) If no other client arrives during its
    life, that is, whatever frames of its client and events of the provider
    come in between, in any order, the [finally] clause returns normally and
    leaves no active connection, no upstream channel, the session not
    configured and, with capture on, no buffer entry for the socket.  (2) So
    does the handler run as one block, whatever the frames and whatever ended
    the iteration.  (3) If another client has arrived and got its session
    before the [finally] clause runs, the clause leaves that successor
    active, and the channel it closes and forgets is the successor's, whose
    session it marks as not configured. *)
Theorem handler_leaves_nothing (E : env) (w : ws_handle) (E' : env) (s : agent) :
  result_of (accept cfg E w s) = Ret true ->
  (forall u, ws_close E' u = None) ->
  (forall s2,
     session_steps cfg w (state_of (accept cfg E w s)) s2 ->
     result_of (teardown cfg E' w s2) = Ret tt /\
     released cfg w (state_of (teardown cfg E' w s2))) /\
  (forall frames ending,
     result_of (handle_browser_websocket cfg E w frames ending E' s) = Ret tt /\
     released cfg w (state_of (handle_browser_websocket cfg E w frames ending E' s))) /\
  (forall s2 E2 w2,
     session_steps cfg w (state_of (accept cfg E w s)) s2 ->
     w2 <> w ->
     result_of (accept cfg E2 w2 s2) = Ret true ->
     exists u2,
       openai_ws (state_of (accept cfg E2 w2 s2)) = Some u2 /\
       In (UpstreamClose u2) (trace_of (teardown cfg E' w (state_of (accept cfg E2 w2 s2)))) /\
       active_connections (state_of (teardown cfg E' w (state_of (accept cfg E2 w2 s2))))
         = {[w2]} /\
       openai_ws (state_of (teardown cfg E' w (state_of (accept cfg E2 w2 s2)))) = None /\
       session_configured (state_of (teardown cfg E' w (state_of (accept cfg E2 w2 s2))))
         = false).
Proof.
  intros Hgo Hclose.
  assert (Hown : forall s2,
            session_steps cfg w (state_of (accept cfg E w s)) s2 ->
            result_of (teardown cfg E' w s2) = Ret tt /\
            released cfg w (state_of (teardown cfg E' w s2))).
  { intros s2 Hsteps. apply teardown_releases; [| exact Hclose].
    rewrite (session_steps_alone w _ s2 Hsteps). apply accept_alone. }
  split; [exact Hown |]. split.
  - intros frames ending.
    rewrite (handler_with_session E w frames ending E' s Hgo).
    cbn [result_of state_of trace_of fst snd].
    change (snd (fst (accept cfg E w s))) with (state_of (accept cfg E w s)).
    change (snd (fst (guarded_loop cfg w frames ending (state_of (accept cfg E w s)))))
      with (state_of (guarded_loop cfg w frames ending (state_of (accept cfg E w s)))).
    rewrite guarded_loop_state.
    apply (Hown _ (session_steps_loop w frames (state_of (accept cfg E w s)))).
  - intros s2 E2 w2 _ Hne Hgo2.
    assert (Hu2 : exists u2, openai_ws (state_of (accept cfg E2 w2 s2)) = Some u2).
    { rewrite accept_steps in Hgo2 |- *. cbn [result_of state_of fst snd] in *.
      apply open_session_true, Hgo2. }
    destruct Hu2 as [u2 Hu2]. exists u2. split; [exact Hu2 |].
    apply (teardown_superseded E' w w2 _ u2 Hne (accept_alone cfg E2 w2 s2) Hu2 (Hclose u2)).
Qed.

Lemma capture_off_step E w message :
  config.ENABLE_RECORDINGS cfg = false ->
  holds (fun s => audio_recordings s = ∅) (fun _ => true)
        (on_browser_message cfg E w message).
Proof.
  intros Hoff. unfold_methods. rewrite Hoff. unfold when. cbv beta iota.
  holds_with field_side.
Qed.

Lemma capture_off_event E w message :
  holds (fun s => audio_recordings s = ∅) (fun _ => true) (on_openai_message E w message).
Proof. unfold_methods. holds_with field_side. Qed.

Lemma capture_off_accept E w :
  holds (fun s => audio_recordings s = ∅) (fun _ => true) (accept cfg E w).
Proof.
  unfold accept, supersede, open_session, connect_to_openai, open_upstream,
    configure_session, _send_ws_message.
  holds_with field_side.
Qed.

Lemma capture_off_teardown E w :
  config.ENABLE_RECORDINGS cfg = false ->
  holds (fun s => audio_recordings s = ∅) (fun _ => true) (teardown cfg E w).
Proof.
  intros Hoff. unfold_methods. rewrite Hoff. unfold when, andb. cbv beta iota.
  holds_with field_side.
Qed.

(** X29. With capture off no audio is ever kept: the buffer map is empty in
    every state the bridge reaches. *)
Theorem capture_off_keeps_nothing (s : agent) :
  config.ENABLE_RECORDINGS cfg = false ->
  reachable cfg s ->
  audio_recordings s = ∅.
Proof.
  intros Hoff.
  induction 1 as [| s E w _ IH | s E w message _ IH | s E w message _ IH | s E w _ IH].
  - reflexivity.
  - apply (capture_off_accept E w s IH).
  - apply (capture_off_step E w message Hoff s IH).
  - apply (capture_off_event E w message s IH).
  - apply (capture_off_teardown E w Hoff s IH).
Qed.

End Handler.

Lemma failed_connect_witness :
  result_of (connect_to_openai sample_settings
               (refusing (mk_exn OSError "Name or service not known")) live) = Ret false /\
  client_messages
    (trace_of (handle_browser_websocket sample_settings
                 (refusing (mk_exn OSError "Name or service not known")) 2
                 [(calm 2%float, audio_frame "AQI=")] None (calm 3%float) live))
    = [connect_failed].
Proof.
  split; [reflexivity |].
  exact (proj1 (proj2 (failed_connect_abandons sample_settings
                         (refusing (mk_exn OSError "Name or service not known")) 2
                         [(calm 2%float, audio_frame "AQI=")] None (calm 3%float) live
                         eq_refl))).
Defined.

Lemma session_setup_failure_witness :
  result_of (connect_to_openai sample_settings (hung_up 1%float) init) = Ret true /\
  result_of (handle_browser_websocket sample_settings (hung_up 1%float) 1
               [(calm 2%float, audio_frame "AQI=")] None (calm 3%float) init)
  = Raise (mk_exn OSError "Connection reset by peer").
Proof.
  split; [reflexivity |].
  exact (proj1 (session_setup_failure_escapes sample_settings (hung_up 1%float) 1
                  [(calm 2%float, audio_frame "AQI=")] None (calm 3%float) init
                  (mk_exn OSError "Connection reset by peer")
                  eq_refl (fun _ => eq_refl))).
Defined.

Lemma handler_leaves_nothing_witness :
  result_of (accept sample_settings (calm 1%float) 1 init) = Ret true /\
  released sample_settings 1
    (state_of (handle_browser_websocket sample_settings (calm 1%float) 1
                 [(hearing 2%float, audio_frame "AQI=")]
                 (Some (mk_exn ConnectionClosed "no close frame received or sent"))
                 (calm 3%float) init)) /\
  (result_of (accept sample_settings (calm 2%float) 2
                (state_of (accept sample_settings (calm 1%float) 1 init))) = Ret true /\
   active_connections
     (state_of (teardown sample_settings (calm 3%float) 1
                  (state_of (accept sample_settings (calm 2%float) 2
                               (state_of (accept sample_settings (calm 1%float) 1 init))))))
   = {[2]} /\
   openai_ws
     (state_of (teardown sample_settings (calm 3%float) 1
                  (state_of (accept sample_settings (calm 2%float) 2
                               (state_of (accept sample_settings (calm 1%float) 1 init))))))
   = None).
Proof.
  assert (Hgo : result_of (accept sample_settings (calm 1%float) 1 init) = Ret true).
  { vm_compute. reflexivity. }
  assert (Hgo2 : result_of (accept sample_settings (calm 2%float) 2
                              (state_of (accept sample_settings (calm 1%float) 1 init)))
                 = Ret true).
  { vm_compute. reflexivity. }
  pose proof (handler_leaves_nothing sample_settings (calm 1%float) 1 (calm 3%float) init
                Hgo (fun _ => eq_refl)) as (_ & Hblock & Hnext).
  split; [exact Hgo |]. split; [apply Hblock |]. split; [exact Hgo2 |].
  destruct (Hnext _ (calm 2%float) 2 (session_started _ _ _) ltac:(discriminate) Hgo2)
    as (u2 & _ & _ & Hactive & Hnone & _).
  split; [exact Hactive | exact Hnone].
Defined.

Lemma capture_off_witness :
  config.ENABLE_RECORDINGS azure_complete = false /\
  reachable azure_complete
    (state_of (on_browser_message azure_complete (hearing 2%float) 1 (audio_frame "AQI=")
                 init)) /\
  audio_recordings
    (state_of (on_browser_message azure_complete (hearing 2%float) 1 (audio_frame "AQI=")
                 init)) = ∅.
Proof.
  assert (Hr : reachable azure_complete
                 (state_of (on_browser_message azure_complete (hearing 2%float) 1
                              (audio_frame "AQI=") init))).
  { apply reach_browser_message, reach_init. }
  split; [reflexivity |]. split; [exact Hr |].
  exact (capture_off_keeps_nothing azure_complete _ eq_refl Hr).
Defined.
